(** * OpenNOW flight controls: report decoding, gamepad mapping, change
      detection and capture shutdown

    A shallow embedding of
    [opennow-stable/src/main/flight/FlightControlsService.ts].

    Conventions of the embedding.
    - A JavaScript [number] that the code uses as an integer (byte offsets,
      bit positions, raw field values, button masks, gamepad fields) is a
      [Z]; the 32-bit behaviour of the bitwise operators is written out in
      module [Js].
    - A JavaScript [number] that carries a fraction (normalised axes,
      deadzone, sensitivity, range bounds) is an exact rational [Q]:
      IEEE rounding, infinities and NaN are outside the model.
    - A [Buffer] is a [list byte]; its read methods throw a [RangeError]
      out of range, which the embedding renders as [None].
    - Array indices ([sourceIndex]) are [nat]; an index that is negative or
      not an integer, which JavaScript answers with [undefined], is outside
      the model.
    - Division is the total division of [Q].  The code divides by
      [1 - deadzone], which is zero only for a deadzone of 1, outside the
      range [0, 0.5] of the data model, and by [range] only when
      [range > 0]. *)

From Stdlib Require Import ZArith QArith Qround Qabs Qminmax Qpower.
From Stdlib Require Import List Bool String Lia Lqa.
From Stdlib.Strings Require Import Byte.
From Stdlib Require Import Ascii HexString.
Import ListNotations.

Local Open Scope Z_scope.

(** ** JavaScript primitives *)

Module Js.

(** [ToInt32]: wrap an integer into the signed 32-bit range. *)
Definition toInt32 (z : Z) : Z := (z + 2 ^ 31) mod 2 ^ 32 - 2 ^ 31.

(** [a << b]: the shift count is taken modulo 32, the result wraps. *)
Definition shl (a b : Z) : Z := toInt32 (Z.shiftl (toInt32 a) (b mod 32)).

(** [a >> b]: sign-propagating right shift. *)
Definition shr (a b : Z) : Z := Z.shiftr (toInt32 a) (b mod 32).

(** [a & b] and [a | b] on 32-bit operands. *)
Definition band (a b : Z) : Z := Z.land (toInt32 a) (toInt32 b).
Definition bor (a b : Z) : Z := Z.lor (toInt32 a) (toInt32 b).

(** [x < y] on fractional numbers. *)
Definition Qltb (x y : Q) : bool := negb (Qle_bool y x).

(** [Math.round]: nearest integer, ties towards plus infinity. *)
Definition Math_round (x : Q) : Z := Qfloor (x + (1 # 2)).

(** [Math.pow(x, 2)]. *)
Definition Math_pow2 (x : Q) : Q := (x * x)%Q.

(** An error monad for code that may throw. *)
Definition bind {A B} (m : option A) (k : A -> option B) : option B :=
  match m with
  | Some a => k a
  | None => None
  end.

(** [for (const x of xs) out.push(f x)], where [f] may throw. *)
Fixpoint forPush {A B} (f : A -> option B) (xs : list A) : option (list B) :=
  match xs with
  | [] => Some []
  | x :: rest =>
      bind (f x) (fun y => bind (forPush f rest) (fun ys => Some (y :: ys)))
  end.

(** [try { body } catch { handler }] for a body that may throw. *)
Definition tryCatch {A} (body : option A) (handler : A) : A :=
  match body with
  | Some a => a
  | None => handler
  end.

(** Truthiness of a nullable string. *)
Definition truthy (s : option string) : bool :=
  match s with
  | Some EmptyString => false
  | Some _ => true
  | None => false
  end.

End Js.

Notation "x <- m ;; k" := (Js.bind m (fun x => k))
  (at level 61, m at next level, right associativity).

(** ** Node's Buffer *)

Module Buffer.

Definition t := list byte.

Definition length (b : t) : Z := Z.of_nat (List.length b).

Definition byteAt (b : t) (i : Z) : Z :=
  Z.of_N (Byte.to_N (nth (Z.to_nat i) b x00)).

(** [buf.readUInt8(offset)] requires [0 <= offset <= length - 1]. *)
Definition readUInt8 (b : t) (offset : Z) : option Z :=
  if (0 <=? offset) && (offset <=? length b - 1)
  then Some (byteAt b offset)
  else None.

(** [buf.readUInt16LE(offset)] requires [0 <= offset <= length - 2]. *)
Definition readUInt16LE (b : t) (offset : Z) : option Z :=
  if (0 <=? offset) && (offset <=? length b - 2)
  then Some (byteAt b offset + 256 * byteAt b (offset + 1))
  else None.

Definition readUInt16BE (b : t) (offset : Z) : option Z :=
  if (0 <=? offset) && (offset <=? length b - 2)
  then Some (256 * byteAt b offset + byteAt b (offset + 1))
  else None.

End Buffer.

(** ** Data model

    Modelled from the spec: the declarations of [FlightHidReportLayout],
    [FlightProfile], [FlightControlsState] and [FlightGamepadState]
    (module [@shared/gfn]) are not among the sources; the records below
    take their fields from the spec's data model and from the way
    [FlightControlsService.ts] uses them. *)

Module AxisField.
Record t := mk {
  byteOffset : Z;
  byteCount : Z;
  littleEndian : bool;
  unsigned : bool;
  rangeMin : Q;
  rangeMax : Q
}.
End AxisField.

Module ButtonField.
Record t := mk {
  byteOffset : Z;
  bitIndex : Z
}.
End ButtonField.

Module HatField.
Record t := mk {
  byteOffset : Z;
  bitOffset : Z;
  bitCount : Z;
  centerValue : Z
}.
End HatField.

Module Layout.
Record t := mk {
  skipReportId : bool;
  axes : list AxisField.t;
  buttons : list ButtonField.t;
  hat : option HatField.t
}.
End Layout.

Module ParsedReport.
Record t := mk {
  axes : list Q;
  buttons : list bool;
  hatSwitch : Z
}.
End ParsedReport.

(** ** parseReport *)

Definition baseOffset (layout : Layout.t) : Z :=
  if Layout.skipReportId layout then 1 else 0.

(** Body of the loop over [layout.axes]. *)
Definition parseAxis (bytes : Buffer.t) (offset : Z) (axisDef : AxisField.t)
  : option Q :=
  let byteIdx := offset + AxisField.byteOffset axisDef in
  if byteIdx + AxisField.byteCount axisDef >? Buffer.length bytes then Some 0%Q
  else
    rawValue <-
      (if AxisField.byteCount axisDef =? 2 then
         rawValue <- (if AxisField.littleEndian axisDef
                      then Buffer.readUInt16LE bytes byteIdx
                      else Buffer.readUInt16BE bytes byteIdx) ;;
         Some (if negb (AxisField.unsigned axisDef) && (rawValue >? 32767)
               then rawValue - 65536 else rawValue)
       else
         rawValue <- Buffer.readUInt8 bytes byteIdx ;;
         Some (if negb (AxisField.unsigned axisDef) && (rawValue >? 127)
               then rawValue - 256 else rawValue)) ;;
    let range := (AxisField.rangeMax axisDef - AxisField.rangeMin axisDef)%Q in
    let normalized :=
      if Js.Qltb 0 range
      then ((inject_Z rawValue - AxisField.rangeMin axisDef) / range)%Q
      else 0%Q in
    Some (Qmax 0 (Qmin 1 normalized)).

(** Body of the loop over [layout.buttons]. *)
Definition parseButton (bytes : Buffer.t) (offset : Z) (btnDef : ButtonField.t)
  : option bool :=
  let byteIdx := offset + ButtonField.byteOffset btnDef in
  if byteIdx >=? Buffer.length bytes then Some false
  else
    byte <- Buffer.readUInt8 bytes byteIdx ;;
    Some (negb (Js.band byte (Js.shl 1 (ButtonField.bitIndex btnDef)) =? 0)).

Definition parseHat (bytes : Buffer.t) (offset : Z) (hat : option HatField.t)
  : option Z :=
  match hat with
  | None => Some (-1)
  | Some h =>
      let byteIdx := offset + HatField.byteOffset h in
      if byteIdx <? Buffer.length bytes then
        byte <- Buffer.readUInt8 bytes byteIdx ;;
        let hatValue :=
          Js.band (Js.shr byte (HatField.bitOffset h))
                  (Js.shl 1 (HatField.bitCount h) - 1) in
        Some (if hatValue =? HatField.centerValue h then -1 else hatValue)
      else Some (-1)
  end.

Definition parseReport (data : Buffer.t) (layout : Layout.t)
  : option ParsedReport.t :=
  let offset := baseOffset layout in
  let bytes := data in
  axes <- Js.forPush (parseAxis bytes offset) (Layout.axes layout) ;;
  buttons <- Js.forPush (parseButton bytes offset) (Layout.buttons layout) ;;
  hatSwitch <- parseHat bytes offset (Layout.hat layout) ;;
  Some (ParsedReport.mk axes buttons hatSwitch).

(** ** Profiles and gamepad state *)

Module Target.
Inductive t :=
| leftStickX | leftStickY | rightStickX | rightStickY
| leftTrigger | rightTrigger.
End Target.

Inductive Curve := linear | expo.

Module AxisMapping.
Record t := mk {
  sourceIndex : nat;
  target : Target.t;
  inverted : bool;
  deadzone : Q;
  sensitivity : Q;
  curve : Curve
}.
End AxisMapping.

Module ButtonMapping.
Record t := mk {
  sourceIndex : nat;
  targetButton : Z
}.
End ButtonMapping.

Module Profile.
Record t := mk {
  axisMappings : list AxisMapping.t;
  buttonMappings : list ButtonMapping.t
}.
End Profile.

Module Gamepad.
Record t := mk {
  controllerId : Z;
  buttons : Z;
  leftTrigger : Z;
  rightTrigger : Z;
  leftStickX : Z;
  leftStickY : Z;
  rightStickX : Z;
  rightStickY : Z;
  connected : bool
}.

Definition set_buttons (v : Z) (s : t) : t :=
  mk (controllerId s) v (leftTrigger s) (rightTrigger s)
     (leftStickX s) (leftStickY s) (rightStickX s) (rightStickY s)
     (connected s).
Definition set_leftTrigger (v : Z) (s : t) : t :=
  mk (controllerId s) (buttons s) v (rightTrigger s)
     (leftStickX s) (leftStickY s) (rightStickX s) (rightStickY s)
     (connected s).
Definition set_rightTrigger (v : Z) (s : t) : t :=
  mk (controllerId s) (buttons s) (leftTrigger s) v
     (leftStickX s) (leftStickY s) (rightStickX s) (rightStickY s)
     (connected s).
Definition set_leftStickX (v : Z) (s : t) : t :=
  mk (controllerId s) (buttons s) (leftTrigger s) (rightTrigger s)
     v (leftStickY s) (rightStickX s) (rightStickY s) (connected s).
Definition set_leftStickY (v : Z) (s : t) : t :=
  mk (controllerId s) (buttons s) (leftTrigger s) (rightTrigger s)
     (leftStickX s) v (rightStickX s) (rightStickY s) (connected s).
Definition set_rightStickX (v : Z) (s : t) : t :=
  mk (controllerId s) (buttons s) (leftTrigger s) (rightTrigger s)
     (leftStickX s) (leftStickY s) v (rightStickY s) (connected s).
Definition set_rightStickY (v : Z) (s : t) : t :=
  mk (controllerId s) (buttons s) (leftTrigger s) (rightTrigger s)
     (leftStickX s) (leftStickY s) (rightStickX s) v (connected s).

(** The field an axis target names. *)
Definition field (tg : Target.t) (s : t) : Z :=
  match tg with
  | Target.leftStickX => leftStickX s
  | Target.leftStickY => leftStickY s
  | Target.rightStickX => rightStickX s
  | Target.rightStickY => rightStickY s
  | Target.leftTrigger => leftTrigger s
  | Target.rightTrigger => rightTrigger s
  end.
End Gamepad.

(** The four D-pad masks.  Modelled from the spec: [./inputConstants] is not
    among the sources, so its constants are a parameter of the mapping. *)
Record InputConstants := {
  GAMEPAD_DPAD_UP : Z;
  GAMEPAD_DPAD_DOWN : Z;
  GAMEPAD_DPAD_LEFT : Z;
  GAMEPAD_DPAD_RIGHT : Z
}.

(** ** mapToGamepad *)

Definition applyDeadzone (value deadzone : Q) : Q :=
  if Js.Qltb value deadzone then 0%Q
  else ((value - deadzone) / (1 - deadzone))%Q.

Definition applyStickDeadzone (value deadzone : Q) : Q :=
  let abs := Qabs value in
  if Js.Qltb abs deadzone then 0%Q
  else
    let sign := if Qle_bool 0 value then 1%Q else (-1)%Q in
    (sign * ((abs - deadzone) / (1 - deadzone)))%Q.

Definition applyCurve (value sensitivity : Q) (curve : Curve) : Q :=
  match curve with
  | expo => (Js.Math_pow2 value * sensitivity)%Q
  | linear => (value * sensitivity)%Q
  end.

Definition applyStickCurve (value sensitivity : Q) (curve : Curve) : Q :=
  let sign := if Qle_bool 0 value then 1%Q else (-1)%Q in
  let abs := Qabs value in
  match curve with
  | expo => (sign * Js.Math_pow2 abs * sensitivity)%Q
  | linear => (value * sensitivity)%Q
  end.

(** Body of the loop over [profile.axisMappings]. *)
Definition mapAxis (parsed : ParsedReport.t) (state : Gamepad.t)
    (mapping : AxisMapping.t) : Gamepad.t :=
  if (List.length (ParsedReport.axes parsed) <=? AxisMapping.sourceIndex mapping)%nat
  then state
  else
    let rawNormalized :=
      nth (AxisMapping.sourceIndex mapping) (ParsedReport.axes parsed) 0%Q in
    match AxisMapping.target mapping with
    | Target.leftTrigger | Target.rightTrigger =>
        let value :=
          if AxisMapping.inverted mapping then (1 - rawNormalized)%Q
          else rawNormalized in
        let value := applyDeadzone value (AxisMapping.deadzone mapping) in
        let value := applyCurve value (AxisMapping.sensitivity mapping)
                                (AxisMapping.curve mapping) in
        let clamped := Z.max 0 (Z.min 255 (Js.Math_round (value * 255))) in
        match AxisMapping.target mapping with
        | Target.leftTrigger => Gamepad.set_leftTrigger clamped state
        | _ => Gamepad.set_rightTrigger clamped state
        end
    | _ =>
        let value := (rawNormalized * 2 - 1)%Q in
        let value := if AxisMapping.inverted mapping then (- value)%Q else value in
        let value := applyStickDeadzone value (AxisMapping.deadzone mapping) in
        let value := applyStickCurve value (AxisMapping.sensitivity mapping)
                                     (AxisMapping.curve mapping) in
        let clamped :=
          Z.max (-32768) (Z.min 32767 (Js.Math_round (value * 32767))) in
        match AxisMapping.target mapping with
        | Target.leftStickX => Gamepad.set_leftStickX clamped state
        | Target.leftStickY => Gamepad.set_leftStickY clamped state
        | Target.rightStickX => Gamepad.set_rightStickX clamped state
        | Target.rightStickY => Gamepad.set_rightStickY clamped state
        | _ => state
        end
    end.

(** Body of the loop over [profile.buttonMappings]. *)
Definition mapButton (parsed : ParsedReport.t) (state : Gamepad.t)
    (mapping : ButtonMapping.t) : Gamepad.t :=
  if (List.length (ParsedReport.buttons parsed)
        <=? ButtonMapping.sourceIndex mapping)%nat
  then state
  else if nth (ButtonMapping.sourceIndex mapping) (ParsedReport.buttons parsed) false
  then Gamepad.set_buttons
         (Js.bor (Gamepad.buttons state) (ButtonMapping.targetButton mapping))
         state
  else state.

(** [state.buttons |= mask] under a condition. *)
Definition orIf (c : bool) (mask : Z) (state : Gamepad.t) : Gamepad.t :=
  if c then Gamepad.set_buttons (Js.bor (Gamepad.buttons state) mask) state
  else state.

Definition foldHat (K : InputConstants) (hatSwitch : Z) (state : Gamepad.t)
  : Gamepad.t :=
  if hatSwitch >=? 0 then
    let hat := hatSwitch in
    let state :=
      orIf ((hat =? 0) || (hat =? 1) || (hat =? 7)) (GAMEPAD_DPAD_UP K) state in
    let state :=
      orIf ((hat =? 1) || (hat =? 2) || (hat =? 3)) (GAMEPAD_DPAD_RIGHT K) state in
    let state :=
      orIf ((hat =? 3) || (hat =? 4) || (hat =? 5)) (GAMEPAD_DPAD_DOWN K) state in
    let state :=
      orIf ((hat =? 5) || (hat =? 6) || (hat =? 7)) (GAMEPAD_DPAD_LEFT K) state in
    state
  else state.

Definition initialState (controllerSlot : Z) : Gamepad.t :=
  Gamepad.mk controllerSlot 0 0 0 0 0 0 0 true.

Definition mapToGamepad (K : InputConstants) (controllerSlot : Z)
    (parsed : ParsedReport.t) (profile : Profile.t) : Gamepad.t :=
  let state := initialState controllerSlot in
  let state := fold_left (mapAxis parsed) (Profile.axisMappings profile) state in
  let state := fold_left (mapButton parsed) (Profile.buttonMappings profile) state in
  foldHat K (ParsedReport.hatSwitch parsed) state.

(** ** hasGamepadStateChanged *)

Definition hasGamepadStateChanged (lastGamepadState : option Gamepad.t)
    (newState : Gamepad.t) : bool :=
  match lastGamepadState with
  | None => true
  | Some prev =>
      negb (Gamepad.buttons prev =? Gamepad.buttons newState)
      || negb (Gamepad.leftTrigger prev =? Gamepad.leftTrigger newState)
      || negb (Gamepad.rightTrigger prev =? Gamepad.rightTrigger newState)
      || negb (Gamepad.leftStickX prev =? Gamepad.leftStickX newState)
      || negb (Gamepad.leftStickY prev =? Gamepad.leftStickY newState)
      || negb (Gamepad.rightStickX prev =? Gamepad.rightStickX newState)
      || negb (Gamepad.rightStickY prev =? Gamepad.rightStickY newState)
  end.

(** ** Capture shutdown

    The service object, reduced to the fields [stopCapture] and
    [sendConnectedState] read or write.  Calls that leave the object
    (closing the HID handle, sending on an IPC channel) are recorded, in
    order, in a list of effects. *)

Module Hid.
(** An open HID handle; [closeThrows] tells whether [close()] throws. *)
Record t := mk {
  path : string;
  closeThrows : bool
}.

Definition close (d : t) : option unit :=
  if closeThrows d then None else Some tt.
End Hid.

Module Window.
Record t := mk {
  isDestroyed : bool
}.
End Window.

Module ControlsState.
Record t := mk {
  connected : bool;
  deviceName : string;
  axes : list Q;
  buttons : list bool;
  hatSwitch : Z;
  rawBytes : list byte
}.
End ControlsState.

Inductive Effect :=
| HidClose (d : Hid.t)
| FLIGHT_STATE_UPDATE (state : ControlsState.t)
| FLIGHT_GAMEPAD_STATE (state : Gamepad.t).

Module Service.
Record t := mk {
  device : option Hid.t;
  devicePath : option string;
  deviceName : string;
  enabled : bool;
  controllerSlot : Z;
  mainWindow : option Window.t;
  lastRawBytes : list byte;
  reportLayout : option Layout.t;
  profile : option Profile.t;
  lastGamepadState : option Gamepad.t
}.
End Service.

(** [!this.mainWindow || this.mainWindow.isDestroyed()], negated. *)
Definition windowLive (this : Service.t) : bool :=
  match Service.mainWindow this with
  | None => false
  | Some w => negb (Window.isDestroyed w)
  end.

Definition sendConnectedState (this : Service.t) (connected : bool)
  : list Effect :=
  if negb (windowLive this) then []
  else
    let state :=
      ControlsState.mk connected (Service.deviceName this) [] [] (-1) [] in
    let sent := [FLIGHT_STATE_UPDATE state] in
    if negb connected then
      let disconnectState :=
        Gamepad.mk (Service.controllerSlot this) 0 0 0 0 0 0 0 false in
      sent ++ [FLIGHT_GAMEPAD_STATE disconnectState]
    else sent.

Definition stopCapture (this : Service.t) : Service.t * list Effect :=
  let '(this, closed) :=
    match Service.device this with
    | Some d =>
        let _ := Js.tryCatch (Hid.close d) tt (* ignore *) in
        (Service.mk None (Service.devicePath this) (Service.deviceName this)
           (Service.enabled this) (Service.controllerSlot this)
           (Service.mainWindow this) (Service.lastRawBytes this)
           (Service.reportLayout this) (Service.profile this)
           (Service.lastGamepadState this),
         [HidClose d])
    | None => (this, [])
    end in
  if Js.truthy (Service.devicePath this) then
    let sent := sendConnectedState this false in
    (Service.mk (Service.device this) None (Service.deviceName this)
       (Service.enabled this) (Service.controllerSlot this)
       (Service.mainWindow this) [] (Service.reportLayout this)
       (Service.profile this) None,
     closed ++ sent)
  else (this, closed).

Definition isCapturing (this : Service.t) : bool :=
  match Service.device this with
  | Some _ => true
  | None => false
  end.

(** ** Vocabulary of the specification

    The definitions of this part follow the words of the specification;
    the theorems compare them with the code above. *)

(** The constraints of the data model on a layout: [byteCount] is 1 or 2
    and byte offsets are not negative. *)
Definition axisFieldOk (a : AxisField.t) : bool :=
  (0 <=? AxisField.byteOffset a)
  && ((AxisField.byteCount a =? 1) || (AxisField.byteCount a =? 2)).

Definition buttonFieldOk (b : ButtonField.t) : bool :=
  0 <=? ButtonField.byteOffset b.

Definition fieldsOk (layout : Layout.t) : bool :=
  forallb axisFieldOk (Layout.axes layout)
  && forallb buttonFieldOk (Layout.buttons layout).

Definition hatFieldOk (layout : Layout.t) : bool :=
  match Layout.hat layout with
  | None => true
  | Some h => 0 <=? HatField.byteOffset h
  end.

Definition layoutOk (layout : Layout.t) : bool :=
  fieldsOk layout && hatFieldOk layout.

(** [count] bytes of the buffer from position [idx]. *)
Definition slice (bytes : Buffer.t) (idx count : Z) : list byte :=
  firstn (Z.to_nat count) (skipn (Z.to_nat idx) bytes).

(** The unsigned integer a byte string denotes, least significant byte
    first. *)
Fixpoint unsignedLE (bs : list byte) : Z :=
  match bs with
  | [] => 0
  | b :: rest => Z.of_N (Byte.to_N b) + 256 * unsignedLE rest
  end.

Definition unsignedOf (littleEndian : bool) (bs : list byte) : Z :=
  if littleEndian then unsignedLE bs else unsignedLE (rev bs).

(** Two's-complement reading of a [count]-byte unsigned value. *)
Definition asSigned (count raw : Z) : Z :=
  if raw >? 2 ^ (8 * count - 1) - 1 then raw - 2 ^ (8 * count) else raw.

Definition clampQ (lo hi x : Q) : Q :=
  if Qle_bool x lo then lo else if Qle_bool hi x then hi else x.


(** The decoded value of an axis field according to the specification. *)
Definition specAxis (bytes : Buffer.t) (offset : Z) (a : AxisField.t) : Q :=
  let unsignedRaw :=
    unsignedOf (AxisField.littleEndian a)
      (slice bytes (offset + AxisField.byteOffset a) (AxisField.byteCount a)) in
  let raw :=
    if AxisField.unsigned a then unsignedRaw
    else asSigned (AxisField.byteCount a) unsignedRaw in
  let range := (AxisField.rangeMax a - AxisField.rangeMin a)%Q in
  clampQ 0 1
    (if Js.Qltb 0 range then ((inject_Z raw - AxisField.rangeMin a) / range)%Q
     else 0%Q).

(** The mathematical sign of a rational: -1, 0 or 1. *)
Definition Qsign (v : Q) : Q := inject_Z (Z.sgn (Qnum v)).

(** Stick pipeline up to the scaling step: bipolar rescaling, inversion,
    signed deadzone, response curve. *)
Definition bipolar (raw : Q) (inverted : bool) : Q :=
  if inverted then (- (raw * 2 - 1))%Q else (raw * 2 - 1)%Q.

Definition stickSignal (m : AxisMapping.t) (raw : Q) : Q :=
  applyStickCurve
    (applyStickDeadzone (bipolar raw (AxisMapping.inverted m))
                        (AxisMapping.deadzone m))
    (AxisMapping.sensitivity m) (AxisMapping.curve m).

(** The signed deadzone in the words of the specification. *)
Definition specSignedDeadzone (v deadzone : Q) : Q :=
  if Js.Qltb (Qabs v) deadzone then 0%Q
  else (Qsign v * (Qabs v - deadzone) / (1 - deadzone))%Q.




Definition isStick (tg : Target.t) : bool :=
  match tg with
  | Target.leftTrigger | Target.rightTrigger => false
  | _ => true
  end.

(** No mapping of [post] that is in range writes the field [tg]. *)
Definition notOverwritten (parsed : ParsedReport.t) (tg : Target.t)
    (post : list AxisMapping.t) : Prop :=
  Forall (fun m' => AxisMapping.target m' = tg ->
                    (List.length (ParsedReport.axes parsed)
                       <= AxisMapping.sourceIndex m')%nat) post.

(** The value [mapAxis] stores for a mapping that is in range, read off
    its two branches. *)
Definition axisOutput (m : AxisMapping.t) (raw : Q) : Z :=
  if isStick (AxisMapping.target m) then
    Z.max (-32768) (Z.min 32767 (Js.Math_round (stickSignal m raw * 32767)))
  else
    Z.max 0 (Z.min 255 (Js.Math_round
      (applyCurve
         (applyDeadzone (if AxisMapping.inverted m then (1 - raw)%Q else raw)
                        (AxisMapping.deadzone m))
         (AxisMapping.sensitivity m) (AxisMapping.curve m) * 255))).

(** A profile without its out-of-range mapping entries. *)
Definition inRangeOnly (parsed : ParsedReport.t) (profile : Profile.t)
  : Profile.t :=
  Profile.mk
    (filter (fun m => (AxisMapping.sourceIndex m
                         <? List.length (ParsedReport.axes parsed))%nat)
            (Profile.axisMappings profile))
    (filter (fun m => (ButtonMapping.sourceIndex m
                         <? List.length (ParsedReport.buttons parsed))%nat)
            (Profile.buttonMappings profile)).

(** The 3-neighbour table of the specification: the directions a hat
    position asserts. *)
Inductive Dpad := Up | Right | Down | Left.

Definition oneOf (hat : Z) (positions : list Z) : bool :=
  existsb (Z.eqb hat) positions.

Definition hatTable (hat : Z) : list Dpad :=
  (if oneOf hat [7; 0; 1] then [Up] else [])
  ++ (if oneOf hat [1; 2; 3] then [Right] else [])
  ++ (if oneOf hat [3; 4; 5] then [Down] else [])
  ++ (if oneOf hat [5; 6; 7] then [Left] else []).

Definition dpadMask (K : InputConstants) (d : Dpad) : Z :=
  match d with
  | Up => GAMEPAD_DPAD_UP K
  | Right => GAMEPAD_DPAD_RIGHT K
  | Down => GAMEPAD_DPAD_DOWN K
  | Left => GAMEPAD_DPAD_LEFT K
  end.

Definition assertAll (K : InputConstants) (dirs : list Dpad) (buttons : Z) : Z :=
  fold_left (fun b d => Js.bor b (dpadMask K d)) dirs buttons.

(** The same sample with another hat position. *)
Definition withHat (hat : Z) (parsed : ParsedReport.t) : ParsedReport.t :=
  ParsedReport.mk (ParsedReport.axes parsed) (ParsedReport.buttons parsed) hat.

(** At least one of the seven compared fields differs. *)
Definition controlsDiffer (a b : Gamepad.t) : Prop :=
  Gamepad.buttons a <> Gamepad.buttons b
  \/ Gamepad.leftTrigger a <> Gamepad.leftTrigger b
  \/ Gamepad.rightTrigger a <> Gamepad.rightTrigger b
  \/ Gamepad.leftStickX a <> Gamepad.leftStickX b
  \/ Gamepad.leftStickY a <> Gamepad.leftStickY b
  \/ Gamepad.rightStickX a <> Gamepad.rightStickX b
  \/ Gamepad.rightStickY a <> Gamepad.rightStickY b.

(** A capture is active: a device handle is open and its path is set. *)
Definition captureActive (this : Service.t) : bool :=
  isCapturing this && Js.truthy (Service.devicePath this).

Definition isDisconnectedUpdate (e : Effect) : bool :=
  match e with
  | FLIGHT_STATE_UPDATE st => negb (ControlsState.connected st)
  | _ => false
  end.

Definition isGamepadUpdate (e : Effect) : bool :=
  match e with
  | FLIGHT_GAMEPAD_STATE _ => true
  | _ => false
  end.

Definition disconnectedUpdates (effects : list Effect) : nat :=
  List.length (filter isDisconnectedUpdate effects).

Definition gamepadUpdates (effects : list Effect) : nat :=
  List.length (filter isGamepadUpdate effects).

(** The neutral, disconnected gamepad state. *)
Definition neutralState (controllerSlot : Z) : Gamepad.t :=
  Gamepad.mk controllerSlot 0 0 0 0 0 0 0 false.

(** ** Sample inputs *)

Definition xinput : InputConstants :=
  {| GAMEPAD_DPAD_UP := 1; GAMEPAD_DPAD_DOWN := 2;
     GAMEPAD_DPAD_LEFT := 4; GAMEPAD_DPAD_RIGHT := 8 |}.

(** The layout of the specification's axis example. *)
Definition layout1023 : Layout.t :=
  Layout.mk false [AxisField.mk 0 2 true true 0 (1023 # 1)] [] None.

(** A three-byte report: one 16-bit axis, one button and a hat nibble. *)
Definition stickLayout : Layout.t :=
  Layout.mk false
    [AxisField.mk 0 2 true true 0 (1023 # 1)]
    [ButtonField.mk 2 0; ButtonField.mk 5 0]
    (Some (HatField.mk 2 4 4 8)).




(** A sample with a stick at 55%, a half-pressed trigger, a fully deflected
    stick and one pressed button, and a profile that maps them. *)
Definition flightSample : ParsedReport.t :=
  ParsedReport.mk [11 # 20; 1 # 2; 1]%Q [true; false] 1.

Definition rollMapping : AxisMapping.t :=
  AxisMapping.mk 0 Target.leftStickX false (1 # 10) 2 expo.

Definition throttleMapping : AxisMapping.t :=
  AxisMapping.mk 1 Target.rightTrigger false 0 1 expo.

Definition pitchMapping : AxisMapping.t :=
  AxisMapping.mk 2 Target.leftStickY false (1 # 10) 1 linear.

Definition absentMapping : AxisMapping.t :=
  AxisMapping.mk 7 Target.leftStickX true (1 # 10) 1 linear.

Definition flightProfile : Profile.t :=
  Profile.mk [rollMapping; throttleMapping; pitchMapping; absentMapping]
             [ButtonMapping.mk 0 4096; ButtonMapping.mk 9 1].

(** A service in the middle of a capture, with a live window and a handle
    whose [close()] throws; and one that captures without any window. *)
Definition capturing : Service.t :=
  Service.mk (Some (Hid.mk "hid0" true)) (Some "hid0"%string) "Stick"%string
    true 2 (Some (Window.mk false)) [xff; x03]%byte (Some stickLayout)
    (Some flightProfile) (Some (initialState 2)).

Definition windowless : Service.t :=
  Service.mk (Some (Hid.mk "hid0" false)) (Some "hid0"%string) "Stick"%string
    true 0 None [] None None None.

(** * The rest of the service

    The functions of [FlightControlsService.ts] around the decoder and the
    mapper: the per-report pipeline, device enumeration, and the capture
    life cycle with its hotplug timer. *)

(** ** onHidData and the emitters *)

Definition setLastRawBytes (bytes : list byte) (this : Service.t) : Service.t :=
  Service.mk (Service.device this) (Service.devicePath this)
    (Service.deviceName this) (Service.enabled this)
    (Service.controllerSlot this) (Service.mainWindow this) bytes
    (Service.reportLayout this) (Service.profile this)
    (Service.lastGamepadState this).

Definition setLastGamepadState (g : option Gamepad.t) (this : Service.t)
  : Service.t :=
  Service.mk (Service.device this) (Service.devicePath this)
    (Service.deviceName this) (Service.enabled this)
    (Service.controllerSlot this) (Service.mainWindow this)
    (Service.lastRawBytes this) (Service.reportLayout this)
    (Service.profile this) g.

Definition setWindow (win : option Window.t) (this : Service.t) : Service.t :=
  Service.mk (Service.device this) (Service.devicePath this)
    (Service.deviceName this) (Service.enabled this)
    (Service.controllerSlot this) win (Service.lastRawBytes this)
    (Service.reportLayout this) (Service.profile this)
    (Service.lastGamepadState this).

Definition setConfig (enabled : bool) (slot : Z) (this : Service.t)
  : Service.t :=
  Service.mk (Service.device this) (Service.devicePath this)
    (Service.deviceName this) enabled slot (Service.mainWindow this)
    (Service.lastRawBytes this) (Service.reportLayout this)
    (Service.profile this) (Service.lastGamepadState this).

Definition setHandle (device : option Hid.t) (devicePath : option string)
    (this : Service.t) : Service.t :=
  Service.mk device devicePath (Service.deviceName this)
    (Service.enabled this) (Service.controllerSlot this)
    (Service.mainWindow this) (Service.lastRawBytes this)
    (Service.reportLayout this) (Service.profile this)
    (Service.lastGamepadState this).

Definition setBinding (deviceName : string) (reportLayout : option Layout.t)
    (profile : option Profile.t) (this : Service.t) : Service.t :=
  Service.mk (Service.device this) (Service.devicePath this) deviceName
    (Service.enabled this) (Service.controllerSlot this)
    (Service.mainWindow this) (Service.lastRawBytes this) reportLayout
    profile (Service.lastGamepadState this).

Definition sendRawState (this : Service.t) (data : Buffer.t) : list Effect :=
  if negb (windowLive this) then []
  else
    [FLIGHT_STATE_UPDATE
       (ControlsState.mk true (Service.deviceName this) [] [] (-1) data)].

Definition emitStateUpdate (this : Service.t) (state : ControlsState.t)
  : list Effect :=
  if negb (windowLive this) then [] else [FLIGHT_STATE_UPDATE state].

Definition emitGamepadState (this : Service.t) (state : Gamepad.t)
  : list Effect :=
  if negb (windowLive this) then [] else [FLIGHT_GAMEPAD_STATE state].

(** The handler of the device's data event.  [None] stands for an exception
    leaving the handler: only [parseReport] can throw, and it runs before
    the handler has written any field or sent anything. *)
Definition onHidData (K : InputConstants) (this : Service.t) (data : Buffer.t)
  : option (Service.t * list Effect) :=
  match Service.reportLayout this, Service.profile this with
  | Some reportLayout, Some profile =>
      parsed <- parseReport data reportLayout ;;
      let this := setLastRawBytes data this in
      let rawState :=
        ControlsState.mk true (Service.deviceName this)
          (ParsedReport.axes parsed) (ParsedReport.buttons parsed)
          (ParsedReport.hatSwitch parsed) (Service.lastRawBytes this) in
      let sent := emitStateUpdate this rawState in
      let gamepadState :=
        mapToGamepad K (Service.controllerSlot this) parsed profile in
      if hasGamepadStateChanged (Service.lastGamepadState this) gamepadState
      then
        let this := setLastGamepadState (Some gamepadState) this in
        Some (this, sent ++ emitGamepadState this gamepadState)
      else Some (this, sent)
  | _, _ =>
      let this := setLastRawBytes data this in
      Some (this, sendRawState this data)
  end.

(** ** getDevices *)

Definition JOYSTICK_USAGE_PAGE : Z := 1.
Definition JOYSTICK_USAGE : Z := 4.
Definition GAMEPAD_USAGE : Z := 5.
Definition HOTPLUG_SCAN_MS : Z := 3000.

(** A device as node-hid enumerates it: any field may be missing. *)
Module RawDevice.
Record t := mk {
  path : option string;
  vendorId : option Z;
  productId : option Z;
  product : option string;
  manufacturer : option string;
  serialNumber : option string;
  release : option Z;
  interface : option Z;
  usagePage : option Z;
  usage : option Z
}.
End RawDevice.

Module DeviceInfo.
Record t := mk {
  path : string;
  vendorId : Z;
  productId : Z;
  product : string;
  manufacturer : string;
  serialNumber : string;
  release : Z;
  interface : Z;
  usagePage : Z;
  usage : Z
}.
End DeviceInfo.

(** [x ?? d]. *)
Definition orElse {A} (x : option A) (d : A) : A :=
  match x with
  | Some a => a
  | None => d
  end.

(** [x === n] for a number that may be undefined. *)
Definition isNumber (x : option Z) (n : Z) : bool :=
  match x with
  | Some v => v =? n
  | None => false
  end.

Definition isFlightDevice (d : RawDevice.t) : bool :=
  isNumber (RawDevice.usagePage d) JOYSTICK_USAGE_PAGE
  && (isNumber (RawDevice.usage d) JOYSTICK_USAGE
      || isNumber (RawDevice.usage d) GAMEPAD_USAGE).

Definition toDeviceInfo (d : RawDevice.t) : DeviceInfo.t :=
  DeviceInfo.mk
    (orElse (RawDevice.path d) ""%string)
    (orElse (RawDevice.vendorId d) 0)
    (orElse (RawDevice.productId d) 0)
    (orElse (RawDevice.product d) "Unknown Device"%string)
    (orElse (RawDevice.manufacturer d) ""%string)
    (orElse (RawDevice.serialNumber d) ""%string)
    (orElse (RawDevice.release d) 0)
    (orElse (RawDevice.interface d) (-1))
    (orElse (RawDevice.usagePage d) 0)
    (orElse (RawDevice.usage d) 0).

(** [enumeration] is the answer of [HID.devices()], [None] when it throws. *)
Definition getDevices (enumeration : option (list RawDevice.t))
  : list DeviceInfo.t :=
  match enumeration with
  | Some devices =>
      filter (fun d => negb (String.eqb (DeviceInfo.path d) ""))
             (map toDeviceInfo (filter isFlightDevice devices))
  | None => []
  end.

(** ** The capture life cycle *)

(** The calls that leave the service: the effects above, opening a HID
    handle, and arming or clearing the hotplug timer. *)
Inductive Call :=
| Emit (e : Effect)
| HidOpen (d : Hid.t)
| SetInterval (ms : Z)
| ClearInterval.

(** Modelled from the spec: [./FlightDeviceDefaults] and [./FlightProfiles]
    are not among the sources.  [getDeviceConfig] answers with a built-in
    configuration or nothing; [getOrCreateProfile(vendorId, productId,
    name)] answers with a profile, which may carry a report layout. *)
Module KnownConfig.
Record t := mk {
  name : string;
  layout : option Layout.t
}.
End KnownConfig.

Module StoredProfile.
Record t := mk {
  mappings : Profile.t;
  reportLayout : option Layout.t
}.
End StoredProfile.

(** The host as one call of [startCapture] finds it. *)
Module Host.
Record t := mk {
  (** [HID.devices()], [None] when it throws *)
  devices : option (list RawDevice.t);
  (** [new HID.HID(path)], [None] when it throws *)
  openDevice : string -> option Hid.t;
  getDeviceConfig : Z -> Z -> option KnownConfig.t;
  getOrCreateProfile : Z -> Z -> string -> StoredProfile.t
}.
End Host.

(** [d.path === devicePath]. *)
Definition pathIs (devicePath : string) (d : RawDevice.t) : bool :=
  match RawDevice.path d with
  | Some p => String.eqb p devicePath
  | None => false
  end.

(** [profile.reportLayout ?? knownConfig?.layout ?? null]. *)
Definition resolveLayout (stored : StoredProfile.t)
    (knownConfig : option KnownConfig.t) : option Layout.t :=
  match StoredProfile.reportLayout stored with
  | Some l => Some l
  | None =>
      match knownConfig with
      | Some c => KnownConfig.layout c
      | None => None
      end
  end.

(** The whole service object: the fields of [Service.t] and the ones the
    life cycle adds. *)
Module Flight.
Record t := mk {
  service : Service.t;
  deviceVendorId : Z;
  deviceProductId : Z;
  hotplugTimer : option Z;
  disposed : bool
}.

Definition withService (s : Service.t) (this : t) : t :=
  mk s (deviceVendorId this) (deviceProductId this) (hotplugTimer this)
     (disposed this).

Definition withTimer (timer : option Z) (this : t) : t :=
  mk (service this) (deviceVendorId this) (deviceProductId this) timer
     (disposed this).

Definition clampSlot (slot : Z) : Z := Z.max 0 (Z.min 3 slot).

Definition construct (enabled : bool) (slot : Z) : t :=
  mk (Service.mk None None ""%string enabled (clampSlot slot) None [] None
        None None)
     0 0 None false.

Definition setMainWindow (this : t) (win : option Window.t) : t :=
  withService (setWindow win (service this)) this.

Definition stopCapture (this : t) : t * list Call :=
  let '(s, effects) := stopCapture (service this) in
  (withService s this, map Emit effects).

Definition stopHotplugScan (this : t) : t * list Call :=
  match hotplugTimer this with
  | Some _ => (withTimer None this, [ClearInterval])
  | None => (this, [])
  end.

Definition startHotplugScan (this : t) : t * list Call :=
  let '(this, cleared) := stopHotplugScan this in
  (withTimer (Some HOTPLUG_SCAN_MS) this,
   cleared ++ [SetInterval HOTPLUG_SCAN_MS]).

Definition updateConfig (this : t) (enabled : bool) (slot : Z)
  : t * list Call :=
  let wasEnabled := Service.enabled (service this) in
  let this := withService (setConfig enabled (clampSlot slot) (service this))
                          this in
  let '(this, stopped) :=
    if negb enabled && wasEnabled then
      let '(this, c1) := stopCapture this in
      let '(this, c2) := stopHotplugScan this in
      (this, c1 ++ c2)
    else (this, []) in
  let '(this, started) :=
    if enabled && negb wasEnabled then startHotplugScan this
    else (this, []) in
  (this, stopped ++ started).

Definition initialize (this : t) : t * list Call :=
  if Service.enabled (service this) then startHotplugScan this
  else (this, []).

(** The [catch] branch of [startCapture]. *)
Definition openFailed (this : t) : t :=
  withService (setHandle None None (service this)) this.

Definition startCapture (host : Host.t) (this : t) (devicePath : string)
  : bool * t * list Call :=
  if negb (Service.enabled (service this)) then (false, this, [])
  else
    let '(this, stopped) := stopCapture this in
    match Host.devices host with
    | None => (false, openFailed this, stopped)
    | Some allDevices =>
        match find (pathIs devicePath) allDevices with
        | None => (false, this, stopped)
        | Some deviceInfo =>
            match Host.openDevice host devicePath with
            | None => (false, openFailed this, stopped)
            | Some device =>
                let vendorId := orElse (RawDevice.vendorId deviceInfo) 0 in
                let productId := orElse (RawDevice.productId deviceInfo) 0 in
                let deviceName :=
                  orElse (RawDevice.product deviceInfo)
                         "Unknown Device"%string in
                let knownConfig :=
                  Host.getDeviceConfig host vendorId productId in
                let stored :=
                  Host.getOrCreateProfile host vendorId productId deviceName in
                let s :=
                  setBinding deviceName (resolveLayout stored knownConfig)
                    (Some (StoredProfile.mappings stored))
                    (setHandle (Some device) (Some devicePath)
                               (service this)) in
                (true,
                 mk s vendorId productId (hotplugTimer this) (disposed this),
                 stopped ++ [HidOpen device]
                   ++ map Emit (sendConnectedState s true))
            end
        end
    end.

Definition isCapturing (this : t) : bool := isCapturing (service this).

Definition dispose (this : t) : t * list Call :=
  let this := mk (service this) (deviceVendorId this) (deviceProductId this)
                 (hotplugTimer this) true in
  let '(this, c1) := stopCapture this in
  let '(this, c2) := stopHotplugScan this in
  (this, c1 ++ c2).

Definition handleDeviceDisconnect (this : t) : t * list Call :=
  stopCapture this.

(** The timer callback.  It changes no field and makes no call; its only
    output is the device it logs as detected, if any. *)
Definition hotplugTick (enumeration : option (list RawDevice.t)) (this : t)
  : option DeviceInfo.t :=
  if disposed this || negb (Service.enabled (service this)) then None
  else if isCapturing this then None
  else
    match getDevices enumeration with
    | firstDevice :: _ => Some firstDevice
    | [] => None
    end.

(** The data event: an exception of the handler leaves the service as it
    was. *)
Definition onData (K : InputConstants) (this : t) (data : Buffer.t)
  : t * list Call :=
  match onHidData K (service this) data with
  | Some (s, effects) => (withService s this, map Emit effects)
  | None => (this, [])
  end.
End Flight.

(** What can happen to a service: the calls of its public methods and the
    events of the device and of the timer. *)
Inductive Op :=
| OpSetMainWindow (win : option Window.t)
| OpUpdateConfig (enabled : bool) (slot : Z)
| OpInitialize
| OpStartCapture (host : Host.t) (devicePath : string)
| OpStopCapture
| OpDispose
| OpData (data : Buffer.t)
| OpError
| OpTick (enumeration : option (list RawDevice.t)).

Definition step (K : InputConstants) (this : Flight.t) (op : Op)
  : Flight.t * list Call :=
  match op with
  | OpSetMainWindow win => (Flight.setMainWindow this win, [])
  | OpUpdateConfig enabled slot => Flight.updateConfig this enabled slot
  | OpInitialize => Flight.initialize this
  | OpStartCapture host devicePath =>
      let '(_, this, calls) := Flight.startCapture host this devicePath in
      (this, calls)
  | OpStopCapture => Flight.stopCapture this
  | OpDispose => Flight.dispose this
  | OpData data => Flight.onData K this data
  | OpError => Flight.handleDeviceDisconnect this
  | OpTick _ => (this, [])
  end.

Fixpoint run (K : InputConstants) (ops : list Op) (this : Flight.t)
  : Flight.t * list Call :=
  match ops with
  | [] => (this, [])
  | op :: rest =>
      let '(this, calls) := step K this op in
      let '(this, later) := run K rest this in
      (this, calls ++ later)
  end.

(** ** The mapping editor of the settings panel

    [updateAxisMapping] of [FlightControlsPanel.tsx] sets one field, named
    by a string, of every axis mapping with the given source index.  The
    panel calls it with the five fields below. *)
Inductive FieldValue :=
| SetTarget (target : Target.t)
| SetInverted (inverted : bool)
| SetDeadzone (deadzone : Q)
| SetSensitivity (sensitivity : Q)
| SetCurve (curve : Curve).

(** [{ ...m, [field]: value }]. *)
Definition assignField (m : AxisMapping.t) (fv : FieldValue) : AxisMapping.t :=
  match fv with
  | SetTarget target =>
      AxisMapping.mk (AxisMapping.sourceIndex m) target (AxisMapping.inverted m)
        (AxisMapping.deadzone m) (AxisMapping.sensitivity m)
        (AxisMapping.curve m)
  | SetInverted inverted =>
      AxisMapping.mk (AxisMapping.sourceIndex m) (AxisMapping.target m) inverted
        (AxisMapping.deadzone m) (AxisMapping.sensitivity m)
        (AxisMapping.curve m)
  | SetDeadzone deadzone =>
      AxisMapping.mk (AxisMapping.sourceIndex m) (AxisMapping.target m)
        (AxisMapping.inverted m) deadzone (AxisMapping.sensitivity m)
        (AxisMapping.curve m)
  | SetSensitivity sensitivity =>
      AxisMapping.mk (AxisMapping.sourceIndex m) (AxisMapping.target m)
        (AxisMapping.inverted m) (AxisMapping.deadzone m) sensitivity
        (AxisMapping.curve m)
  | SetCurve curve =>
      AxisMapping.mk (AxisMapping.sourceIndex m) (AxisMapping.target m)
        (AxisMapping.inverted m) (AxisMapping.deadzone m)
        (AxisMapping.sensitivity m) curve
  end.

(** The profile state of the panel after the call; a panel without a
    profile stays without one. *)
Definition updateAxisMapping (profile : option Profile.t) (sourceIndex : nat)
    (fv : FieldValue) : option Profile.t :=
  match profile with
  | None => None
  | Some profile =>
      Some (Profile.mk
              (map (fun m =>
                      if negb (AxisMapping.sourceIndex m =? sourceIndex)%nat
                      then m else assignField m fv)
                   (Profile.axisMappings profile))
              (Profile.buttonMappings profile))
  end.

(** ** makeVidPid of the settings panel

    Vendor and product ids are non-negative integers; [toString(16)] then
    writes the hexadecimal digits without a prefix, in lower case. *)
Definition toString16 (n : N) : string :=
  match n with
  | N0 => "0"%string
  | Npos p => HexString.Raw.of_pos p ""%string
  end.

Definition upperChar (c : ascii) : ascii :=
  let n := N_of_ascii c in
  if ((97 <=? n) && (n <=? 122))%N then ascii_of_N (n - 32) else c.

Fixpoint toUpperCase (s : string) : string :=
  match s with
  | EmptyString => EmptyString
  | String c rest => String (upperChar c) (toUpperCase rest)
  end.

Fixpoint zeros (n : nat) : string :=
  match n with
  | O => EmptyString
  | S k => String "0"%char (zeros k)
  end.

(** [s.padStart(width, "0")]. *)
Definition padStart (width : nat) (s : string) : string :=
  (zeros (width - String.length s) ++ s)%string.

Definition hex4 (n : N) : string := padStart 4 (toUpperCase (toString16 n)).

Definition makeVidPid (vendorId productId : N) : string :=
  (hex4 vendorId ++ ":" ++ hex4 productId)%string.

(** Reading a key back: the value of a string of hexadecimal digits, and
    the two halves of a key. *)
Definition hexValue (s : string) : N := HexString.Raw.to_N s 0%N.

Definition keyVendor (key : string) : N := hexValue (substring 0 4 key).
Definition keyProduct (key : string) : N := hexValue (substring 5 4 key).

(** [f] holds of the [fuel] numbers from [n] on. *)
Fixpoint holdsFrom (f : N -> bool) (fuel : nat) (n : N) : bool :=
  match fuel with
  | O => true
  | S k => if f n then holdsFrom f k (N.succ n) else false
  end.

(** A 16-bit id is written with exactly four digits that read back as the
    id. *)
Definition hex4Ok (n : N) : bool :=
  (String.length (hex4 n) =? 4)%nat && (hexValue (hex4 n) =? n)%N.

(** ** Vocabulary of the further properties *)

(** No field of the layout has a negative byte offset. *)
Definition offsetsOk (layout : Layout.t) : bool :=
  forallb (fun a => 0 <=? AxisField.byteOffset a) (Layout.axes layout)
  && forallb buttonFieldOk (Layout.buttons layout)
  && hatFieldOk layout.

(** The same layout with or without a report-id prefix. *)
Definition withReportId (skip : bool) (layout : Layout.t) : Layout.t :=
  Layout.mk skip (Layout.axes layout) (Layout.buttons layout)
            (Layout.hat layout).

(** Every field of the layout lies within the buffer. *)
Definition fieldsWithin (data : Buffer.t) (layout : Layout.t) : bool :=
  let offset := baseOffset layout in
  forallb (fun a =>
             (0 <=? offset + AxisField.byteOffset a)
             && (offset + AxisField.byteOffset a + AxisField.byteCount a
                   <=? Buffer.length data))
          (Layout.axes layout)
  && forallb (fun b =>
                (0 <=? offset + ButtonField.byteOffset b)
                && (offset + ButtonField.byteOffset b <? Buffer.length data))
             (Layout.buttons layout)
  && match Layout.hat layout with
     | Some h =>
         (0 <=? offset + HatField.byteOffset h)
         && (offset + HatField.byteOffset h <? Buffer.length data)
     | None => true
     end.

(** A signed 32-bit integer. *)
Definition int32 (z : Z) : Prop := - 2 ^ 31 <= z < 2 ^ 31.

(** A button mapping fires: its source index is in range and the source
    button is pressed. *)
Definition fires (parsed : ParsedReport.t) (b : ButtonMapping.t) : bool :=
  (ButtonMapping.sourceIndex b <? List.length (ParsedReport.buttons parsed))%nat
  && nth (ButtonMapping.sourceIndex b) (ParsedReport.buttons parsed) false.

(** The masks a sample asserts under a profile, in the order the code ORs
    them: the target masks of the button mappings that fire, then the
    D-pad masks of the hat. *)
Definition assertedMasks (K : InputConstants) (parsed : ParsedReport.t)
    (profile : Profile.t) : list Z :=
  map ButtonMapping.targetButton
      (filter (fires parsed) (Profile.buttonMappings profile))
  ++ (if 0 <=? ParsedReport.hatSwitch parsed
      then map (dpadMask K) (hatTable (ParsedReport.hatSwitch parsed))
      else []).




(** What holds of a service at every moment of its life. *)
Definition serviceInv (this : Flight.t) : Prop :=
  let s := Flight.service this in
  0 <= Service.controllerSlot s <= 3
  /\ (Service.enabled s = false -> Service.device s = None)
  /\ (Flight.hotplugTimer this <> None -> Service.enabled s = true)
  /\ (Js.truthy (Service.devicePath s) = true -> Service.device s <> None).





Definition count (p : Call -> bool) (calls : list Call) : nat :=
  List.length (filter p calls).



(** In a sequence of calls every disconnected state-update is directly
    followed by a gamepad state that is marked disconnected and has all
    controls at zero. *)
Fixpoint disconnectsPaired (calls : list Call) : Prop :=
  match calls with
  | [] => True
  | Emit (FLIGHT_STATE_UPDATE st) :: rest =>
      if ControlsState.connected st then disconnectsPaired rest
      else
        match rest with
        | Emit (FLIGHT_GAMEPAD_STATE g) :: rest' =>
            (Gamepad.connected g = false
             /\ ~ controlsDiffer g (neutralState (Gamepad.controllerId g)))
            /\ disconnectsPaired rest'
        | _ => False
        end
  | _ :: rest => disconnectsPaired rest
  end.

(** The service with another [disposed] flag. *)
Definition withDisposed (disposed : bool) (this : Flight.t) : Flight.t :=
  Flight.mk (Flight.service this) (Flight.deviceVendorId this)
            (Flight.deviceProductId this) (Flight.hotplugTimer this) disposed.

(** A raw device qualifies for [getDevices]. *)
Definition listed (d : RawDevice.t) : Prop :=
  RawDevice.usagePage d = Some JOYSTICK_USAGE_PAGE
  /\ (RawDevice.usage d = Some JOYSTICK_USAGE
      \/ RawDevice.usage d = Some GAMEPAD_USAGE)
  /\ exists p, RawDevice.path d = Some p /\ p <> ""%string.

(** A host whose enumeration lists one stick, for which neither the profile
    store nor the built-in table knows a layout. *)
Definition stickRaw : RawDevice.t :=
  RawDevice.mk (Some "hid1"%string) (Some 1103) (Some 46727)
    (Some "T.Flight"%string) None None None None (Some 1) (Some 4).

Definition keyboardRaw : RawDevice.t :=
  RawDevice.mk (Some "hid2"%string) (Some 1) (Some 2) None None None None None
    (Some 1) (Some 6).

Definition plainHost : Host.t :=
  Host.mk (Some [keyboardRaw; stickRaw])
    (fun p => Some (Hid.mk p false))
    (fun _ _ => None)
    (fun _ _ _ => StoredProfile.mk flightProfile None).

(** ** Arithmetic of the primitives *)

Lemma Qltb_true (x y : Q) : Js.Qltb x y = true <-> (x < y)%Q.
Proof.
  unfold Js.Qltb. rewrite negb_true_iff.
  split; intro H.
  - apply Qnot_le_lt. intro Hle. apply Qle_bool_iff in Hle. congruence.
  - destruct (Qle_bool y x) eqn:E; [|reflexivity].
    apply Qle_bool_iff in E. exfalso. apply (Qlt_not_le _ _ H E).
Qed.

Lemma Qltb_false (x y : Q) : Js.Qltb x y = false <-> (y <= x)%Q.
Proof.
  unfold Js.Qltb. rewrite negb_false_iff. apply Qle_bool_iff.
Qed.

Lemma Qle_bool_false (x y : Q) : Qle_bool x y = false <-> (y < x)%Q.
Proof.
  split; intro H.
  - apply Qnot_le_lt. intro Hle. apply Qle_bool_iff in Hle. congruence.
  - destruct (Qle_bool x y) eqn:E; [|reflexivity].
    apply Qle_bool_iff in E. exfalso. apply (Qlt_not_le _ _ H E).
Qed.

Lemma Math_round_mono (x y : Q) :
  (x <= y)%Q -> Js.Math_round x <= Js.Math_round y.
Proof.
  intro H. unfold Js.Math_round. apply Qfloor_resp_le. lra.
Qed.

Lemma Math_round_eq (x y : Q) :
  (x == y)%Q -> Js.Math_round x = Js.Math_round y.
Proof.
  intro H. unfold Js.Math_round. apply Qfloor_comp. rewrite H. reflexivity.
Qed.

Lemma Math_round_Z (z : Z) : Js.Math_round (inject_Z z) = z.
Proof.
  unfold Js.Math_round.
  assert (Hlo : z <= Qfloor (inject_Z z + (1 # 2))).
  { rewrite <- (Qfloor_Z z) at 1. apply Qfloor_resp_le. lra. }
  assert (Hhi : Qfloor (inject_Z z + (1 # 2)) < z + 1).
  { apply Z.le_succ_l.
    pose proof (Qfloor_le (inject_Z z + (1 # 2))) as Hf.
    assert (Hq : (inject_Z (Qfloor (inject_Z z + (1 # 2))) < inject_Z (z + 1))%Q).
    { rewrite inject_Z_plus. change (inject_Z 1) with 1%Q. lra. }
    rewrite <- Zlt_Qlt in Hq. lia. }
  lia.
Qed.


Lemma clampQ_max_min (x : Q) : (Qmax 0 (Qmin 1 x) == clampQ 0 1 x)%Q.
Proof.
  unfold clampQ.
  destruct (Qle_bool x 0) eqn:E1.
  - apply Qle_bool_iff in E1.
    rewrite Q.max_l; [reflexivity|].
    apply Q.min_le_iff. right. exact E1.
  - apply Qle_bool_false in E1.
    destruct (Qle_bool 1 x) eqn:E2.
    + apply Qle_bool_iff in E2.
      rewrite Q.min_l by exact E2. rewrite Q.max_r; [reflexivity|lra].
    + apply Qle_bool_false in E2.
      rewrite Q.min_r by lra. rewrite Q.max_r; [reflexivity|lra].
Qed.

Lemma clampQ_bounds (lo hi x : Q) :
  (lo <= hi)%Q -> (lo <= clampQ lo hi x <= hi)%Q.
Proof.
  intro H. unfold clampQ.
  destruct (Qle_bool x lo) eqn:E1; [lra|].
  apply Qle_bool_false in E1.
  destruct (Qle_bool hi x) eqn:E2; [lra|].
  apply Qle_bool_false in E2. lra.
Qed.

(** ** Lemmas on the decoding loops *)

(** Discharges the bounds test of a [Buffer] read whose offset is known to
    be in range. *)
Ltac read_in_range :=
  match goal with
  | |- context [(0 <=? ?i) && (?i <=? ?n)] =>
      replace ((0 <=? i) && (i <=? n)) with true
        by (symmetry; apply andb_true_iff; split; apply Z.leb_le; lia)
  end.

Lemma forPush_Forall2 {A B} (f : A -> option B) (xs : list A) (ys : list B) :
  Js.forPush f xs = Some ys -> Forall2 (fun x y => f x = Some y) xs ys.
Proof.
  revert ys. induction xs as [|x rest IH]; intros ys H; simpl in H.
  - injection H as <-. constructor.
  - destruct (f x) as [y|] eqn:Ex; simpl in H; [|discriminate].
    destruct (Js.forPush f rest) as [ys'|] eqn:Er; simpl in H; [|discriminate].
    injection H as <-. constructor; [exact Ex | apply IH; reflexivity].
Qed.

Lemma forPush_total {A B} (f : A -> option B) (xs : list A) :
  Forall (fun x => exists y, f x = Some y) xs ->
  exists ys, Js.forPush f xs = Some ys.
Proof.
  induction 1 as [|x rest [y Hy] _ [ys Hys]]; simpl.
  - eexists; reflexivity.
  - rewrite Hy. simpl. rewrite Hys. simpl. eexists; reflexivity.
Qed.



Lemma baseOffset_range (layout : Layout.t) :
  0 <= baseOffset layout <= 1.
Proof. unfold baseOffset. destruct (Layout.skipReportId layout); lia. Qed.

Lemma parseAxis_total bytes offset a :
  0 <= offset -> axisFieldOk a = true ->
  exists q, parseAxis bytes offset a = Some q.
Proof.
  intros Ho Hok. unfold axisFieldOk in Hok.
  apply andb_true_iff in Hok as [Hoff Hcnt]. apply Z.leb_le in Hoff.
  unfold parseAxis.
  destruct (_ >? _) eqn:Egt; [eexists; reflexivity|].
  assert (Hfit : offset + AxisField.byteOffset a + AxisField.byteCount a
                 <= Buffer.length bytes).
  { destruct (Z.gtb_spec (offset + AxisField.byteOffset a + AxisField.byteCount a)
                         (Buffer.length bytes)); [discriminate | assumption]. }
  apply orb_true_iff in Hcnt as [H1|H2].
  - apply Z.eqb_eq in H1. rewrite H1 in *. simpl (1 =? 2).
    unfold Buffer.readUInt8.
    read_in_range.
    simpl. eexists; reflexivity.
  - apply Z.eqb_eq in H2. rewrite H2 in *. simpl (2 =? 2).
    unfold Buffer.readUInt16LE, Buffer.readUInt16BE.
    read_in_range.
    destruct (AxisField.littleEndian a); simpl; eexists; reflexivity.
Qed.

Lemma parseAxis_short bytes offset a :
  offset + AxisField.byteOffset a + AxisField.byteCount a > Buffer.length bytes ->
  parseAxis bytes offset a = Some 0%Q.
Proof.
  intro H. unfold parseAxis.
  destruct (Z.gtb_spec (offset + AxisField.byteOffset a + AxisField.byteCount a)
                       (Buffer.length bytes)); [reflexivity | lia].
Qed.

Lemma parseButton_total bytes offset b :
  0 <= offset -> buttonFieldOk b = true ->
  exists v, parseButton bytes offset b = Some v.
Proof.
  intros Ho Hok. apply Z.leb_le in Hok. unfold parseButton.
  destruct (Z.geb_spec (offset + ButtonField.byteOffset b) (Buffer.length bytes))
    as [Hge|Hlt]; [eexists; reflexivity|].
  unfold Buffer.readUInt8.
  read_in_range.
  simpl. eexists; reflexivity.
Qed.

Lemma parseButton_short bytes offset b :
  offset + ButtonField.byteOffset b >= Buffer.length bytes ->
  parseButton bytes offset b = Some false.
Proof.
  intro H. unfold parseButton.
  destruct (Z.geb_spec (offset + ButtonField.byteOffset b) (Buffer.length bytes));
    [reflexivity | lia].
Qed.

Lemma parseHat_total bytes offset hat :
  0 <= offset ->
  match hat with Some h => 0 <= HatField.byteOffset h | None => True end ->
  exists v, parseHat bytes offset hat = Some v.
Proof.
  intros Ho Hok. destruct hat as [h|]; simpl; [|eexists; reflexivity].
  destruct (Z.ltb_spec (offset + HatField.byteOffset h) (Buffer.length bytes))
    as [Hlt|Hge]; [|eexists; reflexivity].
  unfold Buffer.readUInt8.
  read_in_range.
  simpl. eexists; reflexivity.
Qed.

Lemma parseHat_short bytes offset h :
  offset + HatField.byteOffset h >= Buffer.length bytes ->
  parseHat bytes offset (Some h) = Some (-1).
Proof.
  intro H. simpl.
  destruct (Z.ltb_spec (offset + HatField.byteOffset h) (Buffer.length bytes));
    [lia | reflexivity].
Qed.

(** [parseReport] succeeds as soon as both field loops do and the hat read
    is in range; the result lists the per-field decodes in layout order. *)
Lemma parseReport_fields data layout :
  fieldsOk layout = true ->
  (exists v, parseHat data (baseOffset layout) (Layout.hat layout) = Some v) ->
  exists r, parseReport data layout = Some r /\
    Forall2 (fun a q => parseAxis data (baseOffset layout) a = Some q)
            (Layout.axes layout) (ParsedReport.axes r) /\
    Forall2 (fun b v => parseButton data (baseOffset layout) b = Some v)
            (Layout.buttons layout) (ParsedReport.buttons r) /\
    parseHat data (baseOffset layout) (Layout.hat layout)
      = Some (ParsedReport.hatSwitch r).
Proof.
  intros Hok [hv Hhat]. unfold fieldsOk in Hok.
  apply andb_true_iff in Hok as [Hax Hbt].
  rewrite forallb_forall in Hax, Hbt.
  pose proof (baseOffset_range layout) as Hoff.
  destruct (forPush_total (parseAxis data (baseOffset layout)) (Layout.axes layout))
    as [axes Haxes].
  { apply Forall_forall. intros a Ha. apply parseAxis_total; [lia | auto]. }
  destruct (forPush_total (parseButton data (baseOffset layout))
                          (Layout.buttons layout)) as [btns Hbtns].
  { apply Forall_forall. intros b Hb. apply parseButton_total; [lia | auto]. }
  exists (ParsedReport.mk axes btns hv). unfold parseReport.
  rewrite Haxes, Hbtns, Hhat. simpl.
  repeat split; try reflexivity; try assumption;
    apply forPush_Forall2; assumption.
Qed.

Lemma parseReport_total data layout :
  layoutOk layout = true ->
  exists r, parseReport data layout = Some r /\
    Forall2 (fun a q => parseAxis data (baseOffset layout) a = Some q)
            (Layout.axes layout) (ParsedReport.axes r) /\
    Forall2 (fun b v => parseButton data (baseOffset layout) b = Some v)
            (Layout.buttons layout) (ParsedReport.buttons r) /\
    parseHat data (baseOffset layout) (Layout.hat layout)
      = Some (ParsedReport.hatSwitch r).
Proof.
  intro Hok. unfold layoutOk in Hok. apply andb_true_iff in Hok as [Hf Hh].
  apply parseReport_fields; [exact Hf|].
  apply parseHat_total; [apply baseOffset_range|].
  unfold hatFieldOk in Hh. destruct (Layout.hat layout); [|exact I].
  apply Z.leb_le. exact Hh.
Qed.

(** ** The bytes an axis field reads *)

Lemma skipn_nth_cons {A} (d : A) (l : list A) (n : nat) :
  (n < List.length l)%nat -> skipn n l = nth n l d :: skipn (S n) l.
Proof.
  revert n. induction l as [|x l IH]; intros n H; simpl in H; [lia|].
  destruct n as [|n]; [reflexivity|].
  simpl. apply IH. lia.
Qed.

Lemma slice_one bytes idx :
  0 <= idx -> idx + 1 <= Buffer.length bytes ->
  slice bytes idx 1 = [nth (Z.to_nat idx) bytes x00].
Proof.
  unfold Buffer.length, slice. intros H0 H1.
  rewrite (skipn_nth_cons x00) by lia. reflexivity.
Qed.

Lemma slice_two bytes idx :
  0 <= idx -> idx + 2 <= Buffer.length bytes ->
  slice bytes idx 2
  = [nth (Z.to_nat idx) bytes x00; nth (Z.to_nat (idx + 1)) bytes x00].
Proof.
  unfold Buffer.length, slice. intros H0 H1.
  rewrite (skipn_nth_cons x00) by lia.
  rewrite (skipn_nth_cons x00 _ (S (Z.to_nat idx))) by lia.
  replace (Z.to_nat (idx + 1)) with (S (Z.to_nat idx)) by lia.
  reflexivity.
Qed.

Lemma unsignedOf_one (le : bool) (b : byte) :
  unsignedOf le [b] = Z.of_N (Byte.to_N b).
Proof. unfold unsignedOf. destruct le; cbn [unsignedLE rev app]; lia. Qed.

Lemma unsignedOf_two_le (b0 b1 : byte) :
  unsignedOf true [b0; b1]
  = Z.of_N (Byte.to_N b0) + 256 * Z.of_N (Byte.to_N b1).
Proof. unfold unsignedOf. cbn [unsignedLE rev app]. lia. Qed.

Lemma unsignedOf_two_be (b0 b1 : byte) :
  unsignedOf false [b0; b1]
  = 256 * Z.of_N (Byte.to_N b0) + Z.of_N (Byte.to_N b1).
Proof. unfold unsignedOf. cbn [unsignedLE rev app]. lia. Qed.

Lemma parseAxis_in_buffer bytes offset a :
  AxisField.byteCount a = 1 \/ AxisField.byteCount a = 2 ->
  0 <= offset + AxisField.byteOffset a ->
  offset + AxisField.byteOffset a + AxisField.byteCount a <= Buffer.length bytes ->
  exists q, parseAxis bytes offset a = Some q /\ (q == specAxis bytes offset a)%Q.
Proof.
  intros Hcnt Hlo Hhi. unfold parseAxis, specAxis.
  destruct (Z.gtb_spec (offset + AxisField.byteOffset a + AxisField.byteCount a)
                       (Buffer.length bytes)) as [Hgt|_]; [lia|].
  destruct Hcnt as [H1|H2].
  - rewrite H1 in *. simpl (1 =? 2).
    unfold Buffer.readUInt8.
    read_in_range.
    rewrite slice_one, unsignedOf_one by lia.
    eexists; split; [reflexivity|]. cbv beta zeta.
    rewrite clampQ_max_min.
    unfold asSigned, Buffer.byteAt. change (2 ^ (8 * 1 - 1) - 1) with 127.
    change (2 ^ (8 * 1)) with 256.
    destruct (AxisField.unsigned a); reflexivity.
  - rewrite H2 in *. simpl (2 =? 2).
    unfold Buffer.readUInt16LE, Buffer.readUInt16BE.
    read_in_range.
    rewrite slice_two by lia.
    unfold asSigned, Buffer.byteAt. change (2 ^ (8 * 2 - 1) - 1) with 32767.
    change (2 ^ (8 * 2)) with 65536.
    destruct (AxisField.littleEndian a);
      [rewrite unsignedOf_two_le | rewrite unsignedOf_two_be];
      simpl Js.bind; cbv beta zeta;
      (eexists; split; [reflexivity|]); rewrite clampQ_max_min;
      destruct (AxisField.unsigned a); reflexivity.
Qed.

Lemma parseAxis_unit bytes offset a q :
  parseAxis bytes offset a = Some q -> (0 <= q <= 1)%Q.
Proof.
  unfold parseAxis.
  destruct (_ >? _); [intro H; injection H as <-; lra|].
  destruct (if AxisField.byteCount a =? 2 then _ else _) as [raw|]; simpl;
    [|discriminate].
  intro H. injection H as <-.
  split; [apply Q.le_max_l | apply Q.max_lub; [lra | apply Q.le_min_l]].
Qed.

Lemma parseReport_axes_unit data layout r :
  parseReport data layout = Some r ->
  Forall (fun x => (0 <= x <= 1)%Q) (ParsedReport.axes r).
Proof.
  unfold parseReport.
  destruct (Js.forPush (parseAxis _ _) _) as [axes|] eqn:Ea; simpl; [|discriminate].
  destruct (Js.forPush (parseButton _ _) _) as [btns|]; simpl; [|discriminate].
  destruct (parseHat _ _ _) as [hv|]; simpl; [|discriminate].
  intro H. injection H as <-. simpl.
  apply forPush_Forall2 in Ea.
  induction Ea as [|a q l l' Hq _ IH]; constructor; [|exact IH].
  eapply parseAxis_unit; exact Hq.
Qed.

(** ** Lemmas on the mapping loops *)

Lemma mapAxis_skip parsed st m :
  (List.length (ParsedReport.axes parsed) <= AxisMapping.sourceIndex m)%nat ->
  mapAxis parsed st m = st.
Proof.
  intro H. unfold mapAxis.
  apply Nat.leb_le in H. rewrite H. reflexivity.
Qed.

Lemma mapAxis_writes parsed st m :
  (AxisMapping.sourceIndex m < List.length (ParsedReport.axes parsed))%nat ->
  Gamepad.field (AxisMapping.target m) (mapAxis parsed st m)
  = axisOutput m (nth (AxisMapping.sourceIndex m) (ParsedReport.axes parsed) 0%Q).
Proof.
  intro H. unfold mapAxis, axisOutput, stickSignal, bipolar.
  apply Nat.leb_gt in H. rewrite H.
  destruct (AxisMapping.target m), (AxisMapping.inverted m); reflexivity.
Qed.

Lemma mapAxis_other parsed st m tg :
  AxisMapping.target m <> tg ->
  Gamepad.field tg (mapAxis parsed st m) = Gamepad.field tg st.
Proof.
  intro H. unfold mapAxis.
  destruct (_ <=? _)%nat; [reflexivity|].
  destruct (AxisMapping.target m), tg; try reflexivity; congruence.
Qed.

Lemma mapAxis_buttons parsed st m :
  Gamepad.buttons (mapAxis parsed st m) = Gamepad.buttons st.
Proof.
  unfold mapAxis.
  destruct (_ <=? _)%nat; [reflexivity|].
  destruct (AxisMapping.target m); reflexivity.
Qed.

Lemma target_eq_dec (a b : Target.t) : {a = b} + {a <> b}.
Proof. decide equality. Qed.

Lemma fold_mapAxis_keeps parsed tg post st :
  notOverwritten parsed tg post ->
  Gamepad.field tg (fold_left (mapAxis parsed) post st) = Gamepad.field tg st.
Proof.
  intro H. revert st. induction H as [|m post Hm _ IH]; intro st; simpl.
  - reflexivity.
  - rewrite IH. destruct (target_eq_dec (AxisMapping.target m) tg) as [E|N].
    + rewrite mapAxis_skip; auto.
    + apply mapAxis_other. exact N.
Qed.

Lemma mapButton_field parsed st b tg :
  Gamepad.field tg (mapButton parsed st b) = Gamepad.field tg st.
Proof.
  unfold mapButton.
  destruct (_ <=? _)%nat; [reflexivity|].
  destruct (nth _ _ _); destruct tg; reflexivity.
Qed.

Lemma fold_mapButton_field parsed tg bs st :
  Gamepad.field tg (fold_left (mapButton parsed) bs st) = Gamepad.field tg st.
Proof.
  revert st. induction bs as [|b bs IH]; intro st; simpl; [reflexivity|].
  rewrite IH. apply mapButton_field.
Qed.

Lemma orIf_field c mask st tg :
  Gamepad.field tg (orIf c mask st) = Gamepad.field tg st.
Proof. unfold orIf. destruct c, tg; reflexivity. Qed.

Lemma foldHat_field K hat st tg :
  Gamepad.field tg (foldHat K hat st) = Gamepad.field tg st.
Proof.
  unfold foldHat. destruct (hat >=? 0); [|reflexivity].
  cbv zeta. rewrite !orIf_field. reflexivity.
Qed.

(** The field a mapping names holds that mapping's output at the end,
    unless a later in-range mapping names the same field. *)
Lemma mapToGamepad_field K slot parsed profile pre m post :
  Profile.axisMappings profile = pre ++ m :: post ->
  (AxisMapping.sourceIndex m < List.length (ParsedReport.axes parsed))%nat ->
  notOverwritten parsed (AxisMapping.target m) post ->
  Gamepad.field (AxisMapping.target m) (mapToGamepad K slot parsed profile)
  = axisOutput m (nth (AxisMapping.sourceIndex m) (ParsedReport.axes parsed) 0%Q).
Proof.
  intros Hsplit Hin Hpost. unfold mapToGamepad. cbv zeta.
  rewrite foldHat_field, fold_mapButton_field, Hsplit, fold_left_app.
  simpl. rewrite fold_mapAxis_keeps by exact Hpost.
  apply mapAxis_writes. exact Hin.
Qed.

Lemma fold_left_filter {S A} (f : S -> A -> S) (keep : A -> bool) xs st :
  (forall s x, keep x = false -> f s x = s) ->
  fold_left f (filter keep xs) st = fold_left f xs st.
Proof.
  intro Hskip. revert st. induction xs as [|x xs IH]; intro st; simpl.
  - reflexivity.
  - destruct (keep x) eqn:E; simpl.
    + apply IH.
    + rewrite (Hskip st x E). apply IH.
Qed.

Lemma mapButton_skip parsed st b :
  (ButtonMapping.sourceIndex b <? List.length (ParsedReport.buttons parsed))%nat
    = false ->
  mapButton parsed st b = st.
Proof.
  intro H. unfold mapButton. apply Nat.ltb_ge in H. apply Nat.leb_le in H.
  rewrite H. reflexivity.
Qed.

(** ** Scaling and clamping *)




(** * The claims *)

(** ** Report decoding *)



(** The constraint on byte offsets is needed: the length test of
    [parseReport] bounds a field from above only, and [readUInt8] rejects
    the negative offset it lets through. *)
Remark parseReport_negative_offset :
  layoutOk (Layout.mk false [AxisField.mk (-1) 1 true true 0 1] [] None) = false
  /\ parseReport [x00]%byte
       (Layout.mk false [AxisField.mk (-1) 1 true true 0 1] [] None) = None.
Proof. split; reflexivity. Qed.

(** C3. An axis field whose bytes lie within the buffer decodes to the
    value the specification describes: [byteCount] bytes read at the
    declared offset with the declared endianness, read as two's complement
    when the field is not unsigned, normalised by the declared range when
    that range is positive and to 0 otherwise, and clamped to [0, 1].
    Every decoded axis lies in [0, 1], and the bytes FF 03 under the
    little-endian unsigned 16-bit layout with range 0..1023 decode to 1. *)
Theorem C3_axis_decode :
  (forall (bytes : Buffer.t) (offset : Z) (a : AxisField.t),
      AxisField.byteCount a = 1 \/ AxisField.byteCount a = 2 ->
      0 <= offset + AxisField.byteOffset a ->
      offset + AxisField.byteOffset a + AxisField.byteCount a
        <= Buffer.length bytes ->
      exists q, parseAxis bytes offset a = Some q
                /\ (q == specAxis bytes offset a)%Q)
  /\ (forall (data : Buffer.t) (layout : Layout.t) (r : ParsedReport.t),
         parseReport data layout = Some r ->
         Forall (fun x => (0 <= x <= 1)%Q) (ParsedReport.axes r))
  /\ parseReport [xff; x03]%byte layout1023
     = Some (ParsedReport.mk [1%Q] [] (-1)).
Proof.
  split; [exact parseAxis_in_buffer|].
  split; [exact parseReport_axes_unit|].
  vm_compute. reflexivity.
Qed.

Lemma C3_witness :
  (exists q, parseAxis [x00; xff; x7f]%byte 1
               (AxisField.mk 0 2 false false (-32768 # 1) (32767 # 1)) = Some q
             /\ (q == 32639 # 65535)%Q)
  /\ Forall (fun x => (0 <= x <= 1)%Q) [767 # 1023]%Q.
Proof.
  destruct C3_axis_decode as (Hfield & Hunit & _).
  split.
  - destruct (Hfield [x00; xff; x7f]%byte 1
                (AxisField.mk 0 2 false false (-32768 # 1) (32767 # 1)))
      as (q & Hq & Heq).
    + right. reflexivity.
    + vm_compute. discriminate.
    + vm_compute. discriminate.
    + exists q. split; [exact Hq|]. rewrite Heq. vm_compute. reflexivity.
  - apply (Hunit [xff; x02; x81]%byte stickLayout
             (ParsedReport.mk [767 # 1023]%Q [true; false] (-1))).
    vm_compute. reflexivity.
Defined.

(** C10. When the layout defines a hat field and the buffer is too short to
    contain the hat byte, decoding succeeds and reports the neutral hat
    position -1. *)
Theorem C10_hat_short_buffer :
  forall (data : Buffer.t) (layout : Layout.t) (h : HatField.t),
    fieldsOk layout = true ->
    Layout.hat layout = Some h ->
    baseOffset layout + HatField.byteOffset h >= Buffer.length data ->
    exists r, parseReport data layout = Some r
              /\ ParsedReport.hatSwitch r = -1.
Proof.
  intros data layout h Hok Hhat Hshort.
  pose proof (parseHat_short data (baseOffset layout) h Hshort) as Hh.
  destruct (parseReport_fields data layout Hok) as (r & Hr & _ & _ & Hv).
  - rewrite Hhat. eexists; exact Hh.
  - exists r. split; [exact Hr|].
    rewrite Hhat, Hh in Hv. injection Hv as <-. reflexivity.
Qed.

Lemma C10_witness :
  exists r, parseReport [xff; x03]%byte stickLayout = Some r
            /\ ParsedReport.hatSwitch r = -1.
Proof.
  apply (C10_hat_short_buffer [xff; x03]%byte stickLayout (HatField.mk 2 4 4 8)).
  - reflexivity.
  - reflexivity.
  - vm_compute. discriminate.
Defined.

(** ** Stick and trigger mapping *)

Lemma Qsign_pos (v : Q) : (0 < v)%Q -> Qsign v = 1%Q.
Proof.
  unfold Qsign, Qlt. simpl. intro H.
  rewrite Z.sgn_pos by lia. reflexivity.
Qed.

Lemma Qsign_neg (v : Q) : (v < 0)%Q -> Qsign v = (-1)%Q.
Proof.
  unfold Qsign, Qlt. simpl. intro H.
  rewrite Z.sgn_neg by lia. reflexivity.
Qed.

Lemma applyStickDeadzone_spec (v dz : Q) :
  (0 <= dz <= 1 # 2)%Q ->
  (applyStickDeadzone v dz == specSignedDeadzone v dz)%Q.
Proof.
  intros [Hlo Hhi]. unfold applyStickDeadzone, specSignedDeadzone.
  destruct (Js.Qltb (Qabs v) dz) eqn:Edz; [reflexivity|].
  apply Qltb_false in Edz.
  destruct (Qle_bool 0 v) eqn:Es.
  - apply Qle_bool_iff in Es.
    destruct (Qlt_le_dec 0 v) as [Hpos|Hzero].
    + rewrite (Qsign_pos v Hpos). unfold Qdiv. ring.
    + assert (Hv : (v == 0)%Q) by lra.
      assert (Ha : (Qabs v == 0)%Q) by (rewrite Hv; reflexivity).
      assert (Hd : (Qabs v - dz == 0)%Q) by lra.
      unfold Qdiv. rewrite Hd. ring.
  - apply Qle_bool_false in Es.
    rewrite (Qsign_neg v Es). unfold Qdiv. ring.
Qed.

Lemma applyStickDeadzone_edge (v dz : Q) :
  (Qabs v == dz)%Q -> (applyStickDeadzone v dz == 0)%Q.
Proof.
  intro H. unfold applyStickDeadzone.
  destruct (Js.Qltb (Qabs v) dz); [reflexivity|].
  assert (Hd : (Qabs v - dz == 0)%Q) by lra.
  unfold Qdiv. rewrite Hd. destruct (Qle_bool 0 v); ring.
Qed.

Lemma applyStickDeadzone_full (v dz : Q) :
  (v == 1)%Q -> (dz <= 1 # 2)%Q -> (applyStickDeadzone v dz == 1)%Q.
Proof.
  intros Hv Hdz. unfold applyStickDeadzone.
  assert (Ha : (Qabs v == 1)%Q) by (rewrite Hv; reflexivity).
  destruct (Js.Qltb (Qabs v) dz) eqn:E.
  - apply Qltb_true in E. lra.
  - replace (Qle_bool 0 v) with true
      by (symmetry; apply Qle_bool_iff; lra).
    rewrite Ha. field. lra.
Qed.

Lemma applyStickCurve_zero (x s : Q) (c : Curve) :
  (x == 0)%Q -> (applyStickCurve x s c == 0)%Q.
Proof.
  intro H. unfold applyStickCurve, Js.Math_pow2.
  assert (Ha : (Qabs x == 0)%Q) by (rewrite H; reflexivity).
  destruct c.
  - rewrite H. ring.
  - rewrite Ha. destruct (Qle_bool 0 x); ring.
Qed.





(** C4. With a deadzone in [0, 0.5] the signed deadzone sends [v] to 0 when
    [|v| < deadzone] and to [sign(v) * (|v| - deadzone) / (1 - deadzone)]
    otherwise.  With deadzone 0.1 an input whose bipolar value is exactly
    0.1 gives stick value 0, and an input whose bipolar value is 1 gives,
    with sensitivity 1 and the linear curve, stick value 32767. *)
Theorem C4_signed_deadzone :
  (forall v dz : Q,
      (0 <= dz <= 1 # 2)%Q ->
      (applyStickDeadzone v dz == specSignedDeadzone v dz)%Q
      /\ ((Qabs v < dz)%Q -> (applyStickDeadzone v dz == 0)%Q)
      /\ (~ (Qabs v < dz)%Q ->
          (applyStickDeadzone v dz
           == Qsign v * (Qabs v - dz) / (1 - dz))%Q))
  /\ (forall (K : InputConstants) (slot : Z) (parsed : ParsedReport.t)
             (profile : Profile.t) (pre post : list AxisMapping.t)
             (m : AxisMapping.t),
         Profile.axisMappings profile = pre ++ m :: post ->
         isStick (AxisMapping.target m) = true ->
         (AxisMapping.sourceIndex m
            < List.length (ParsedReport.axes parsed))%nat ->
         notOverwritten parsed (AxisMapping.target m) post ->
         (AxisMapping.deadzone m == 1 # 10)%Q ->
         let raw := nth (AxisMapping.sourceIndex m) (ParsedReport.axes parsed) 0%Q in
         let out := Gamepad.field (AxisMapping.target m)
                      (mapToGamepad K slot parsed profile) in
         ((bipolar raw (AxisMapping.inverted m) == 1 # 10)%Q -> out = 0)
         /\ ((bipolar raw (AxisMapping.inverted m) == 1)%Q ->
             (AxisMapping.sensitivity m == 1)%Q ->
             AxisMapping.curve m = linear ->
             out = 32767)).
Proof.
  split.
  - intros v dz Hdz.
    pose proof (applyStickDeadzone_spec v dz Hdz) as Hspec.
    split; [exact Hspec|]. split.
    + intro Hlt. rewrite Hspec. unfold specSignedDeadzone.
      apply Qltb_true in Hlt. rewrite Hlt. reflexivity.
    + intro Hge. rewrite Hspec. unfold specSignedDeadzone.
      destruct (Js.Qltb (Qabs v) dz) eqn:E; [|reflexivity].
      apply Qltb_true in E. contradiction.
  - intros K slot parsed profile pre post m Hsplit Hstick Hin Hpost Hdz raw out.
    assert (Hout : out = Z.max (-32768) (Z.min 32767
                     (Js.Math_round (stickSignal m raw * 32767)))).
    { unfold out. rewrite (mapToGamepad_field K slot parsed profile pre m post)
        by assumption.
      unfold axisOutput. rewrite Hstick. reflexivity. }
    split.
    + intro Hv. rewrite Hout.
      rewrite (Math_round_eq _ (inject_Z 0)); [rewrite Math_round_Z; reflexivity|].
      unfold stickSignal. rewrite applyStickCurve_zero; [reflexivity|].
      apply applyStickDeadzone_edge. rewrite Hdz, Hv. reflexivity.
    + intros Hv Hs Hc. rewrite Hout.
      rewrite (Math_round_eq _ (inject_Z 32767));
        [rewrite Math_round_Z; reflexivity|].
      unfold stickSignal. rewrite Hc. unfold applyStickCurve.
      rewrite Hs, (applyStickDeadzone_full _ _ Hv) by (rewrite Hdz; lra).
      reflexivity.
Qed.

Lemma C4_witness :
  (applyStickDeadzone (- (3 # 5)) (1 # 10) == - (5 # 9))%Q
  /\ Gamepad.leftStickX (mapToGamepad xinput 0 flightSample flightProfile) = 0
  /\ Gamepad.leftStickY (mapToGamepad xinput 0 flightSample flightProfile) = 32767.
Proof.
  destruct C4_signed_deadzone as (Hdz & Hmap).
  split.
  - destruct (Hdz (- (3 # 5))%Q (1 # 10)%Q) as (_ & _ & H).
    + split; vm_compute; discriminate.
    + rewrite H; [vm_compute; reflexivity|].
      vm_compute. discriminate.
  - split.
    + refine (proj1 (Hmap xinput 0 flightSample flightProfile []
                       [throttleMapping; pitchMapping; absentMapping]
                       rollMapping eq_refl eq_refl _ _ _) _).
      * unfold flightSample; simpl; lia.
      * constructor; [intro H; discriminate|].
        constructor; [intro H; discriminate|].
        constructor; [|constructor]. intros _. simpl. lia.
      * reflexivity.
      * vm_compute. reflexivity.
    + refine (proj2 (Hmap xinput 0 flightSample flightProfile
                       [rollMapping; throttleMapping] [absentMapping]
                       pitchMapping eq_refl eq_refl _ _ _) _ _ _).
      * unfold flightSample; simpl; lia.
      * constructor; [|constructor]. intros _. simpl. lia.
      * reflexivity.
      * vm_compute. reflexivity.
      * reflexivity.
      * reflexivity.
Defined.



(** ** Hat folding *)

Lemma orIf_buttons c mask st :
  Gamepad.buttons (orIf c mask st)
  = if c then Js.bor (Gamepad.buttons st) mask else Gamepad.buttons st.
Proof. unfold orIf. destruct c; reflexivity. Qed.

Lemma foldHat_table K hat st :
  0 <= hat ->
  Gamepad.buttons (foldHat K hat st)
  = assertAll K (hatTable hat) (Gamepad.buttons st).
Proof.
  intro H. unfold foldHat.
  destruct (Z.geb_spec hat 0) as [_|Hneg]; [|lia].
  cbv zeta. rewrite !orIf_buttons.
  unfold assertAll, hatTable, oneOf. rewrite !fold_left_app.
  cbn [existsb].
  destruct (hat =? 0) eqn:E0; [apply Z.eqb_eq in E0; subst hat; reflexivity|].
  destruct (hat =? 1) eqn:E1; [apply Z.eqb_eq in E1; subst hat; reflexivity|].
  destruct (hat =? 2) eqn:E2; [apply Z.eqb_eq in E2; subst hat; reflexivity|].
  destruct (hat =? 3) eqn:E3; [apply Z.eqb_eq in E3; subst hat; reflexivity|].
  destruct (hat =? 4) eqn:E4; [apply Z.eqb_eq in E4; subst hat; reflexivity|].
  destruct (hat =? 5) eqn:E5; [apply Z.eqb_eq in E5; subst hat; reflexivity|].
  destruct (hat =? 6) eqn:E6; [apply Z.eqb_eq in E6; subst hat; reflexivity|].
  destruct (hat =? 7) eqn:E7; [apply Z.eqb_eq in E7; subst hat; reflexivity|].
  reflexivity.
Qed.

(** C6. With a hat position that is not negative, the D-pad masks are ORed
    into the button mask by the 3-neighbour table (7, 0, 1 assert Up;
    1, 2, 3 Right; 3, 4, 5 Down; 5, 6, 7 Left), on top of the mask the
    button mappings produce.  Position 0 adds Up only, position 1 adds Up
    and Right, and the neutral position -1 adds nothing; the hat changes no
    other field. *)
Theorem C6_hat_folding :
  forall (K : InputConstants) (slot : Z) (parsed : ParsedReport.t)
         (profile : Profile.t),
    let hat := ParsedReport.hatSwitch parsed in
    let unfolded := mapToGamepad K slot (withHat (-1) parsed) profile in
    let base := Gamepad.buttons unfolded in
    let out := mapToGamepad K slot parsed profile in
    (0 <= hat -> Gamepad.buttons out = assertAll K (hatTable hat) base)
    /\ (hat = 0 -> Gamepad.buttons out = Js.bor base (GAMEPAD_DPAD_UP K))
    /\ (hat = 1 ->
        Gamepad.buttons out
        = Js.bor (Js.bor base (GAMEPAD_DPAD_UP K)) (GAMEPAD_DPAD_RIGHT K))
    /\ (hat = -1 -> out = unfolded)
    /\ (forall tg, Gamepad.field tg out = Gamepad.field tg unfolded)
    /\ hatTable 0 = [Up] /\ hatTable 1 = [Up; Right] /\ hatTable (-1) = [].
Proof.
  intros K slot parsed profile hat unfolded base out.
  assert (Hout : forall h, 0 <= h -> hat = h ->
                 Gamepad.buttons out = assertAll K (hatTable h) base).
  { intros h Hh Eh. unfold out, mapToGamepad. cbv zeta.
    fold hat. rewrite Eh. apply foldHat_table. exact Hh. }
  split; [intro H; apply Hout; [exact H | reflexivity]|].
  split; [intro H; apply (Hout 0); [lia | exact H]|].
  split; [intro H; apply (Hout 1); [lia | exact H]|].
  split.
  { intro H. unfold out, unfolded, mapToGamepad. cbv zeta.
    fold hat. rewrite H. reflexivity. }
  split.
  { intro tg. unfold out, unfolded, mapToGamepad. cbv zeta.
    rewrite !foldHat_field. reflexivity. }
  repeat split.
Qed.

Lemma C6_witness :
  Gamepad.buttons (mapToGamepad xinput 0 flightSample flightProfile) = 4105
  /\ Gamepad.buttons
       (mapToGamepad xinput 0 (withHat 0 flightSample) flightProfile) = 4097
  /\ Gamepad.buttons
       (mapToGamepad xinput 0 (withHat (-1) flightSample) flightProfile) = 4096.
Proof.
  split; [|split].
  - destruct (C6_hat_folding xinput 0 flightSample flightProfile)
      as (_ & _ & H & _).
    rewrite H; reflexivity.
  - destruct (C6_hat_folding xinput 0 (withHat 0 flightSample) flightProfile)
      as (_ & H & _).
    rewrite H; reflexivity.
  - destruct (C6_hat_folding xinput 0 (withHat (-1) flightSample) flightProfile)
      as (_ & _ & _ & H & _).
    rewrite H; reflexivity.
Defined.

(** ** Change detection *)

Lemma neqb_true (a b : Z) : negb (a =? b) = true <-> a <> b.
Proof. rewrite negb_true_iff. apply Z.eqb_neq. Qed.

(** C7. The change detector answers true exactly when there is no previous
    state or one of the seven fields buttons, leftTrigger, rightTrigger,
    leftStickX, leftStickY, rightStickX, rightStickY differs; two states
    that differ only in controllerId and connected count as unchanged. *)
Theorem C7_change_detector :
  forall (prev : option Gamepad.t) (next : Gamepad.t),
    (hasGamepadStateChanged prev next = true
     <-> prev = None \/ exists p, prev = Some p /\ controlsDiffer p next)
    /\ (forall (p : Gamepad.t) (id : Z) (conn : bool),
           prev = Some p ->
           next = Gamepad.mk id (Gamepad.buttons p) (Gamepad.leftTrigger p)
                    (Gamepad.rightTrigger p) (Gamepad.leftStickX p)
                    (Gamepad.leftStickY p) (Gamepad.rightStickX p)
                    (Gamepad.rightStickY p) conn ->
           hasGamepadStateChanged prev next = false).
Proof.
  intros prev next. split.
  - destruct prev as [p|]; simpl.
    + rewrite !orb_true_iff, !neqb_true. unfold controlsDiffer. split.
      * intro H. right. exists p. split; [reflexivity|]. tauto.
      * intros [H|(p' & Hp & H)]; [discriminate|].
        injection Hp as <-. tauto.
    + split; [intros _; left; reflexivity | reflexivity].
  - intros p id conn -> ->. simpl. rewrite !Z.eqb_refl. reflexivity.
Qed.

Lemma C7_witness :
  hasGamepadStateChanged (Some (initialState 0)) (neutralState 3) = false
  /\ hasGamepadStateChanged (Some (initialState 0))
       (Gamepad.set_leftTrigger 64 (initialState 0)) = true.
Proof.
  split.
  - apply (proj2 (C7_change_detector (Some (initialState 0)) (neutralState 3))
             (initialState 0) 3 false); reflexivity.
  - apply (proj1 (C7_change_detector (Some (initialState 0))
                    (Gamepad.set_leftTrigger 64 (initialState 0)))).
    right. exists (initialState 0). split; [reflexivity|].
    right. left. simpl. discriminate.
Defined.

(** ** Out-of-range mapping entries *)

(** C8. Mapping entries whose source index is out of range are inert:
    [mapToGamepad] returns the same state on a profile and on that profile
    with every out-of-range axis mapping and button mapping removed. *)
Theorem C8_out_of_range_inert :
  forall (K : InputConstants) (slot : Z) (parsed : ParsedReport.t)
         (profile : Profile.t),
    mapToGamepad K slot parsed (inRangeOnly parsed profile)
    = mapToGamepad K slot parsed profile.
Proof.
  intros K slot parsed profile. unfold mapToGamepad, inRangeOnly. cbv zeta.
  cbn [Profile.axisMappings Profile.buttonMappings].
  rewrite (fold_left_filter (mapAxis parsed)).
  - rewrite (fold_left_filter (mapButton parsed)); [reflexivity|].
    intros s b Hb. apply mapButton_skip. exact Hb.
  - intros s m Hm. apply mapAxis_skip. apply Nat.ltb_ge. exact Hm.
Qed.

(** ** Capture shutdown *)

Lemma stopCapture_idle (this : Service.t) :
  Service.device this = None ->
  Service.devicePath this = None ->
  stopCapture this = (this, []).
Proof.
  intros Hd Hp. unfold stopCapture. rewrite Hd. simpl. rewrite Hp. reflexivity.
Qed.

(** C9, as the code has it.  When a capture is active the first
    [stopCapture] closes the device handle whether or not closing throws,
    and clears the device, its path, the last gamepad state and the last raw
    bytes.  If the main window is present and not destroyed it sends exactly
    one disconnected state-update followed by exactly one gamepad state
    whose numeric fields are all 0 and whose connected flag is false; with
    no live window it sends nothing.  A second call emits nothing and
    changes no state, so two calls send at most one disconnected
    state-update. *)
Theorem C9_stopCapture_once :
  forall (this : Service.t) (d : Hid.t),
    Service.device this = Some d ->
    Js.truthy (Service.devicePath this) = true ->
    let first := stopCapture this in
    let second := stopCapture (fst first) in
    (windowLive this = true ->
     snd first
     = [HidClose d;
        FLIGHT_STATE_UPDATE
          (ControlsState.mk false (Service.deviceName this) [] [] (-1) []);
        FLIGHT_GAMEPAD_STATE (neutralState (Service.controllerSlot this))])
    /\ (windowLive this = false -> snd first = [HidClose d])
    /\ Service.device (fst first) = None
    /\ Service.devicePath (fst first) = None
    /\ Service.lastGamepadState (fst first) = None
    /\ Service.lastRawBytes (fst first) = []
    /\ second = (fst first, [])
    /\ (disconnectedUpdates (snd first ++ snd second) <= 1)%nat
    /\ (gamepadUpdates (snd first ++ snd second) <= 1)%nat.
Proof.
  intros this d Hd Hp first second.
  assert (Hfirst : first
    = (Service.mk None None (Service.deviceName this) (Service.enabled this)
         (Service.controllerSlot this) (Service.mainWindow this) []
         (Service.reportLayout this) (Service.profile this) None,
       HidClose d :: sendConnectedState
         (Service.mk None (Service.devicePath this) (Service.deviceName this)
            (Service.enabled this) (Service.controllerSlot this)
            (Service.mainWindow this) (Service.lastRawBytes this)
            (Service.reportLayout this) (Service.profile this)
            (Service.lastGamepadState this)) false)).
  { unfold first, stopCapture. rewrite Hd. cbn. rewrite Hp. reflexivity. }
  assert (Hsecond : second = (fst first, [])).
  { unfold second. apply stopCapture_idle; rewrite Hfirst; reflexivity. }
  rewrite Hsecond. rewrite Hfirst. cbn [fst snd].
  unfold sendConnectedState, windowLive. cbn [Service.mainWindow
    Service.deviceName Service.controllerSlot negb].
  destruct (Service.mainWindow this) as [w|]; [destruct (Window.isDestroyed w)|];
    cbn; repeat split; try discriminate; try reflexivity; try lia.
Qed.

Lemma C9_witness :
  snd (stopCapture capturing)
  = [HidClose (Hid.mk "hid0" true);
     FLIGHT_STATE_UPDATE (ControlsState.mk false "Stick"%string [] [] (-1) []);
     FLIGHT_GAMEPAD_STATE (neutralState 2)]
  /\ stopCapture (fst (stopCapture capturing))
     = (fst (stopCapture capturing), []).
Proof.
  destruct (C9_stopCapture_once capturing (Hid.mk "hid0" true) eq_refl eq_refl)
    as (Hlive & _ & _ & _ & _ & _ & Hsecond & _).
  split; [apply Hlive; reflexivity | exact Hsecond].
Defined.

(** The claim C9 as stated fails: a capture can be active while the service
    has no main window; stopping it then closes the handle and sends no
    state-update at all. *)
Lemma C9_counterexample :
  captureActive windowless = true
  /\ snd (stopCapture windowless) = [HidClose (Hid.mk "hid0" false)]
  /\ disconnectedUpdates (snd (stopCapture windowless)) <> 1%nat
  /\ gamepadUpdates (snd (stopCapture windowless)) <> 1%nat.
Proof.
  split; [reflexivity|]. split; [reflexivity|].
  split; vm_compute; discriminate.
Qed.

(** * Further properties of the code *)

(** ** Bit fields of a report byte *)

Lemma toInt32_small (z : Z) : int32 z -> Js.toInt32 z = z.
Proof.
  unfold int32, Js.toInt32. intro H.
  rewrite Z.mod_small; lia.
Qed.

Lemma toInt32_int32 (z : Z) : int32 (Js.toInt32 z).
Proof.
  unfold int32, Js.toInt32.
  pose proof (Z.mod_pos_bound (z + 2 ^ 31) (2 ^ 32)). lia.
Qed.

Lemma byteAt_range (bytes : Buffer.t) (i : Z) :
  0 <= Buffer.byteAt bytes i <= 255.
Proof.
  unfold Buffer.byteAt.
  destruct (nth (Z.to_nat i) bytes x00); vm_compute; split; discriminate.
Qed.

Lemma shl_one (k : Z) :
  0 <= k <= 31 ->
  Js.toInt32 (Js.shl 1 k - 1) = 2 ^ k - 1.
Proof.
  intro Hk. unfold Js.shl.
  rewrite (Z.mod_small k 32) by lia.
  rewrite (toInt32_small 1) by (unfold int32; lia).
  rewrite Z.shiftl_1_l.
  destruct (Z.eq_dec k 31) as [->|Hne]; [reflexivity|].
  assert (Hp : 0 < 2 ^ k <= 2 ^ 30).
  { split; [apply Z.pow_pos_nonneg; lia | apply Z.pow_le_mono_r; lia]. }
  rewrite (toInt32_small (2 ^ k)) by (unfold int32; lia).
  apply toInt32_small. unfold int32. lia.
Qed.

(** The hat expression on a byte is plain bit-field extraction. *)
Lemma hat_bits (byte bitOffset bitCount : Z) :
  0 <= byte <= 255 -> 0 <= bitOffset <= 31 -> 0 <= bitCount <= 31 ->
  Js.band (Js.shr byte bitOffset) (Js.shl 1 bitCount - 1)
  = (byte / 2 ^ bitOffset) mod 2 ^ bitCount.
Proof.
  intros Hb Ho Hc. unfold Js.band. rewrite shl_one by exact Hc.
  unfold Js.shr. rewrite (Z.mod_small bitOffset 32) by lia.
  rewrite (toInt32_small byte) by (unfold int32; lia).
  rewrite Z.shiftr_div_pow2 by lia.
  assert (Hq : 0 <= byte / 2 ^ bitOffset <= 255).
  { assert (0 < 2 ^ bitOffset) by (apply Z.pow_pos_nonneg; lia).
    split; [apply Z.div_pos; lia|].
    transitivity (byte / 1); [|rewrite Z.div_1_r; lia].
    apply Z.div_le_compat_l; lia. }
  rewrite (toInt32_small (byte / 2 ^ bitOffset)) by (unfold int32; lia).
  rewrite <- Z.land_ones by lia. rewrite Z.ones_equiv. reflexivity.
Qed.

(** Whatever the bit positions, the hat expression stays within a byte. *)
Lemma hat_bits_range (byte bitOffset mask : Z) :
  0 <= byte <= 255 ->
  0 <= Js.band (Js.shr byte bitOffset) mask <= 255.
Proof.
  intro Hb. unfold Js.band, Js.shr.
  rewrite (toInt32_small byte) by (unfold int32; lia).
  assert (Hk : 0 <= bitOffset mod 32 < 32) by (apply Z.mod_pos_bound; lia).
  set (k := bitOffset mod 32) in *.
  rewrite Z.shiftr_div_pow2 by lia.
  assert (Hq : 0 <= byte / 2 ^ k <= 255).
  { assert (0 < 2 ^ k) by (apply Z.pow_pos_nonneg; lia).
    split; [apply Z.div_pos; lia|].
    transitivity (byte / 1); [|rewrite Z.div_1_r; lia].
    apply Z.div_le_compat_l; lia. }
  set (x := byte / 2 ^ k) in *.
  rewrite (toInt32_small x) by (unfold int32; lia).
  assert (Hx : x = Z.land x (Z.ones 8)).
  { rewrite Z.land_ones by lia. rewrite Z.mod_small; [reflexivity|].
    change (2 ^ 8) with 256. lia. }
  rewrite Hx, <- Z.land_assoc, (Z.land_comm (Z.ones 8)), Z.land_assoc.
  rewrite Z.land_ones by lia.
  pose proof (Z.mod_pos_bound (Z.land x (Js.toInt32 mask)) (2 ^ 8)).
  change (2 ^ 8) with 256 in *. lia.
Qed.

(** The button expression on a byte is a bit test. *)
Lemma button_bit (byte k : Z) :
  0 <= byte <= 255 -> 0 <= k <= 31 ->
  negb (Js.band byte (Js.shl 1 k) =? 0) = Z.testbit byte k.
Proof.
  intros Hb Hk. unfold Js.band, Js.shl.
  rewrite (toInt32_small byte) by (unfold int32; lia).
  rewrite (toInt32_small 1) by (unfold int32; lia).
  rewrite (Z.mod_small k 32) by lia.
  rewrite Z.shiftl_1_l.
  assert (Hidem : Js.toInt32 (Js.toInt32 (2 ^ k)) = Js.toInt32 (2 ^ k))
    by (apply toInt32_small, toInt32_int32).
  rewrite Hidem.
  destruct (Z_lt_le_dec k 8) as [Hlow|Hhigh].
  - assert (Hp : 0 < 2 ^ k <= 2 ^ 7).
    { split; [apply Z.pow_pos_nonneg; lia | apply Z.pow_le_mono_r; lia]. }
    rewrite (toInt32_small (2 ^ k)) by (unfold int32; lia).
    destruct (Z.testbit byte k) eqn:Eb.
    + apply negb_true_iff, Z.eqb_neq. intro H0.
      assert (Hbit : Z.testbit (Z.land byte (2 ^ k)) k = true).
      { rewrite Z.land_spec, Eb, Z.pow2_bits_eqb, Z.eqb_refl by lia.
        reflexivity. }
      rewrite H0, Z.bits_0 in Hbit. discriminate.
    + apply negb_false_iff, Z.eqb_eq. apply Z.bits_inj'. intros i Hi.
      rewrite Z.land_spec, Z.bits_0, Z.pow2_bits_eqb by lia.
      destruct (Z.eqb_spec k i) as [<-|]; [rewrite Eb|rewrite andb_false_r];
        reflexivity.
  - replace (Z.testbit byte k) with false.
    + apply negb_false_iff, Z.eqb_eq.
      assert (Hhi : Js.toInt32 (2 ^ k) = 2 ^ 8 * (Js.toInt32 (2 ^ k) / 2 ^ 8)).
      { destruct (Z.eq_dec k 31) as [->|Hne]; [reflexivity|].
        assert (Hp : 0 < 2 ^ k <= 2 ^ 30).
        { split; [apply Z.pow_pos_nonneg; lia | apply Z.pow_le_mono_r; lia]. }
        rewrite (toInt32_small (2 ^ k)) by (unfold int32; lia).
        replace k with (8 + (k - 8)) at 1 2 by lia.
        rewrite Z.pow_add_r by lia.
        rewrite (Z.mul_comm (2 ^ 8)), Z.div_mul by lia. ring. }
      rewrite Hhi. apply Z.bits_inj'. intros i Hi.
      rewrite Z.land_spec, Z.bits_0.
      destruct (Z_lt_le_dec i 8) as [Hi8|Hi8].
      * rewrite (Z.mul_comm (2 ^ 8)), Z.mul_pow2_bits_low by lia.
        apply andb_false_r.
      * rewrite (Z.bits_above_log2 byte i); [reflexivity | lia |].
        destruct (Z.eq_dec byte 0) as [->|Hnz]; [simpl; lia|].
        apply Z.log2_lt_pow2; [lia|].
        assert (2 ^ 8 <= 2 ^ i) by (apply Z.pow_le_mono_r; lia).
        change (2 ^ 8) with 256 in *. lia.
    + symmetry. apply Z.bits_above_log2; [lia|].
      destruct (Z.eq_dec byte 0) as [->|Hnz]; [simpl; lia|].
      apply Z.log2_lt_pow2; [lia|].
      assert (2 ^ 8 <= 2 ^ k) by (apply Z.pow_le_mono_r; lia).
      change (2 ^ 8) with 256 in *. lia.
Qed.

(** X1. A hat field whose byte lies in the buffer, with bit offset and bit
    count between 0 and 31, decodes to the [bitCount]-bit field that starts
    at bit [bitOffset] of that byte, and to -1 when that field equals the
    centre value. *)
Theorem X1_hat_bit_field :
  forall (bytes : Buffer.t) (offset : Z) (h : HatField.t),
    0 <= offset + HatField.byteOffset h < Buffer.length bytes ->
    0 <= HatField.bitOffset h <= 31 ->
    0 <= HatField.bitCount h <= 31 ->
    let field :=
      (Buffer.byteAt bytes (offset + HatField.byteOffset h)
         / 2 ^ HatField.bitOffset h) mod 2 ^ HatField.bitCount h in
    parseHat bytes offset (Some h)
    = Some (if field =? HatField.centerValue h then -1 else field).
Proof.
  intros bytes offset h Hidx Hbo Hbc field. unfold parseHat.
  destruct (Z.ltb_spec (offset + HatField.byteOffset h) (Buffer.length bytes));
    [|lia].
  unfold Buffer.readUInt8. read_in_range. cbn [Js.bind].
  rewrite hat_bits by (auto using byteAt_range).
  reflexivity.
Qed.

Lemma X1_witness :
  parseHat [x00; x00; x35]%byte 0 (Some (HatField.mk 2 4 4 8)) = Some 3
  /\ parseHat [x00; x00; x85]%byte 0 (Some (HatField.mk 2 4 4 8)) = Some (-1).
Proof.
  split.
  - rewrite (X1_hat_bit_field [x00; x00; x35]%byte 0 (HatField.mk 2 4 4 8));
      [reflexivity | | |]; unfold Buffer.length; simpl; lia.
  - rewrite (X1_hat_bit_field [x00; x00; x85]%byte 0 (HatField.mk 2 4 4 8));
      [reflexivity | | |]; unfold Buffer.length; simpl; lia.
Defined.

Lemma parseHat_range bytes offset hat v :
  parseHat bytes offset hat = Some v -> -1 <= v <= 255.
Proof.
  unfold parseHat. destruct hat as [h|]; [|intro H; injection H as <-; lia].
  destruct (_ <? _); [|intro H; injection H as <-; lia].
  unfold Buffer.readUInt8. destruct (_ && _); [|discriminate].
  cbn [Js.bind]. intro H. injection H as <-.
  pose proof (hat_bits_range
                (Buffer.byteAt bytes (offset + HatField.byteOffset h))
                (HatField.bitOffset h) (Js.shl 1 (HatField.bitCount h) - 1)
                (byteAt_range _ _)) as Hr.
  destruct (_ =? _); lia.
Qed.

Lemma parseReport_hat_range data layout r :
  parseReport data layout = Some r ->
  -1 <= ParsedReport.hatSwitch r <= 255.
Proof.
  unfold parseReport.
  destruct (Js.forPush (parseAxis _ _) _) as [axes|]; simpl; [|discriminate].
  destruct (Js.forPush (parseButton _ _) _) as [btns|]; simpl; [|discriminate].
  destruct (parseHat _ _ _) as [hv|] eqn:Eh; simpl; [|discriminate].
  intro H. injection H as <-. simpl.
  eapply parseHat_range. exact Eh.
Qed.

(** X2. Whatever the layout and the buffer, a decoded report has a hat
    position between -1 and 255: the neutral value or a value that fits the
    byte it was cut from. *)
Theorem X2_hat_range :
  forall (data : Buffer.t) (layout : Layout.t) (r : ParsedReport.t),
    parseReport data layout = Some r ->
    -1 <= ParsedReport.hatSwitch r <= 255.
Proof.
  intros data layout r H.
  pose proof (parseReport_hat_range data layout r H) as Hr.
  split; [exact (proj1 Hr) | exact (proj2 Hr)].
Qed.

Lemma X2_witness :
  -1 <= ParsedReport.hatSwitch
          (ParsedReport.mk [767 # 1023]%Q [true; false] (-1)) <= 255.
Proof.
  apply (X2_hat_range [xff; x02; x81]%byte stickLayout).
  vm_compute. reflexivity.
Defined.

(** X3. A button field whose byte lies in the buffer decodes to bit
    [bitIndex mod 32] of that byte: the shift count wraps at 32 as in
    JavaScript, and a position from 8 to 31 always reads false. *)
Theorem X3_button_bit :
  forall (bytes : Buffer.t) (offset : Z) (b : ButtonField.t),
    0 <= offset + ButtonField.byteOffset b < Buffer.length bytes ->
    parseButton bytes offset b
    = Some (Z.testbit (Buffer.byteAt bytes (offset + ButtonField.byteOffset b))
                      (ButtonField.bitIndex b mod 32))
    /\ (8 <= ButtonField.bitIndex b mod 32 ->
        parseButton bytes offset b = Some false).
Proof.
  intros bytes offset b Hidx.
  assert (Hk : 0 <= ButtonField.bitIndex b mod 32 < 32)
    by (apply Z.mod_pos_bound; lia).
  assert (Hdec : parseButton bytes offset b
    = Some (Z.testbit (Buffer.byteAt bytes (offset + ButtonField.byteOffset b))
                      (ButtonField.bitIndex b mod 32))).
  { unfold parseButton.
    destruct (Z.geb_spec (offset + ButtonField.byteOffset b)
                         (Buffer.length bytes)); [lia|].
    unfold Buffer.readUInt8. read_in_range. cbn [Js.bind].
    rewrite <- (button_bit _ (ButtonField.bitIndex b mod 32))
      by (auto using byteAt_range; lia).
    unfold Js.shl. rewrite Z.mod_mod by lia. reflexivity. }
  split; [exact Hdec|].
  intro Hhigh. rewrite Hdec. f_equal.
  pose proof (byteAt_range bytes (offset + ButtonField.byteOffset b)) as Hb.
  apply Z.bits_above_log2; [lia|].
  destruct (Z.eq_dec (Buffer.byteAt bytes (offset + ButtonField.byteOffset b)) 0)
    as [->|Hnz]; [simpl; lia|].
  apply Z.log2_lt_pow2; [lia|].
  assert (2 ^ 8 <= 2 ^ (ButtonField.bitIndex b mod 32))
    by (apply Z.pow_le_mono_r; lia).
  change (2 ^ 8) with 256 in *. lia.
Qed.

Lemma X3_witness :
  parseButton [x00; x05]%byte 1 (ButtonField.mk 0 34) = Some true
  /\ parseButton [x00; xff]%byte 1 (ButtonField.mk 0 8) = Some false.
Proof.
  assert (H34 : 0 <= 1 + ButtonField.byteOffset (ButtonField.mk 0 34)
                < Buffer.length [x00; x05]%byte)
    by (unfold Buffer.length; simpl; lia).
  assert (H8 : 0 <= 1 + ButtonField.byteOffset (ButtonField.mk 0 8)
               < Buffer.length [x00; xff]%byte)
    by (unfold Buffer.length; simpl; lia).
  split.
  - rewrite (proj1 (X3_button_bit [x00; x05]%byte 1 (ButtonField.mk 0 34) H34)).
    reflexivity.
  - apply (proj2 (X3_button_bit [x00; xff]%byte 1 (ButtonField.mk 0 8) H8)).
    vm_compute. discriminate.
Defined.

(** ** The report-id prefix and the empty report *)

Lemma forPush_ext {A B} (f g : A -> option B) (xs : list A) :
  (forall x, In x xs -> f x = g x) -> Js.forPush f xs = Js.forPush g xs.
Proof.
  induction xs as [|x xs IH]; intro H; simpl; [reflexivity|].
  rewrite (H x) by (left; reflexivity).
  rewrite IH by (intros y Hy; apply H; right; exact Hy).
  reflexivity.
Qed.

Lemma length_cons (x : byte) (data : Buffer.t) :
  Buffer.length (x :: data) = 1 + Buffer.length data.
Proof. unfold Buffer.length. simpl List.length. lia. Qed.

Lemma byteAt_cons (x : byte) (data : Buffer.t) (i : Z) :
  0 <= i -> Buffer.byteAt (x :: data) (1 + i) = Buffer.byteAt data i.
Proof.
  intro H. unfold Buffer.byteAt.
  replace (Z.to_nat (1 + i)) with (S (Z.to_nat i)) by lia. reflexivity.
Qed.

Lemma readUInt8_cons (x : byte) (data : Buffer.t) (i : Z) :
  0 <= i -> Buffer.readUInt8 (x :: data) (1 + i) = Buffer.readUInt8 data i.
Proof.
  intro H. unfold Buffer.readUInt8. rewrite length_cons, byteAt_cons by lia.
  replace (0 <=? 1 + i) with (0 <=? i)
    by (destruct (Z.leb_spec 0 i), (Z.leb_spec 0 (1 + i)); lia || reflexivity).
  replace (1 + i <=? 1 + Buffer.length data - 1)
    with (i <=? Buffer.length data - 1)
    by (destruct (Z.leb_spec i (Buffer.length data - 1)),
                 (Z.leb_spec (1 + i) (1 + Buffer.length data - 1));
        lia || reflexivity).
  reflexivity.
Qed.

Lemma readUInt16_cons (x : byte) (data : Buffer.t) (i : Z) :
  0 <= i ->
  Buffer.readUInt16LE (x :: data) (1 + i) = Buffer.readUInt16LE data i
  /\ Buffer.readUInt16BE (x :: data) (1 + i) = Buffer.readUInt16BE data i.
Proof.
  intro H. unfold Buffer.readUInt16LE, Buffer.readUInt16BE.
  rewrite length_cons, byteAt_cons by lia.
  replace (1 + i + 1) with (1 + (i + 1)) by lia.
  rewrite byteAt_cons by lia.
  replace (0 <=? 1 + i) with (0 <=? i)
    by (destruct (Z.leb_spec 0 i), (Z.leb_spec 0 (1 + i)); lia || reflexivity).
  replace (1 + i <=? 1 + Buffer.length data - 2)
    with (i <=? Buffer.length data - 2)
    by (destruct (Z.leb_spec i (Buffer.length data - 2)),
                 (Z.leb_spec (1 + i) (1 + Buffer.length data - 2));
        lia || reflexivity).
  split; reflexivity.
Qed.

Lemma parseAxis_cons x data a :
  0 <= AxisField.byteOffset a ->
  parseAxis (x :: data) 1 a = parseAxis data 0 a.
Proof.
  intro H. unfold parseAxis. rewrite !Z.add_0_l.
  rewrite length_cons, readUInt8_cons by lia.
  destruct (readUInt16_cons x data (AxisField.byteOffset a)) as [Hle Hbe];
    [lia|].
  rewrite Hle, Hbe.
  replace (1 + AxisField.byteOffset a + AxisField.byteCount a
             >? 1 + Buffer.length data)
    with (AxisField.byteOffset a + AxisField.byteCount a
            >? Buffer.length data)
    by (destruct (Z.gtb_spec (AxisField.byteOffset a + AxisField.byteCount a)
                             (Buffer.length data)),
                 (Z.gtb_spec (1 + AxisField.byteOffset a + AxisField.byteCount a)
                             (1 + Buffer.length data));
        lia || reflexivity).
  reflexivity.
Qed.

Lemma parseButton_cons x data b :
  0 <= ButtonField.byteOffset b ->
  parseButton (x :: data) 1 b = parseButton data 0 b.
Proof.
  intro H. unfold parseButton. rewrite !Z.add_0_l.
  rewrite length_cons, readUInt8_cons by lia.
  replace (1 + ButtonField.byteOffset b >=? 1 + Buffer.length data)
    with (ButtonField.byteOffset b >=? Buffer.length data)
    by (destruct (Z.geb_spec (ButtonField.byteOffset b) (Buffer.length data)),
                 (Z.geb_spec (1 + ButtonField.byteOffset b)
                             (1 + Buffer.length data));
        lia || reflexivity).
  reflexivity.
Qed.

Lemma parseHat_cons x data hat :
  match hat with Some h => 0 <= HatField.byteOffset h | None => True end ->
  parseHat (x :: data) 1 hat = parseHat data 0 hat.
Proof.
  intro H. destruct hat as [h|]; [|reflexivity]. unfold parseHat.
  rewrite !Z.add_0_l.
  rewrite length_cons, readUInt8_cons by lia.
  replace (1 + HatField.byteOffset h <? 1 + Buffer.length data)
    with (HatField.byteOffset h <? Buffer.length data)
    by (destruct (Z.ltb_spec (HatField.byteOffset h) (Buffer.length data)),
                 (Z.ltb_spec (1 + HatField.byteOffset h)
                             (1 + Buffer.length data));
        lia || reflexivity).
  reflexivity.
Qed.

(** X4. With [skipReportId] the first byte of the buffer is only skipped:
    for a layout without negative byte offsets, decoding a report with a
    report-id prefix gives what the same layout without the prefix gives on
    the rest of the buffer, whatever the prefix byte is. *)
Theorem X4_report_id_skipped :
  forall (x : byte) (data : Buffer.t) (layout : Layout.t),
    offsetsOk layout = true ->
    parseReport (x :: data) (withReportId true layout)
    = parseReport data (withReportId false layout).
Proof.
  intros x data layout Hok. unfold offsetsOk in Hok.
  apply andb_true_iff in Hok as [Hok Hhat].
  apply andb_true_iff in Hok as [Hax Hbt].
  rewrite forallb_forall in Hax, Hbt.
  unfold parseReport, withReportId, baseOffset.
  cbn [Layout.skipReportId Layout.axes Layout.buttons Layout.hat].
  rewrite (forPush_ext (parseAxis (x :: data) 1) (parseAxis data 0)).
  2:{ intros a Ha. apply parseAxis_cons. apply Z.leb_le. apply Hax, Ha. }
  rewrite (forPush_ext (parseButton (x :: data) 1) (parseButton data 0)).
  2:{ intros b Hb. apply parseButton_cons. apply Z.leb_le. apply Hbt, Hb. }
  rewrite parseHat_cons; [reflexivity|].
  unfold hatFieldOk in Hhat. destruct (Layout.hat layout); [|exact I].
  apply Z.leb_le. exact Hhat.
Qed.

Lemma X4_witness :
  parseReport [x07; xff; x02; x81]%byte (withReportId true stickLayout)
  = Some (ParsedReport.mk [767 # 1023]%Q [true; false] (-1)).
Proof.
  rewrite (X4_report_id_skipped x07 [xff; x02; x81]%byte stickLayout eq_refl).
  vm_compute. reflexivity.
Defined.

Lemma forPush_const {A B} (f : A -> option B) (c : B) (xs : list A) :
  (forall x, In x xs -> f x = Some c) ->
  Js.forPush f xs = Some (map (fun _ => c) xs).
Proof.
  induction xs as [|x xs IH]; intro H; simpl; [reflexivity|].
  rewrite (H x) by (left; reflexivity). simpl.
  rewrite IH by (intros y Hy; apply H; right; exact Hy).
  reflexivity.
Qed.

(** X5. An empty report decodes to the defaults: under a layout of the data
    model every axis is 0, every button is false and the hat is neutral. *)
Theorem X5_empty_report :
  forall (layout : Layout.t),
    layoutOk layout = true ->
    parseReport [] layout
    = Some (ParsedReport.mk (map (fun _ => 0%Q) (Layout.axes layout))
                            (map (fun _ => false) (Layout.buttons layout))
                            (-1)).
Proof.
  intros layout Hok. unfold layoutOk, fieldsOk in Hok.
  apply andb_true_iff in Hok as [Hok Hhat].
  apply andb_true_iff in Hok as [Hax Hbt].
  rewrite forallb_forall in Hax, Hbt.
  pose proof (baseOffset_range layout) as Hoff.
  unfold parseReport. cbv zeta.
  rewrite (forPush_const (parseAxis [] (baseOffset layout)) 0%Q).
  2:{ intros a Ha. apply parseAxis_short. specialize (Hax a Ha).
      unfold axisFieldOk in Hax. apply andb_true_iff in Hax as [H0 Hc].
      apply Z.leb_le in H0. apply orb_true_iff in Hc as [Hc|Hc];
        apply Z.eqb_eq in Hc; unfold Buffer.length; simpl; lia. }
  rewrite (forPush_const (parseButton [] (baseOffset layout)) false).
  2:{ intros b Hb. apply parseButton_short. specialize (Hbt b Hb).
      apply Z.leb_le in Hbt. unfold Buffer.length; simpl; lia. }
  cbn [Js.bind]. unfold hatFieldOk in Hhat.
  destruct (Layout.hat layout) as [h|]; [|reflexivity].
  apply Z.leb_le in Hhat.
  rewrite parseHat_short by (unfold Buffer.length; simpl; lia).
  reflexivity.
Qed.

Lemma X5_witness :
  parseReport [] stickLayout
  = Some (ParsedReport.mk [0%Q] [false; false] (-1)).
Proof. apply (X5_empty_report stickLayout). reflexivity. Defined.

(** ** Ranges of the mapped state *)








(** ** The button mask *)

Lemma int32_shiftr (a : Z) :
  int32 a <-> Z.shiftr a 31 = 0 \/ Z.shiftr a 31 = -1.
Proof.
  unfold int32. rewrite Z.shiftr_div_pow2 by lia.
  change (2 ^ 31) with 2147483648.
  split; intro H.
  - destruct (Z_lt_le_dec a 0); [right | left];
      Z.div_mod_to_equations; lia.
  - destruct H; Z.div_mod_to_equations; lia.
Qed.

Lemma lor_int32 (a b : Z) : int32 a -> int32 b -> int32 (Z.lor a b).
Proof.
  rewrite !int32_shiftr, Z.shiftr_lor.
  intros [-> | ->] [-> | ->]; cbn; auto.
Qed.

Lemma bor_lor (a b : Z) :
  int32 a -> Js.bor a b = Z.lor a (Js.toInt32 b) /\ int32 (Js.bor a b).
Proof.
  intro Ha. unfold Js.bor. rewrite (toInt32_small a Ha).
  split; [reflexivity|]. apply lor_int32; [exact Ha | apply toInt32_int32].
Qed.

Lemma fold_bor_lor (masks : list Z) (acc : Z) :
  int32 acc ->
  fold_left Js.bor masks acc = fold_left Z.lor (map Js.toInt32 masks) acc
  /\ int32 (fold_left Js.bor masks acc).
Proof.
  revert acc. induction masks as [|m masks IH]; intros acc Ha; simpl.
  - split; [reflexivity | exact Ha].
  - destruct (bor_lor acc m Ha) as [E Hi]. rewrite <- E. apply IH. exact Hi.
Qed.

Lemma fold_mapButton_buttons parsed bs st :
  Gamepad.buttons (fold_left (mapButton parsed) bs st)
  = fold_left Js.bor
      (map ButtonMapping.targetButton (filter (fires parsed) bs))
      (Gamepad.buttons st).
Proof.
  revert st. induction bs as [|b bs IH]; intro st; simpl; [reflexivity|].
  rewrite IH. unfold fires at 2, mapButton.
  destruct (Nat.leb_spec (List.length (ParsedReport.buttons parsed))
                         (ButtonMapping.sourceIndex b)) as [Hout|Hin].
  - replace (ButtonMapping.sourceIndex b
               <? List.length (ParsedReport.buttons parsed))%nat with false
      by (symmetry; apply Nat.ltb_ge; exact Hout).
    reflexivity.
  - replace (ButtonMapping.sourceIndex b
               <? List.length (ParsedReport.buttons parsed))%nat with true
      by (symmetry; apply Nat.ltb_lt; exact Hin).
    simpl. destruct (nth _ _ _); reflexivity.
Qed.

Lemma fold_mapAxis_buttons parsed ms st :
  Gamepad.buttons (fold_left (mapAxis parsed) ms st) = Gamepad.buttons st.
Proof.
  revert st. induction ms as [|m ms IH]; intro st; simpl; [reflexivity|].
  rewrite IH. apply mapAxis_buttons.
Qed.

Lemma foldHat_masks K hat st :
  Gamepad.buttons (foldHat K hat st)
  = fold_left Js.bor
      (if 0 <=? hat then map (dpadMask K) (hatTable hat) else [])
      (Gamepad.buttons st).
Proof.
  destruct (Z.leb_spec 0 hat) as [Hpos|Hneg].
  - rewrite foldHat_table by exact Hpos. unfold assertAll.
    generalize (Gamepad.buttons st). induction (hatTable hat) as [|d ds IH];
      intro acc; simpl; [reflexivity | apply IH].
  - unfold foldHat. destruct (Z.geb_spec hat 0); [lia | reflexivity].
Qed.

Lemma land_fold_lor (x : Z) (xs : list Z) (acc : Z) :
  In x xs \/ Z.land x acc = x -> Z.land x (fold_left Z.lor xs acc) = x.
Proof.
  revert acc. induction xs as [|y ys IH]; intros acc H; simpl.
  - destruct H as [[]|H]; exact H.
  - apply IH. destruct H as [[->|Hin]|Hacc].
    + right. rewrite Z.land_lor_distr_r, Z.land_diag.
      apply Z.bits_inj'. intros i _.
      rewrite Z.lor_spec, Z.land_spec.
      destruct (Z.testbit x i), (Z.testbit acc i); reflexivity.
    + left. exact Hin.
    + right. rewrite Z.land_lor_distr_r, Hacc.
      apply Z.bits_inj'. intros i _.
      rewrite Z.lor_spec, Z.land_spec.
      destruct (Z.testbit x i), (Z.testbit y i); reflexivity.
Qed.

Lemma buttons_closed_form K slot parsed profile :
  Gamepad.buttons (mapToGamepad K slot parsed profile)
  = fold_left Js.bor (assertedMasks K parsed profile) 0
  /\ int32 (Gamepad.buttons (mapToGamepad K slot parsed profile)).
Proof.
  assert (Hfold : Gamepad.buttons (mapToGamepad K slot parsed profile)
                  = fold_left Js.bor (assertedMasks K parsed profile) 0).
  { unfold mapToGamepad, assertedMasks. cbv zeta.
    rewrite foldHat_masks, fold_mapButton_buttons, fold_mapAxis_buttons.
    rewrite fold_left_app. reflexivity. }
  split; [exact Hfold|]. rewrite Hfold.
  apply fold_bor_lor. unfold int32. lia.
Qed.

(** X7. The button mask of the mapped state is the bitwise OR of the masks
    the sample asserts, each wrapped to 32 bits: the targets of the button
    mappings that fire and the D-pad masks of the hat.  It is a signed
    32-bit integer, it contains every bit of every asserted mask, and it is
    0 when nothing is asserted. *)
Theorem X7_button_mask :
  forall (K : InputConstants) (slot : Z) (parsed : ParsedReport.t)
         (profile : Profile.t),
    let out := Gamepad.buttons (mapToGamepad K slot parsed profile) in
    out = fold_left Z.lor
            (map Js.toInt32 (assertedMasks K parsed profile)) 0
    /\ int32 out
    /\ (forall mask, In mask (assertedMasks K parsed profile) ->
                     Z.land (Js.toInt32 mask) out = Js.toInt32 mask)
    /\ (assertedMasks K parsed profile = [] -> out = 0).
Proof.
  intros K slot parsed profile out.
  assert (Hfold : out = fold_left Js.bor (assertedMasks K parsed profile) 0).
  { unfold out, mapToGamepad, assertedMasks. cbv zeta.
    rewrite foldHat_masks, fold_mapButton_buttons, fold_mapAxis_buttons.
    rewrite fold_left_app. reflexivity. }
  destruct (fold_bor_lor (assertedMasks K parsed profile) 0) as [Hlor Hint].
  { unfold int32. lia. }
  rewrite <- Hfold in Hlor, Hint.
  split; [exact Hlor|]. split; [exact Hint|]. split.
  - intros mask Hin. rewrite Hlor. apply land_fold_lor. left.
    apply in_map. exact Hin.
  - intro Hnone. rewrite Hlor, Hnone. reflexivity.
Qed.

Lemma X7_witness :
  Z.land (Js.toInt32 4096)
         (Gamepad.buttons (mapToGamepad xinput 0 flightSample flightProfile))
  = 4096.
Proof.
  destruct (X7_button_mask xinput 0 flightSample flightProfile)
    as (_ & _ & H & _).
  apply (H 4096). vm_compute. left. reflexivity.
Defined.

(** ** The signal functions respect equality of rationals *)

Lemma Qltb_comp (x x' y y' : Q) :
  (x == x')%Q -> (y == y')%Q -> Js.Qltb x y = Js.Qltb x' y'.
Proof.
  intros Hx Hy.
  destruct (Js.Qltb x y) eqn:E1, (Js.Qltb x' y') eqn:E2; try reflexivity.
  - apply Qltb_true in E1. apply Qltb_false in E2. lra.
  - apply Qltb_false in E1. apply Qltb_true in E2. lra.
Qed.

Lemma Qle_bool_comp (x x' y y' : Q) :
  (x == x')%Q -> (y == y')%Q -> Qle_bool x y = Qle_bool x' y'.
Proof.
  intros Hx Hy.
  destruct (Qle_bool x y) eqn:E1, (Qle_bool x' y') eqn:E2; try reflexivity.
  - apply Qle_bool_iff in E1. apply Qle_bool_false in E2. lra.
  - apply Qle_bool_false in E1. apply Qle_bool_iff in E2. lra.
Qed.

Lemma applyDeadzone_comp (v v' dz : Q) :
  (v == v')%Q -> (applyDeadzone v dz == applyDeadzone v' dz)%Q.
Proof.
  intro H. unfold applyDeadzone.
  rewrite (Qltb_comp v v' dz dz H (Qeq_refl dz)).
  destruct (Js.Qltb v' dz); [reflexivity|]. rewrite H. reflexivity.
Qed.

Lemma applyCurve_comp (x x' s : Q) (c : Curve) :
  (x == x')%Q -> (applyCurve x s c == applyCurve x' s c)%Q.
Proof.
  intro H. unfold applyCurve, Js.Math_pow2. destruct c; rewrite H; reflexivity.
Qed.

Lemma applyStickDeadzone_comp (v v' dz : Q) :
  (v == v')%Q -> (applyStickDeadzone v dz == applyStickDeadzone v' dz)%Q.
Proof.
  intro H. unfold applyStickDeadzone.
  assert (Ha : (Qabs v == Qabs v')%Q) by (rewrite H; reflexivity).
  rewrite (Qltb_comp (Qabs v) (Qabs v') dz dz Ha (Qeq_refl dz)).
  destruct (Js.Qltb (Qabs v') dz); [reflexivity|].
  rewrite (Qle_bool_comp 0 0 v v' (Qeq_refl 0) H), Ha. reflexivity.
Qed.

Lemma applyStickCurve_comp (x x' s : Q) (c : Curve) :
  (x == x')%Q -> (applyStickCurve x s c == applyStickCurve x' s c)%Q.
Proof.
  intro H. unfold applyStickCurve, Js.Math_pow2.
  assert (Ha : (Qabs x == Qabs x')%Q) by (rewrite H; reflexivity).
  rewrite (Qle_bool_comp 0 0 x x' (Qeq_refl 0) H).
  destruct c; [rewrite H | rewrite Ha]; reflexivity.
Qed.

(** The output of an in-range mapping depends on the axis value only up to
    equality of rationals. *)
Lemma axisOutput_comp (m : AxisMapping.t) (raw raw' : Q) :
  (raw == raw')%Q -> axisOutput m raw = axisOutput m raw'.
Proof.
  intro H. unfold axisOutput, stickSignal, bipolar.
  destruct (isStick (AxisMapping.target m)).
  - do 2 f_equal. apply Math_round_eq.
    apply Qmult_comp; [|reflexivity].
    apply applyStickCurve_comp, applyStickDeadzone_comp.
    destruct (AxisMapping.inverted m); rewrite H; reflexivity.
  - do 2 f_equal. apply Math_round_eq.
    apply Qmult_comp; [|reflexivity].
    apply applyCurve_comp, applyDeadzone_comp.
    destruct (AxisMapping.inverted m); rewrite H; reflexivity.
Qed.


Lemma fold_left_ext {S A} (f g : S -> A -> S) (xs : list A) (st : S) :
  (forall s x, f s x = g s x) -> fold_left f xs st = fold_left g xs st.
Proof.
  intro H. revert st. induction xs as [|x xs IH]; intro st; simpl;
    [reflexivity|]. rewrite H. apply IH.
Qed.

Lemma fold_left_map {S A B} (f : S -> B -> S) (g : A -> B) (xs : list A) (st : S) :
  fold_left f (map g xs) st = fold_left (fun s x => f s (g x)) xs st.
Proof.
  revert st. induction xs as [|x xs IH]; intro st; simpl; [reflexivity|].
  apply IH.
Qed.



(** ** Neutral inputs and monotonicity *)

Lemma applyDeadzone_rest (v dz : Q) :
  (v == 0)%Q -> (0 <= dz)%Q -> (applyDeadzone v dz == 0)%Q.
Proof.
  intros Hv Hdz. unfold applyDeadzone.
  destruct (Js.Qltb v dz) eqn:E; [reflexivity|].
  apply Qltb_false in E.
  assert (Hd : (v - dz == 0)%Q) by lra.
  unfold Qdiv. rewrite Hd. ring.
Qed.

Lemma applyCurve_zero (x s : Q) (c : Curve) :
  (x == 0)%Q -> (applyCurve x s c == 0)%Q.
Proof.
  intro H. unfold applyCurve, Js.Math_pow2. destruct c; rewrite H; ring.
Qed.

Lemma applyStickDeadzone_rest (v dz : Q) :
  (v == 0)%Q -> (0 <= dz)%Q -> (applyStickDeadzone v dz == 0)%Q.
Proof.
  intros Hv Hdz. unfold applyStickDeadzone.
  assert (Ha : (Qabs v == 0)%Q) by (rewrite Hv; reflexivity).
  destruct (Js.Qltb (Qabs v) dz) eqn:E; [reflexivity|].
  apply Qltb_false in E.
  assert (Hd : (Qabs v - dz == 0)%Q) by lra.
  unfold Qdiv. rewrite Hd. destruct (Qle_bool 0 v); ring.
Qed.

(** X9. Neutral inputs give neutral outputs.  With a deadzone that is not
    negative, a stick axis at its centre 0.5 maps to 0 and a released
    trigger (0, or 1 when inverted) maps to 0, for every sensitivity and
    curve; stated for the mapping that writes the field last. *)
Theorem X9_rest_maps_to_zero :
  forall (K : InputConstants) (slot : Z) (parsed : ParsedReport.t)
         (profile : Profile.t) (pre post : list AxisMapping.t)
         (m : AxisMapping.t),
    Profile.axisMappings profile = pre ++ m :: post ->
    (AxisMapping.sourceIndex m < List.length (ParsedReport.axes parsed))%nat ->
    notOverwritten parsed (AxisMapping.target m) post ->
    (0 <= AxisMapping.deadzone m)%Q ->
    let raw := nth (AxisMapping.sourceIndex m) (ParsedReport.axes parsed) 0%Q in
    (if isStick (AxisMapping.target m) then (raw == 1 # 2)%Q
     else if AxisMapping.inverted m then (raw == 1)%Q else (raw == 0)%Q) ->
    Gamepad.field (AxisMapping.target m) (mapToGamepad K slot parsed profile)
    = 0.
Proof.
  intros K slot parsed profile pre post m Hsplit Hin Hpost Hdz raw Hraw.
  rewrite (mapToGamepad_field K slot parsed profile pre m post) by assumption.
  fold raw. unfold axisOutput, stickSignal, bipolar.
  destruct (isStick (AxisMapping.target m)).
  - rewrite (Math_round_eq _ (inject_Z 0)); [rewrite Math_round_Z; reflexivity|].
    rewrite applyStickCurve_zero; [reflexivity|].
    apply applyStickDeadzone_rest; [|exact Hdz].
    destruct (AxisMapping.inverted m); rewrite Hraw; reflexivity.
  - rewrite (Math_round_eq _ (inject_Z 0)); [rewrite Math_round_Z; reflexivity|].
    rewrite applyCurve_zero; [reflexivity|].
    apply applyDeadzone_rest; [|exact Hdz].
    destruct (AxisMapping.inverted m); rewrite Hraw; reflexivity.
Qed.

Lemma X9_witness :
  Gamepad.leftStickX
    (mapToGamepad xinput 0 (ParsedReport.mk [1 # 2; 0]%Q [] (-1))
       (Profile.mk [AxisMapping.mk 0 Target.leftStickX true (1 # 10) 3 expo;
                    AxisMapping.mk 1 Target.leftTrigger false 0 3 linear] []))
  = 0.
Proof.
  apply (X9_rest_maps_to_zero xinput 0 (ParsedReport.mk [1 # 2; 0]%Q [] (-1))
           (Profile.mk [AxisMapping.mk 0 Target.leftStickX true (1 # 10) 3 expo;
                        AxisMapping.mk 1 Target.leftTrigger false 0 3 linear] [])
           [] [AxisMapping.mk 1 Target.leftTrigger false 0 3 linear]
           (AxisMapping.mk 0 Target.leftStickX true (1 # 10) 3 expo) eq_refl).
  - simpl. lia.
  - constructor; [intro H; discriminate | constructor].
  - vm_compute. discriminate.
  - reflexivity.
Defined.

Lemma Qdiv_le_mono (a b c : Q) :
  (0 < c)%Q -> (a <= b)%Q -> (a / c <= b / c)%Q.
Proof.
  intros Hc Hab. unfold Qdiv. apply Qmult_le_compat_r; [exact Hab|].
  apply Qinv_le_0_compat. lra.
Qed.

Lemma Qdiv_nonneg (a c : Q) : (0 < c)%Q -> (0 <= a)%Q -> (0 <= a / c)%Q.
Proof.
  intros Hc Ha. unfold Qdiv. apply Qmult_le_0_compat; [exact Ha|].
  apply Qinv_le_0_compat. lra.
Qed.

Lemma applyDeadzone_nonneg (v dz : Q) :
  (dz < 1)%Q -> (0 <= applyDeadzone v dz)%Q.
Proof.
  intro Hdz. unfold applyDeadzone.
  destruct (Js.Qltb v dz) eqn:E; [lra|].
  apply Qltb_false in E. apply Qdiv_nonneg; lra.
Qed.

Lemma applyDeadzone_mono (v w dz : Q) :
  (dz < 1)%Q -> (v <= w)%Q -> (applyDeadzone v dz <= applyDeadzone w dz)%Q.
Proof.
  intros Hdz Hvw. unfold applyDeadzone.
  destruct (Js.Qltb v dz) eqn:Ev, (Js.Qltb w dz) eqn:Ew.
  - lra.
  - apply Qltb_false in Ew. apply Qdiv_nonneg; lra.
  - apply Qltb_false in Ev. apply Qltb_true in Ew. lra.
  - apply Qdiv_le_mono; lra.
Qed.

Lemma applyCurve_mono (x y s : Q) (c : Curve) :
  (0 <= s)%Q -> (0 <= x)%Q -> (x <= y)%Q ->
  (applyCurve x s c <= applyCurve y s c)%Q.
Proof.
  intros Hs Hx Hxy. unfold applyCurve, Js.Math_pow2.
  destruct c; apply Qmult_le_compat_r; try assumption.
  nra.
Qed.

Lemma scale_mono (lo hi : Z) (k x y : Q) :
  (0 <= k)%Q -> (x <= y)%Q ->
  Z.max lo (Z.min hi (Js.Math_round (x * k)))
  <= Z.max lo (Z.min hi (Js.Math_round (y * k))).
Proof.
  intros Hk Hxy.
  assert (H : Js.Math_round (x * k) <= Js.Math_round (y * k)).
  { apply Math_round_mono. apply Qmult_le_compat_r; assumption. }
  lia.
Qed.

Lemma applyStickDeadzone_mono (v w dz : Q) :
  (0 <= dz)%Q -> (dz < 1)%Q -> (v <= w)%Q ->
  (applyStickDeadzone v dz <= applyStickDeadzone w dz)%Q.
Proof.
  intros Hdz0 Hdz1 Hvw. unfold applyStickDeadzone.
  assert (HA : (dz <= Qabs v -> 0 <= (Qabs v - dz) / (1 - dz))%Q)
    by (intro; apply Qdiv_nonneg; lra).
  assert (HB : (dz <= Qabs w -> 0 <= (Qabs w - dz) / (1 - dz))%Q)
    by (intro; apply Qdiv_nonneg; lra).
  assert (HAB : (Qabs v <= Qabs w ->
                 (Qabs v - dz) / (1 - dz) <= (Qabs w - dz) / (1 - dz))%Q)
    by (intro; apply Qdiv_le_mono; lra).
  assert (HBA : (Qabs w <= Qabs v ->
                 (Qabs w - dz) / (1 - dz) <= (Qabs v - dz) / (1 - dz))%Q)
    by (intro; apply Qdiv_le_mono; lra).
  set (A := ((Qabs v - dz) / (1 - dz))%Q) in *.
  set (B := ((Qabs w - dz) / (1 - dz))%Q) in *.
  clearbody A B.
  assert (Hav : (0 <= v -> Qabs v == v)%Q) by apply Qabs_pos.
  assert (Hav' : (v <= 0 -> Qabs v == - v)%Q) by apply Qabs_neg.
  assert (Haw : (0 <= w -> Qabs w == w)%Q) by apply Qabs_pos.
  assert (Haw' : (w <= 0 -> Qabs w == - w)%Q) by apply Qabs_neg.
  set (av := Qabs v) in *. set (aw := Qabs w) in *. clearbody av aw.
  destruct (Js.Qltb av dz) eqn:Ev, (Js.Qltb aw dz) eqn:Ew;
    [apply Qltb_true in Ev | apply Qltb_true in Ev | apply Qltb_false in Ev
     | apply Qltb_false in Ev];
    [apply Qltb_true in Ew | apply Qltb_false in Ew | apply Qltb_true in Ew
     | apply Qltb_false in Ew];
    destruct (Qle_bool 0 v) eqn:Sv, (Qle_bool 0 w) eqn:Sw;
    [apply Qle_bool_iff in Sv | apply Qle_bool_iff in Sv
     | apply Qle_bool_false in Sv | apply Qle_bool_false in Sv
     | apply Qle_bool_iff in Sv | apply Qle_bool_iff in Sv
     | apply Qle_bool_false in Sv | apply Qle_bool_false in Sv
     | apply Qle_bool_iff in Sv | apply Qle_bool_iff in Sv
     | apply Qle_bool_false in Sv | apply Qle_bool_false in Sv
     | apply Qle_bool_iff in Sv | apply Qle_bool_iff in Sv
     | apply Qle_bool_false in Sv | apply Qle_bool_false in Sv];
    try (apply Qle_bool_iff in Sw); try (apply Qle_bool_false in Sw);
    lra.
Qed.

Lemma applyStickCurve_mono (x y s : Q) (c : Curve) :
  (0 <= s)%Q -> (x <= y)%Q ->
  (applyStickCurve x s c <= applyStickCurve y s c)%Q.
Proof.
  intros Hs Hxy. unfold applyStickCurve, Js.Math_pow2.
  destruct c; apply Qmult_le_compat_r; try assumption.
  assert (Hax : (0 <= x -> Qabs x == x)%Q) by apply Qabs_pos.
  assert (Hax' : (x <= 0 -> Qabs x == - x)%Q) by apply Qabs_neg.
  assert (Hay : (0 <= y -> Qabs y == y)%Q) by apply Qabs_pos.
  assert (Hay' : (y <= 0 -> Qabs y == - y)%Q) by apply Qabs_neg.
  set (ax := Qabs x) in *. set (ay := Qabs y) in *. clearbody ax ay.
  destruct (Qle_bool 0 x) eqn:Sx, (Qle_bool 0 y) eqn:Sy;
    [apply Qle_bool_iff in Sx | apply Qle_bool_iff in Sx
     | apply Qle_bool_false in Sx | apply Qle_bool_false in Sx];
    try (apply Qle_bool_iff in Sy); try (apply Qle_bool_false in Sy).
  - specialize (Hax Sx). specialize (Hay Sy). nra.
  - lra.
  - assert (Hx0 : (x <= 0)%Q) by lra. specialize (Hax' Hx0).
    specialize (Hay Sy). nra.
  - assert (Hx0 : (x <= 0)%Q) by lra. assert (Hy0 : (y <= 0)%Q) by lra.
    specialize (Hax' Hx0). specialize (Hay' Hy0). nra.
Qed.

Lemma axisOutput_mono (m : AxisMapping.t) (raw1 raw2 : Q) :
  (0 <= AxisMapping.deadzone m)%Q -> (AxisMapping.deadzone m < 1)%Q ->
  (0 <= AxisMapping.sensitivity m)%Q ->
  (raw1 <= raw2)%Q ->
  if AxisMapping.inverted m
  then axisOutput m raw2 <= axisOutput m raw1
  else axisOutput m raw1 <= axisOutput m raw2.
Proof.
  intros Hdz0 Hdz1 Hs Hraw. unfold axisOutput, stickSignal, bipolar.
  destruct (AxisMapping.inverted m), (isStick (AxisMapping.target m));
    apply scale_mono; try lra.
  - apply applyStickCurve_mono; [exact Hs|].
    apply applyStickDeadzone_mono; lra.
  - apply applyCurve_mono;
      [exact Hs | apply applyDeadzone_nonneg; exact Hdz1
       | apply applyDeadzone_mono; lra].
  - apply applyStickCurve_mono; [exact Hs|].
    apply applyStickDeadzone_mono; lra.
  - apply applyCurve_mono;
      [exact Hs | apply applyDeadzone_nonneg; exact Hdz1
       | apply applyDeadzone_mono; lra].
Qed.

(** X10. The response is monotone.  With a deadzone in [0, 1) and a
    sensitivity that is not negative, a larger axis value never gives a
    smaller output through a mapping that is not inverted, and never a
    larger one through an inverted mapping; for sticks and for triggers,
    linear and expo. *)
Theorem X10_response_monotone :
  forall (K : InputConstants) (slot : Z) (parsed1 parsed2 : ParsedReport.t)
         (profile : Profile.t) (pre post : list AxisMapping.t)
         (m : AxisMapping.t),
    Profile.axisMappings profile = pre ++ m :: post ->
    (AxisMapping.sourceIndex m < List.length (ParsedReport.axes parsed1))%nat ->
    (AxisMapping.sourceIndex m < List.length (ParsedReport.axes parsed2))%nat ->
    notOverwritten parsed1 (AxisMapping.target m) post ->
    notOverwritten parsed2 (AxisMapping.target m) post ->
    (0 <= AxisMapping.deadzone m)%Q -> (AxisMapping.deadzone m < 1)%Q ->
    (0 <= AxisMapping.sensitivity m)%Q ->
    (nth (AxisMapping.sourceIndex m) (ParsedReport.axes parsed1) 0
     <= nth (AxisMapping.sourceIndex m) (ParsedReport.axes parsed2) 0)%Q ->
    let out1 := Gamepad.field (AxisMapping.target m)
                  (mapToGamepad K slot parsed1 profile) in
    let out2 := Gamepad.field (AxisMapping.target m)
                  (mapToGamepad K slot parsed2 profile) in
    if AxisMapping.inverted m then out2 <= out1 else out1 <= out2.
Proof.
  intros K slot parsed1 parsed2 profile pre post m Hsplit Hin1 Hin2 Hp1 Hp2
         Hdz0 Hdz1 Hs Hraw out1 out2.
  unfold out1, out2.
  rewrite (mapToGamepad_field K slot parsed1 profile pre m post) by assumption.
  rewrite (mapToGamepad_field K slot parsed2 profile pre m post) by assumption.
  apply axisOutput_mono; assumption.
Qed.

Lemma X10_witness :
  Gamepad.leftStickX
    (mapToGamepad xinput 0 (ParsedReport.mk [1 # 4]%Q [] (-1))
       (Profile.mk [rollMapping] []))
  <= Gamepad.leftStickX
       (mapToGamepad xinput 0 (ParsedReport.mk [3 # 4]%Q [] (-1))
          (Profile.mk [rollMapping] [])).
Proof.
  apply (X10_response_monotone xinput 0
           (ParsedReport.mk [1 # 4]%Q [] (-1)) (ParsedReport.mk [3 # 4]%Q [] (-1))
           (Profile.mk [rollMapping] []) [] [] rollMapping eq_refl).
  - simpl. lia.
  - simpl. lia.
  - constructor.
  - constructor.
  - vm_compute. discriminate.
  - vm_compute. reflexivity.
  - vm_compute. discriminate.
  - vm_compute. discriminate.
Defined.

(** ** The per-report pipeline *)


Lemma hasGamepadStateChanged_false (prev : option Gamepad.t) (g : Gamepad.t) :
  hasGamepadStateChanged prev g = false ->
  exists p, prev = Some p /\ ~ controlsDiffer p g.
Proof.
  destruct prev as [p|]; simpl; [|discriminate].
  intro H. exists p. split; [reflexivity|].
  repeat (apply orb_false_iff in H; destruct H as [H ?]).
  repeat match goal with
         | X : negb (_ =? _) = false |- _ =>
             apply negb_false_iff, Z.eqb_eq in X
         end.
  unfold controlsDiffer. intuition congruence.
Qed.

Lemma setLastRawBytes_same (this : Service.t) :
  setLastRawBytes (Service.lastRawBytes this) this = this.
Proof. destruct this; reflexivity. Qed.

Lemma gamepadUpdates_app (a b : list Effect) :
  gamepadUpdates (a ++ b) = (gamepadUpdates a + gamepadUpdates b)%nat.
Proof. unfold gamepadUpdates. rewrite filter_app, length_app. reflexivity. Qed.






(** X12. With a layout of the data model and a profile bound, [onHidData]
    never throws.  It keeps the bytes of the report, and afterwards the
    retained gamepad state agrees with the state mapped from this report
    on all seven compared fields, whether or not anything was sent.  With a
    live window it sends one state-update carrying the decoded sample and
    the verbatim bytes, followed by the mapped state exactly when the
    detector reports a change; without a live window it sends nothing. *)
Theorem X12_report_pipeline :
  forall (K : InputConstants) (this : Service.t) (data : Buffer.t)
         (layout : Layout.t) (profile : Profile.t),
    Service.reportLayout this = Some layout ->
    Service.profile this = Some profile ->
    layoutOk layout = true ->
    exists parsed s' e,
      parseReport data layout = Some parsed
      /\ onHidData K this data = Some (s', e)
      /\ Service.lastRawBytes s' = data
      /\ (exists g, Service.lastGamepadState s' = Some g
                    /\ ~ controlsDiffer g
                         (mapToGamepad K (Service.controllerSlot this)
                            parsed profile))
      /\ e = (if windowLive this then
                FLIGHT_STATE_UPDATE
                  (ControlsState.mk true (Service.deviceName this)
                     (ParsedReport.axes parsed) (ParsedReport.buttons parsed)
                     (ParsedReport.hatSwitch parsed) data)
                :: (if hasGamepadStateChanged (Service.lastGamepadState this)
                         (mapToGamepad K (Service.controllerSlot this)
                            parsed profile)
                    then [FLIGHT_GAMEPAD_STATE
                            (mapToGamepad K (Service.controllerSlot this)
                               parsed profile)]
                    else [])
              else []).
Proof.
  intros K this data layout profile Hl Hp Hok.
  destruct (parseReport_total data layout Hok) as (parsed & Hpar & _).
  exists parsed.
  unfold onHidData. rewrite Hl, Hp, Hpar. cbn [Js.bind]. cbv zeta.
  cbn [setLastRawBytes Service.lastGamepadState Service.controllerSlot
       Service.deviceName Service.lastRawBytes].
  set (g := mapToGamepad K (Service.controllerSlot this) parsed profile).
  destruct (hasGamepadStateChanged (Service.lastGamepadState this) g) eqn:Ech.
  - eexists. eexists. split; [reflexivity|]. split; [reflexivity|].
    split; [reflexivity|]. split.
    + exists g. split; [reflexivity|].
      unfold controlsDiffer. intuition congruence.
    + unfold emitStateUpdate, emitGamepadState, windowLive. cbn.
      destruct (Service.mainWindow this) as [w|]; [|reflexivity].
      destruct (Window.isDestroyed w); reflexivity.
  - eexists. eexists. split; [reflexivity|]. split; [reflexivity|].
    split; [reflexivity|]. split.
    + cbn. apply hasGamepadStateChanged_false. exact Ech.
    + unfold emitStateUpdate, windowLive. cbn.
      destruct (Service.mainWindow this) as [w|]; [|reflexivity].
      destruct (Window.isDestroyed w); reflexivity.
Qed.

Lemma X12_witness :
  exists parsed s' e,
    parseReport [xff; x02; x81]%byte stickLayout = Some parsed
    /\ onHidData xinput capturing [xff; x02; x81]%byte = Some (s', e)
    /\ Service.lastRawBytes s' = [xff; x02; x81]%byte.
Proof.
  destruct (X12_report_pipeline xinput capturing [xff; x02; x81]%byte
              stickLayout flightProfile eq_refl eq_refl eq_refl)
    as (parsed & s' & e & H1 & H2 & H3 & _).
  exists parsed, s', e. auto.
Defined.

(** ** Stopping and starting a capture *)

(** [stopCapture] in closed form. *)
Lemma stopCapture_form (this : Service.t) :
  stopCapture this
  = (Service.mk None
       (if Js.truthy (Service.devicePath this) then None
        else Service.devicePath this)
       (Service.deviceName this) (Service.enabled this)
       (Service.controllerSlot this) (Service.mainWindow this)
       (if Js.truthy (Service.devicePath this) then []
        else Service.lastRawBytes this)
       (Service.reportLayout this) (Service.profile this)
       (if Js.truthy (Service.devicePath this) then None
        else Service.lastGamepadState this),
     match Service.device this with
     | Some d => [HidClose d]
     | None => []
     end
     ++ (if Js.truthy (Service.devicePath this)
         then (if windowLive this
               then [FLIGHT_STATE_UPDATE
                       (ControlsState.mk false (Service.deviceName this)
                          [] [] (-1) []);
                     FLIGHT_GAMEPAD_STATE
                       (neutralState (Service.controllerSlot this))]
               else [])
         else [])).
Proof.
  unfold stopCapture, sendConnectedState, windowLive.
  destruct this as [dev path name en slot win raw lay prof last].
  cbn. destruct dev as [d|]; cbn; destruct (Js.truthy path) eqn:Et; cbn;
    rewrite ?Et; try reflexivity;
    destruct win as [w|]; cbn; try reflexivity;
    destruct (Window.isDestroyed w); reflexivity.
Qed.

Lemma stopCapture_twice (this : Service.t) :
  isCapturing (fst (stopCapture this)) = false
  /\ stopCapture (fst (stopCapture this)) = (fst (stopCapture this), []).
Proof.
  rewrite (stopCapture_form this). cbn [fst snd].
  split; [reflexivity|].
  rewrite stopCapture_form. cbn.
  destruct (Js.truthy (Service.devicePath this)) eqn:Et; cbn; rewrite ?Et;
    reflexivity.
Qed.

(** X13. [stopCapture] can be called in any state.  Afterwards no handle
    is open and a second call does nothing at all.  The disconnect is
    announced, and the retained state cleared, only when the device path is
    a non-empty string: with a null or empty path the call closes an open
    handle but sends nothing and keeps the last gamepad state and bytes. *)
Theorem X13_stop_in_any_state :
  forall (this : Service.t),
    isCapturing (fst (stopCapture this)) = false
    /\ stopCapture (fst (stopCapture this)) = (fst (stopCapture this), [])
    /\ (Js.truthy (Service.devicePath this) = false ->
        snd (stopCapture this)
        = match Service.device this with
          | Some d => [HidClose d]
          | None => []
          end
        /\ Service.lastGamepadState (fst (stopCapture this))
           = Service.lastGamepadState this
        /\ Service.lastRawBytes (fst (stopCapture this))
           = Service.lastRawBytes this).
Proof.
  intro this. rewrite (stopCapture_form this). cbn [fst snd].
  split; [reflexivity|]. split.
  - rewrite stopCapture_form. cbn.
    destruct (Js.truthy (Service.devicePath this)) eqn:Et; cbn; rewrite ?Et;
      reflexivity.
  - intro Et. rewrite Et. rewrite app_nil_r. repeat split.
Qed.

Lemma X13_witness :
  snd (stopCapture
         (Service.mk (Some (Hid.mk "" false)) (Some ""%string) "Stick"%string
            true 0 (Some (Window.mk false)) [x01]%byte None None
            (Some (initialState 0))))
  = [HidClose (Hid.mk "" false)].
Proof.
  apply (proj2 (proj2 (X13_stop_in_any_state
           (Service.mk (Some (Hid.mk "" false)) (Some ""%string) "Stick"%string
              true 0 (Some (Window.mk false)) [x01]%byte None None
              (Some (initialState 0)))))).
  reflexivity.
Defined.

Lemma Flight_stopCapture_form (this : Flight.t) :
  Flight.stopCapture this
  = (Flight.withService (fst (stopCapture (Flight.service this))) this,
     map Emit (snd (stopCapture (Flight.service this)))).
Proof.
  unfold Flight.stopCapture.
  destruct (stopCapture (Flight.service this)); reflexivity.
Qed.



(** What a successful [startCapture] does after stopping the prior
    capture. *)
Lemma startCapture_enabled host this devicePath :
  Service.enabled (Flight.service this) = true ->
  let stopped := fst (stopCapture (Flight.service this)) in
  Flight.startCapture host this devicePath
  = match Host.devices host with
    | None =>
        (false,
         Flight.openFailed (Flight.withService stopped this),
         map Emit (snd (stopCapture (Flight.service this))))
    | Some allDevices =>
        match find (pathIs devicePath) allDevices with
        | None =>
            (false, Flight.withService stopped this,
             map Emit (snd (stopCapture (Flight.service this))))
        | Some deviceInfo =>
            match Host.openDevice host devicePath with
            | None =>
                (false,
                 Flight.openFailed (Flight.withService stopped this),
                 map Emit (snd (stopCapture (Flight.service this))))
            | Some device =>
                let vendorId := orElse (RawDevice.vendorId deviceInfo) 0 in
                let productId := orElse (RawDevice.productId deviceInfo) 0 in
                let deviceName :=
                  orElse (RawDevice.product deviceInfo)
                         "Unknown Device"%string in
                let s :=
                  setBinding deviceName
                    (resolveLayout
                       (Host.getOrCreateProfile host vendorId productId
                          deviceName)
                       (Host.getDeviceConfig host vendorId productId))
                    (Some (StoredProfile.mappings
                             (Host.getOrCreateProfile host vendorId productId
                                deviceName)))
                    (setHandle (Some device) (Some devicePath) stopped) in
                (true,
                 Flight.mk s vendorId productId (Flight.hotplugTimer this)
                           (Flight.disposed this),
                 map Emit (snd (stopCapture (Flight.service this)))
                   ++ [HidOpen device]
                   ++ map Emit (sendConnectedState s true))
            end
        end
    end.
Proof.
  intros Hen stopped. unfold Flight.startCapture. rewrite Hen. cbn [negb].
  rewrite Flight_stopCapture_form. reflexivity.
Qed.



(** X15. A device without a layout is passed through raw.  When neither the
    profile store nor the built-in table knows a layout, a capture that
    starts successfully has no layout bound, and every report that then
    arrives is kept as the last raw bytes and, with a live window, sent as
    one state-update with no axes, no buttons, a neutral hat and the
    verbatim bytes; no gamepad state is sent and the retained gamepad state
    is not touched. *)
Theorem X15_unknown_device_raw :
  forall (K : InputConstants) (host : Host.t) (this : Flight.t)
         (devicePath : string) (data : Buffer.t),
    (forall v p n,
        StoredProfile.reportLayout (Host.getOrCreateProfile host v p n) = None) ->
    (forall v p c,
        Host.getDeviceConfig host v p = Some c -> KnownConfig.layout c = None) ->
    fst (fst (Flight.startCapture host this devicePath)) = true ->
    let this' := snd (fst (Flight.startCapture host this devicePath)) in
    let s := Flight.service this' in
    Service.reportLayout s = None
    /\ Flight.onData K this' data
       = (Flight.withService (setLastRawBytes data s) this',
          map Emit
            (if windowLive s
             then [FLIGHT_STATE_UPDATE
                     (ControlsState.mk true (Service.deviceName s) [] [] (-1)
                        data)]
             else [])).
Proof.
  intros K host this devicePath data Hstore Htable Hok this' s.
  assert (Hlay : Service.reportLayout s = None).
  { unfold s, this'. revert Hok.
    destruct (Service.enabled (Flight.service this)) eqn:Hen.
    - rewrite (startCapture_enabled host this devicePath Hen).
      destruct (Host.devices host) as [devs|]; [|discriminate].
      destruct (find (pathIs devicePath) devs) as [raw|]; [|discriminate].
      destruct (Host.openDevice host devicePath) as [d|]; [|discriminate].
      intros _. cbn. unfold resolveLayout. rewrite Hstore.
      destruct (Host.getDeviceConfig host _ _) as [c|] eqn:Ec;
        [exact (Htable _ _ c Ec) | reflexivity].
    - unfold Flight.startCapture. rewrite Hen. discriminate. }
  split; [exact Hlay|].
  unfold Flight.onData, onHidData. fold s. rewrite Hlay.
  unfold sendRawState, windowLive. cbn.
  destruct (Service.mainWindow s) as [w|]; [|reflexivity].
  destruct (Window.isDestroyed w); reflexivity.
Qed.

Lemma X15_witness :
  snd (Flight.onData xinput
         (snd (fst (Flight.startCapture plainHost
                      (Flight.setMainWindow (Flight.construct true 1)
                         (Some (Window.mk false)))
                      "hid1")))
         [x0a; x0b]%byte)
  = [Emit (FLIGHT_STATE_UPDATE
             (ControlsState.mk true "T.Flight"%string [] [] (-1)
                [x0a; x0b]%byte))].
Proof.
  destruct (X15_unknown_device_raw xinput plainHost
              (Flight.setMainWindow (Flight.construct true 1)
                 (Some (Window.mk false)))
              "hid1" [x0a; x0b]%byte) as [_ H].
  - reflexivity.
  - intros v p c Hc. discriminate.
  - reflexivity.
  - rewrite H. reflexivity.
Defined.

(** ** Invariants of the life cycle *)

Lemma truthy_stopped (this : Service.t) :
  Js.truthy (Service.devicePath (fst (stopCapture this))) = false.
Proof.
  rewrite stopCapture_form. cbn.
  destruct (Js.truthy (Service.devicePath this)) eqn:E; [reflexivity | exact E].
Qed.

Lemma stopCapture_keeps (this : Service.t) :
  Service.enabled (fst (stopCapture this)) = Service.enabled this
  /\ Service.controllerSlot (fst (stopCapture this))
     = Service.controllerSlot this
  /\ Service.mainWindow (fst (stopCapture this)) = Service.mainWindow this
  /\ Service.device (fst (stopCapture this)) = None.
Proof. rewrite stopCapture_form. cbn. repeat split. Qed.

Lemma Flight_stopCapture_inv (this : Flight.t) :
  serviceInv this -> serviceInv (fst (Flight.stopCapture this)).
Proof.
  unfold serviceInv. intros (Hs & Hd & Ht & Hp).
  rewrite Flight_stopCapture_form. cbn [fst Flight.withService Flight.service
                                        Flight.hotplugTimer].
  destruct (stopCapture_keeps (Flight.service this)) as (He & Hslot & _ & Hdev).
  rewrite He, Hslot, Hdev, truthy_stopped.
  repeat split; try lia; try (intros; congruence); exact Ht.
Qed.

Lemma stopHotplugScan_inv (this : Flight.t) :
  serviceInv this -> serviceInv (fst (Flight.stopHotplugScan this)).
Proof.
  unfold serviceInv, Flight.stopHotplugScan. intros (Hs & Hd & Ht & Hp).
  destruct (Flight.hotplugTimer this) eqn:E; cbn; rewrite ?E;
    repeat split; try lia; try assumption; intros; congruence.
Qed.

Lemma startHotplugScan_inv (this : Flight.t) :
  Service.enabled (Flight.service this) = true ->
  serviceInv this -> serviceInv (fst (Flight.startHotplugScan this)).
Proof.
  unfold serviceInv, Flight.startHotplugScan, Flight.stopHotplugScan.
  intros Hen (Hs & Hd & Ht & Hp).
  destruct (Flight.hotplugTimer this); cbn;
    repeat split; try lia; try assumption; intros; congruence.
Qed.

Lemma clampSlot_range (slot : Z) : 0 <= Flight.clampSlot slot <= 3.
Proof. unfold Flight.clampSlot. lia. Qed.

Lemma updateConfig_inv (this : Flight.t) (enabled : bool) (slot : Z) :
  serviceInv this -> serviceInv (fst (Flight.updateConfig this enabled slot)).
Proof.
  intros (Hs & Hd & Ht & Hp). unfold Flight.updateConfig.
  pose proof (clampSlot_range slot) as Hc.
  destruct enabled, (Service.enabled (Flight.service this)) eqn:Hwas;
    cbn [negb andb].
  - (* stays enabled *)
    unfold serviceInv. cbn.
    repeat split; try lia; try assumption; intros; congruence.
  - (* switched on *)
    unfold Flight.startHotplugScan, Flight.stopHotplugScan.
    cbn [Flight.withService Flight.hotplugTimer].
    destruct (Flight.hotplugTimer this); unfold serviceInv; cbn;
      repeat split; try lia; try assumption; intros; congruence.
  - (* switched off *)
    rewrite Flight_stopCapture_form. unfold Flight.stopHotplugScan.
    cbn [Flight.withService Flight.hotplugTimer Flight.service].
    set (s1 := setConfig false (Flight.clampSlot slot) (Flight.service this)).
    destruct (stopCapture_keeps s1) as (He & Hslot & _ & Hdev).
    pose proof (truthy_stopped s1) as Htr.
    destruct (Flight.hotplugTimer this) eqn:Etimer; unfold serviceInv;
      cbn [fst Flight.withService Flight.withTimer Flight.service
           Flight.hotplugTimer];
      rewrite He, Hslot, Hdev, Htr, ?Etimer; unfold s1; cbn;
      repeat split; try lia; try (intros; congruence).
  - (* stays disabled *)
    unfold serviceInv. cbn.
    repeat split; try lia; assumption.
Qed.

Lemma startCapture_inv host (this : Flight.t) devicePath :
  serviceInv this ->
  serviceInv (snd (fst (Flight.startCapture host this devicePath))).
Proof.
  intro Hinv.
  destruct (Service.enabled (Flight.service this)) eqn:Hen.
  - rewrite (startCapture_enabled host this devicePath Hen).
    pose proof (Flight_stopCapture_inv this Hinv) as Hstop.
    rewrite Flight_stopCapture_form in Hstop. cbn [fst] in Hstop.
    destruct Hstop as (Hs & Hd & Ht & Hp). cbn [Flight.withService
      Flight.service Flight.hotplugTimer] in Hs, Hd, Ht, Hp.
    destruct (stopCapture_keeps (Flight.service this)) as (He & _).
    assert (Hon : Service.enabled (fst (stopCapture (Flight.service this)))
                  = true) by congruence.
    destruct (Host.devices host) as [devs|].
    + destruct (find (pathIs devicePath) devs) as [raw|].
      * destruct (Host.openDevice host devicePath) as [d|]; cbn [fst snd].
        -- unfold serviceInv. cbn.
           repeat split; try lia; try assumption; intros; congruence.
        -- unfold serviceInv, Flight.openFailed. cbn.
           repeat split; try lia; try assumption; intros; congruence.
      * cbn [fst snd]. unfold serviceInv.
        cbn [Flight.withService Flight.service Flight.hotplugTimer].
        repeat split; try lia; assumption.
    + cbn [fst snd]. unfold serviceInv, Flight.openFailed. cbn.
      repeat split; try lia; try assumption; intros; congruence.
  - unfold Flight.startCapture. rewrite Hen. exact Hinv.
Qed.

Lemma onData_keeps K (this : Flight.t) data :
  let this' := fst (Flight.onData K this data) in
  Service.device (Flight.service this') = Service.device (Flight.service this)
  /\ Service.devicePath (Flight.service this')
     = Service.devicePath (Flight.service this)
  /\ Service.enabled (Flight.service this')
     = Service.enabled (Flight.service this)
  /\ Service.controllerSlot (Flight.service this')
     = Service.controllerSlot (Flight.service this)
  /\ Flight.hotplugTimer this' = Flight.hotplugTimer this.
Proof.
  unfold Flight.onData, onHidData.
  destruct (Service.reportLayout (Flight.service this)) as [layout|].
  - destruct (Service.profile (Flight.service this)) as [profile|].
    + destruct (parseReport data layout) as [parsed|]; cbn [Js.bind];
        [|cbn; repeat split].
      cbv zeta. destruct (hasGamepadStateChanged _ _); cbn; repeat split.
    + cbn. repeat split.
  - cbn. repeat split.
Qed.

Lemma step_inv K (this : Flight.t) (op : Op) :
  serviceInv this -> serviceInv (fst (step K this op)).
Proof.
  intro Hinv. destruct op; cbn [step].
  - destruct Hinv as (Hs & Hd & Ht & Hp). unfold serviceInv. cbn.
    repeat split; try lia; assumption.
  - apply updateConfig_inv. exact Hinv.
  - unfold Flight.initialize.
    destruct (Service.enabled (Flight.service this)) eqn:Hen;
      [apply startHotplugScan_inv; assumption | exact Hinv].
  - pose proof (startCapture_inv host this devicePath Hinv) as H.
    destruct (Flight.startCapture host this devicePath) as [[ok t] c]. exact H.
  - apply Flight_stopCapture_inv. exact Hinv.
  - unfold Flight.dispose.
    set (this1 := Flight.mk _ _ _ _ true).
    assert (H1 : serviceInv this1) by exact Hinv.
    pose proof (Flight_stopCapture_inv this1 H1) as H2.
    destruct (Flight.stopCapture this1) as [t2 c2]. cbn [fst] in H2.
    pose proof (stopHotplugScan_inv t2 H2) as H3.
    destruct (Flight.stopHotplugScan t2) as [t3 c3]. exact H3.
  - destruct (onData_keeps K this data) as (Hdev & Hpath & Hen & Hslot & Htim).
    destruct Hinv as (Hs & Hd & Ht & Hp). unfold serviceInv.
    rewrite Hdev, Hpath, Hen, Hslot, Htim. repeat split; try lia; assumption.
  - apply Flight_stopCapture_inv. exact Hinv.
  - exact Hinv.
Qed.

Lemma run_inv K (ops : list Op) (this : Flight.t) :
  serviceInv this -> serviceInv (fst (run K ops this)).
Proof.
  revert this. induction ops as [|op ops IH]; intros this Hinv; [exact Hinv|].
  cbn [run]. pose proof (step_inv K this op Hinv) as H1.
  destruct (step K this op) as [t1 c1]. cbn [fst] in H1.
  specialize (IH t1 H1). destruct (run K ops t1) as [t2 c2]. exact IH.
Qed.

(** X16. Whatever sequence of method calls, device events and timer ticks
    a service goes through after its construction: the controller slot
    stays within 0..3, a disabled service holds no open handle, the hotplug
    timer is armed only while the service is enabled, and a non-empty
    device path is recorded only while a handle is open. *)
Theorem X16_life_cycle_invariant :
  forall (K : InputConstants) (enabled : bool) (slot : Z) (ops : list Op),
    serviceInv (fst (run K ops (Flight.construct enabled slot))).
Proof.
  intros K enabled slot ops. apply run_inv.
  unfold serviceInv, Flight.construct. cbn.
  pose proof (clampSlot_range slot).
  repeat split; try lia; intros; congruence.
Qed.

(** ** Handles and timers are never leaked *)








(** ** Every message is well formed *)









(** ** Disposal and reconfiguration *)

(** X19. [dispose] works in any state: it marks the service disposed,
    leaves no handle open and no timer armed, and a second [dispose] does
    nothing.  The [disposed] flag itself only silences the timer callback:
    [startCapture] does not read it, so on an enabled service it returns
    the same answer, binds the same device and makes the same calls whether
    or not the service was disposed. *)
Theorem X19_dispose :
  forall (this : Flight.t),
    let this' := fst (Flight.dispose this) in
    Flight.disposed this' = true
    /\ Flight.isCapturing this' = false
    /\ Flight.hotplugTimer this' = None
    /\ Flight.dispose this' = (this', [])
    /\ (forall enumeration, Flight.hotplugTick enumeration this' = None)
    /\ (forall host devicePath b,
           let r := Flight.startCapture host this devicePath in
           let rb := Flight.startCapture host (withDisposed b this) devicePath in
           fst (fst rb) = fst (fst r)
           /\ Flight.service (snd (fst rb)) = Flight.service (snd (fst r))
           /\ snd rb = snd r).
Proof.
  intro this.
  assert (Hform : Flight.dispose this
    = (Flight.mk (fst (stopCapture (Flight.service this)))
         (Flight.deviceVendorId this) (Flight.deviceProductId this) None true,
       map Emit (snd (stopCapture (Flight.service this)))
         ++ match Flight.hotplugTimer this with
            | Some _ => [ClearInterval]
            | None => []
            end)).
  { unfold Flight.dispose. rewrite Flight_stopCapture_form.
    unfold Flight.stopHotplugScan. cbn.
    destruct (Flight.hotplugTimer this); reflexivity. }
  cbv zeta. rewrite Hform. cbn [fst].
  split; [reflexivity|]. split.
  { unfold Flight.isCapturing. cbn.
    apply (proj1 (stopCapture_twice (Flight.service this))). }
  split; [reflexivity|]. split.
  { unfold Flight.dispose. rewrite Flight_stopCapture_form.
    unfold Flight.stopHotplugScan. cbn.
    rewrite (proj2 (stopCapture_twice (Flight.service this))). reflexivity. }
  split; [reflexivity|].
  intros host devicePath b. unfold Flight.startCapture, withDisposed.
  cbn [Flight.service].
  destruct (negb (Service.enabled (Flight.service this)));
    [repeat split|].
  rewrite !Flight_stopCapture_form. cbn [Flight.service Flight.withService].
  destruct (Host.devices host) as [devs|]; [|repeat split].
  destruct (find (pathIs devicePath) devs) as [raw|]; [|repeat split].
  destruct (Host.openDevice host devicePath) as [d|]; repeat split.
Qed.

(** X20. [updateConfig] with an unchanged [enabled] flag only replaces the
    controller slot, clamped to 0..3: it makes no call, and a running
    capture and the timer are left as they are.  Disabling an enabled
    service stops the capture exactly as [stopCapture] does on the service
    with the new slot, then clears the timer if one is armed, and leaves
    the service idle without a timer. *)
Theorem X20_updateConfig :
  forall (this : Flight.t) (slot : Z),
    let s := Flight.service this in
    let reslotted := fun enabled =>
      Flight.withService (setConfig enabled (Flight.clampSlot slot) s) this in
    Flight.updateConfig this (Service.enabled s) slot
    = (reslotted (Service.enabled s), [])
    /\ (Service.enabled s = true ->
        let r := Flight.updateConfig this false slot in
        Flight.isCapturing (fst r) = false
        /\ Flight.hotplugTimer (fst r) = None
        /\ Service.enabled (Flight.service (fst r)) = false
        /\ snd r
           = snd (Flight.stopCapture (reslotted false))
             ++ match Flight.hotplugTimer this with
                | Some _ => [ClearInterval]
                | None => []
                end).
Proof.
  intros this slot s reslotted. split.
  - unfold Flight.updateConfig. fold s.
    destruct (Service.enabled s); reflexivity.
  - intros Hen r. unfold r, Flight.updateConfig. fold s. rewrite Hen.
    cbn [negb andb]. fold (reslotted false).
    rewrite Flight_stopCapture_form. unfold Flight.stopHotplugScan.
    cbn [Flight.withService Flight.hotplugTimer Flight.service fst snd].
    destruct (stopCapture_keeps (Flight.service (reslotted false)))
      as (He & _ & _ & Hdev).
    unfold reslotted in *. cbn [Flight.withService Flight.hotplugTimer
                                 Flight.service] in *.
    destruct (Flight.hotplugTimer this) eqn:Etimer;
      unfold Flight.isCapturing, isCapturing;
      cbn [fst snd Flight.withTimer Flight.service Flight.hotplugTimer
           Flight.withService];
      rewrite ?Hdev, ?He, ?Etimer, ?app_nil_r; repeat split.
Qed.

Lemma X20_witness :
  Flight.isCapturing
    (fst (Flight.updateConfig
            (snd (fst (Flight.startCapture plainHost (Flight.construct true 1)
                         "hid1")))
            false 2))
  = false.
Proof.
  apply (proj2 (X20_updateConfig
                  (snd (fst (Flight.startCapture plainHost
                               (Flight.construct true 1) "hid1"))) 2)).
  reflexivity.
Defined.

(** ** Device enumeration *)

Lemma filter_map_swap {A B} (f : A -> B) (p : B -> bool) (l : list A) :
  filter p (map f l) = map f (filter (fun x => p (f x)) l).
Proof.
  induction l as [|x l IH]; simpl; [reflexivity|].
  destruct (p (f x)); simpl; rewrite IH; reflexivity.
Qed.

Lemma filter_filter {A} (p q : A -> bool) (l : list A) :
  filter q (filter p l) = filter (fun x => p x && q x) l.
Proof.
  induction l as [|x l IH]; simpl; [reflexivity|].
  destruct (p x); simpl; [destruct (q x); simpl|]; rewrite IH; reflexivity.
Qed.

Lemma isNumber_true (x : option Z) (n : Z) :
  isNumber x n = true <-> x = Some n.
Proof.
  unfold isNumber. destruct x as [v|]; [|split; discriminate].
  rewrite Z.eqb_eq. split; congruence.
Qed.

Lemma listed_iff (d : RawDevice.t) :
  isFlightDevice d
  && negb (String.eqb (DeviceInfo.path (toDeviceInfo d)) "") = true
  <-> listed d.
Proof.
  unfold isFlightDevice, listed. cbn [toDeviceInfo DeviceInfo.path].
  rewrite !andb_true_iff, orb_true_iff, !isNumber_true, negb_true_iff.
  rewrite String.eqb_neq.
  split.
  - intros [[Hp Hu] Hpath]. split; [exact Hp|]. split; [exact Hu|].
    destruct (RawDevice.path d) as [p|]; cbn in Hpath; [eauto | congruence].
  - intros (Hp & Hu & p & Hpath & Hne). rewrite Hpath. cbn. auto.
Qed.

(** X21. [getDevices] lists exactly the enumerated devices of usage page 1
    with usage 4 or 5 that have a non-empty path, in enumeration order and
    with missing fields filled in by their defaults; every listed entry
    therefore has a non-empty path.  When the enumeration throws the list is
    empty.  The hotplug tick reports only such a device, and only while the
    service is enabled, not disposed and not capturing. *)
Theorem X21_getDevices :
  (forall devs : list RawDevice.t,
      getDevices (Some devs)
      = map toDeviceInfo
          (filter (fun d =>
                     isFlightDevice d
                     && negb (String.eqb (DeviceInfo.path (toDeviceInfo d)) ""))
                  devs)
      /\ (forall info,
             In info (getDevices (Some devs)) <->
             exists raw, In raw devs /\ listed raw /\ info = toDeviceInfo raw)
      /\ Forall (fun info =>
                   DeviceInfo.path info <> ""%string
                   /\ DeviceInfo.usagePage info = JOYSTICK_USAGE_PAGE
                   /\ (DeviceInfo.usage info = JOYSTICK_USAGE
                       \/ DeviceInfo.usage info = GAMEPAD_USAGE))
                (getDevices (Some devs)))
  /\ getDevices None = []
  /\ (forall enumeration this info,
         Flight.hotplugTick enumeration this = Some info ->
         Flight.disposed this = false
         /\ Service.enabled (Flight.service this) = true
         /\ Flight.isCapturing this = false
         /\ In info (getDevices enumeration)).
Proof.
  assert (Hform : forall devs,
    getDevices (Some devs)
    = map toDeviceInfo
        (filter (fun d =>
                   isFlightDevice d
                   && negb (String.eqb (DeviceInfo.path (toDeviceInfo d)) ""))
                devs)).
  { intro devs. unfold getDevices. rewrite filter_map_swap, filter_filter.
    reflexivity. }
  assert (Hin : forall devs info,
    In info (getDevices (Some devs)) <->
    exists raw, In raw devs /\ listed raw /\ info = toDeviceInfo raw).
  { intros devs info. rewrite Hform, in_map_iff. split.
    - intros (raw & <- & Hf). apply filter_In in Hf as [Hi Hl].
      exists raw. split; [exact Hi|]. split; [|reflexivity].
      apply listed_iff. exact Hl.
    - intros (raw & Hi & Hl & ->). exists raw. split; [reflexivity|].
      apply filter_In. split; [exact Hi | apply listed_iff; exact Hl]. }
  split; [|split; [reflexivity|]].
  - intro devs. split; [apply Hform|]. split; [apply Hin|].
    apply Forall_forall. intros info Hi.
    apply Hin in Hi as (raw & _ & (Hp & Hu & p & Hpath & Hne) & ->).
    cbn [toDeviceInfo DeviceInfo.path DeviceInfo.usagePage DeviceInfo.usage].
    rewrite Hpath, Hp. cbn. split; [exact Hne|]. split; [reflexivity|].
    destruct Hu as [-> | ->]; cbn; auto.
  - intros enumeration this info. unfold Flight.hotplugTick.
    destruct (Flight.disposed this); [discriminate|].
    destruct (Service.enabled (Flight.service this)); [|discriminate].
    cbn [negb orb].
    destruct (Flight.isCapturing this); [discriminate|].
    destruct (getDevices enumeration) as [|d ds]; [discriminate|].
    intro H. injection H as <-. repeat split. left. reflexivity.
Qed.

Lemma X21_witness :
  getDevices (Some [keyboardRaw; stickRaw]) = [toDeviceInfo stickRaw]
  /\ In (toDeviceInfo stickRaw) (getDevices (Some [keyboardRaw; stickRaw])).
Proof.
  destruct X21_getDevices as (Hlist & _ & Htick).
  split.
  - rewrite (proj1 (Hlist [keyboardRaw; stickRaw])). reflexivity.
  - apply (Htick (Some [keyboardRaw; stickRaw]) (Flight.construct true 0)).
    reflexivity.
Defined.

(** ** Editing a profile *)

Lemma assignField_sourceIndex (m : AxisMapping.t) (fv : FieldValue) :
  AxisMapping.sourceIndex (assignField m fv) = AxisMapping.sourceIndex m.
Proof. destruct fv; reflexivity. Qed.

Lemma assignField_twice (m : AxisMapping.t) (fv : FieldValue) :
  assignField (assignField m fv) fv = assignField m fv.
Proof. destruct fv; reflexivity. Qed.

(** X22. [updateAxisMapping] rewrites a profile entry by entry: the list of
    source indices and the button mappings are unchanged, every entry with
    another source index is unchanged, and every entry with the given
    source index, duplicates included, gets the new field value.  An index
    that no entry has leaves the profile as it is, repeating an update
    changes nothing more, updates for different source indices commute,
    and a panel without a profile stays without one. *)
Theorem X22_updateAxisMapping :
  forall (profile : Profile.t) (sourceIndex : nat) (fv : FieldValue),
    exists updated,
      updateAxisMapping (Some profile) sourceIndex fv = Some updated
      /\ Profile.buttonMappings updated = Profile.buttonMappings profile
      /\ map AxisMapping.sourceIndex (Profile.axisMappings updated)
         = map AxisMapping.sourceIndex (Profile.axisMappings profile)
      /\ (forall i m,
             nth_error (Profile.axisMappings profile) i = Some m ->
             nth_error (Profile.axisMappings updated) i
             = Some (if (AxisMapping.sourceIndex m =? sourceIndex)%nat
                     then assignField m fv else m))
      /\ ((forall m, In m (Profile.axisMappings profile) ->
                     AxisMapping.sourceIndex m <> sourceIndex) ->
          updated = profile)
      /\ updateAxisMapping (Some updated) sourceIndex fv = Some updated
      /\ (forall j fv', j <> sourceIndex ->
            updateAxisMapping
              (updateAxisMapping (Some profile) sourceIndex fv) j fv'
            = updateAxisMapping
                (updateAxisMapping (Some profile) j fv') sourceIndex fv)
      /\ updateAxisMapping None sourceIndex fv = None.
Proof.
  intros profile sourceIndex fv. eexists. split; [reflexivity|].
  cbn [Profile.buttonMappings Profile.axisMappings].
  split; [reflexivity|]. split.
  { rewrite map_map. apply map_ext. intro m.
    destruct (negb _); [reflexivity | apply assignField_sourceIndex]. }
  split.
  { intros i m Hi. rewrite nth_error_map, Hi. cbn.
    destruct (AxisMapping.sourceIndex m =? sourceIndex)%nat; reflexivity. }
  split.
  { intro Hnone. destruct profile as [ms bs]. cbn in *. f_equal.
    rewrite <- (map_id ms) at 2. apply map_ext_in. intros m Hm.
    specialize (Hnone m Hm). apply Nat.eqb_neq in Hnone. rewrite Hnone.
    reflexivity. }
  split.
  { cbn. f_equal. f_equal. rewrite map_map. apply map_ext. intro m.
    destruct (AxisMapping.sourceIndex m =? sourceIndex)%nat eqn:E; cbn.
    - rewrite assignField_sourceIndex, E. cbn. apply assignField_twice.
    - rewrite E. reflexivity. }
  split; [|reflexivity].
  intros j fv' Hj. cbn. f_equal. f_equal. rewrite !map_map.
  apply map_ext. intro m.
  destruct (AxisMapping.sourceIndex m =? sourceIndex)%nat eqn:E,
           (AxisMapping.sourceIndex m =? j)%nat eqn:Ej; cbn;
    rewrite ?assignField_sourceIndex, ?E, ?Ej; cbn; try reflexivity.
  apply Nat.eqb_eq in E, Ej. congruence.
Qed.

Lemma X22_witness :
  updateAxisMapping (Some flightProfile) 5 (SetCurve expo) = Some flightProfile
  /\ updateAxisMapping
       (updateAxisMapping (Some flightProfile) 0 (SetDeadzone (1 # 5)))
       1 (SetInverted true)
     = updateAxisMapping
         (updateAxisMapping (Some flightProfile) 1 (SetInverted true))
         0 (SetDeadzone (1 # 5)).
Proof.
  split.
  - destruct (X22_updateAxisMapping flightProfile 5 (SetCurve expo))
      as (updated & Hu & _ & _ & _ & Hnone & _).
    rewrite Hu. f_equal. apply Hnone.
    intros m [<-|[<-|[<-|[<-|[]]]]]; cbn; lia.
  - destruct (X22_updateAxisMapping flightProfile 0 (SetDeadzone (1 # 5)))
      as (updated & _ & _ & _ & _ & _ & _ & Hcomm & _).
    apply Hcomm. lia.
Defined.

Lemma mapAxis_field_agree parsed (a b : Gamepad.t) m tg :
  Gamepad.field tg a = Gamepad.field tg b ->
  Gamepad.field tg (mapAxis parsed a m) = Gamepad.field tg (mapAxis parsed b m).
Proof.
  intro Hab.
  destruct (Nat.leb_spec (List.length (ParsedReport.axes parsed))
                         (AxisMapping.sourceIndex m)) as [Hout|Hin].
  - rewrite !mapAxis_skip by exact Hout. exact Hab.
  - destruct (target_eq_dec (AxisMapping.target m) tg) as [<-|Hne].
    + rewrite !mapAxis_writes by exact Hin. reflexivity.
    + rewrite !mapAxis_other by exact Hne. exact Hab.
Qed.

Lemma fold_mapAxis_frame parsed tg (ms ms' : list AxisMapping.t) :
  Forall2 (fun m m' =>
             m = m' \/ (AxisMapping.target m <> tg
                        /\ AxisMapping.target m' <> tg)) ms ms' ->
  forall a b,
    Gamepad.field tg a = Gamepad.field tg b ->
    Gamepad.field tg (fold_left (mapAxis parsed) ms a)
    = Gamepad.field tg (fold_left (mapAxis parsed) ms' b).
Proof.
  induction 1 as [|m m' ms ms' Hm _ IH]; intros a b Hab; [exact Hab|].
  simpl. apply IH. destruct Hm as [<-|[Hn Hn']].
  - apply mapAxis_field_agree. exact Hab.
  - rewrite !mapAxis_other by assumption. exact Hab.
Qed.

(** X23. An edit reaches only what it names.  After [updateAxisMapping] the
    button mask of the mapped state is the same; an output field is the
    same unless an edited entry targets it before or after the edit; and
    when the edited source index is beyond the axes of the sample the whole
    mapped state is the same. *)
Theorem X23_edit_is_local :
  forall (K : InputConstants) (slot : Z) (parsed : ParsedReport.t)
         (profile updated : Profile.t) (sourceIndex : nat) (fv : FieldValue),
    updateAxisMapping (Some profile) sourceIndex fv = Some updated ->
    Gamepad.buttons (mapToGamepad K slot parsed updated)
    = Gamepad.buttons (mapToGamepad K slot parsed profile)
    /\ (forall tg,
           (forall m, In m (Profile.axisMappings profile) ->
                      AxisMapping.sourceIndex m = sourceIndex ->
                      AxisMapping.target m <> tg
                      /\ AxisMapping.target (assignField m fv) <> tg) ->
           Gamepad.field tg (mapToGamepad K slot parsed updated)
           = Gamepad.field tg (mapToGamepad K slot parsed profile))
    /\ ((List.length (ParsedReport.axes parsed) <= sourceIndex)%nat ->
        mapToGamepad K slot parsed updated
        = mapToGamepad K slot parsed profile).
Proof.
  intros K slot parsed profile updated sourceIndex fv Hup.
  injection Hup as <-. split; [|split].
  - destruct (buttons_closed_form K slot parsed profile) as [-> _].
    destruct (buttons_closed_form K slot parsed
                (Profile.mk
                   (map (fun m =>
                           if negb (AxisMapping.sourceIndex m =? sourceIndex)%nat
                           then m else assignField m fv)
                        (Profile.axisMappings profile))
                   (Profile.buttonMappings profile))) as [-> _].
    reflexivity.
  - intros tg Hfree. unfold mapToGamepad. cbv zeta.
    cbn [Profile.axisMappings Profile.buttonMappings].
    rewrite !foldHat_field, !fold_mapButton_field.
    apply fold_mapAxis_frame; [|reflexivity].
    induction (Profile.axisMappings profile) as [|m ms IH]; [constructor|].
    cbn [map]. constructor.
    + destruct (AxisMapping.sourceIndex m =? sourceIndex)%nat eqn:E; cbn.
      * right. apply Nat.eqb_eq in E.
        destruct (Hfree m (or_introl eq_refl) E) as [H1 H2]. split; assumption.
      * left. reflexivity.
    + apply IH. intros m' Hm'. apply Hfree. right. exact Hm'.
  - intro Hout. unfold mapToGamepad. cbv zeta.
    cbn [Profile.axisMappings Profile.buttonMappings].
    rewrite fold_left_map.
    rewrite (fold_left_ext _ (mapAxis parsed)); [reflexivity|].
    intros s m.
    destruct (AxisMapping.sourceIndex m =? sourceIndex)%nat eqn:E; cbn;
      [|reflexivity].
    apply Nat.eqb_eq in E.
    rewrite !mapAxis_skip; [reflexivity | lia |].
    rewrite assignField_sourceIndex. lia.
Qed.

Lemma X23_witness :
  match updateAxisMapping (Some flightProfile) 7 (SetSensitivity 3) with
  | Some updated =>
      mapToGamepad xinput 0 flightSample updated
      = mapToGamepad xinput 0 flightSample flightProfile
  | None => False
  end.
Proof.
  destruct (updateAxisMapping (Some flightProfile) 7 (SetSensitivity 3))
    as [updated|] eqn:E; [|discriminate].
  apply (proj2 (proj2 (X23_edit_is_local xinput 0 flightSample flightProfile
                         updated 7 (SetSensitivity 3) E))).
  simpl. lia.
Defined.

(** ** Device keys *)

Lemma holdsFrom_sound (f : N -> bool) (fuel : nat) (n : N) :
  holdsFrom f fuel n = true ->
  forall k, (n <= k < n + N.of_nat fuel)%N -> f k = true.
Proof.
  revert n. induction fuel as [|fuel IH]; intros n H k Hk; [lia|].
  cbn [holdsFrom] in H. destruct (f n) eqn:Efn; [|discriminate].
  destruct (N.eq_dec k n) as [->|Hne]; [exact Efn|].
  apply (IH (N.succ n) H). lia.
Qed.

Lemma hex4_16bit (n : N) : (n < 65536)%N -> hex4Ok n = true.
Proof.
  intro H. apply (holdsFrom_sound hex4Ok (N.to_nat 65536) 0).
  - vm_compute. reflexivity.
  - lia.
Qed.

Lemma length4 (s : string) :
  String.length s = 4%nat ->
  exists a b c d, s = String a (String b (String c (String d EmptyString))).
Proof.
  destruct s as [|a [|b [|c [|d [|e s]]]]]; try discriminate.
  intros _. eauto.
Qed.

(** X24. The device key of the panel is reversible on 16-bit ids: for vendor
    and product ids below 65536, [makeVidPid] gives nine characters, four
    hexadecimal digits, a colon and four more digits, from which both ids
    read back; so two devices get the same key only when both ids agree. *)
Theorem X24_makeVidPid :
  forall (vendorId productId : N),
    (vendorId < 65536)%N -> (productId < 65536)%N ->
    String.length (makeVidPid vendorId productId) = 9%nat
    /\ get 4 (makeVidPid vendorId productId) = Some ":"%char
    /\ keyVendor (makeVidPid vendorId productId) = vendorId
    /\ keyProduct (makeVidPid vendorId productId) = productId
    /\ (forall v p, (v < 65536)%N -> (p < 65536)%N ->
          makeVidPid v p = makeVidPid vendorId productId ->
          v = vendorId /\ p = productId).
Proof.
  assert (Hkey : forall v p, (v < 65536)%N -> (p < 65536)%N ->
    String.length (makeVidPid v p) = 9%nat
    /\ get 4 (makeVidPid v p) = Some ":"%char
    /\ keyVendor (makeVidPid v p) = v
    /\ keyProduct (makeVidPid v p) = p).
  { intros v p Hv Hp.
    pose proof (hex4_16bit v Hv) as Ev. pose proof (hex4_16bit p Hp) as Ep.
    unfold hex4Ok in Ev, Ep.
    apply andb_true_iff in Ev as [Lv Rv]. apply andb_true_iff in Ep as [Lp Rp].
    apply Nat.eqb_eq in Lv, Lp. apply N.eqb_eq in Rv, Rp.
    unfold makeVidPid, keyVendor, keyProduct.
    destruct (length4 _ Lv) as (a & b & c & d & Hsv).
    destruct (length4 _ Lp) as (a' & b' & c' & d' & Hsp).
    rewrite Hsv, Hsp in *. cbn [append String.length get substring].
    repeat split; assumption. }
  intros vendorId productId Hv Hp.
  destruct (Hkey vendorId productId Hv Hp) as (H1 & H2 & H3 & H4).
  split; [exact H1|]. split; [exact H2|]. split; [exact H3|].
  split; [exact H4|].
  intros v p Hv' Hp' Heq.
  destruct (Hkey v p Hv' Hp') as (_ & _ & Hkv & Hkp).
  rewrite Heq in Hkv, Hkp. split; congruence.
Qed.

Lemma X24_witness :
  makeVidPid 1103 46727 = "044F:B687"%string
  /\ keyVendor (makeVidPid 1103 46727) = 1103%N.
Proof.
  split; [reflexivity|].
  apply (X24_makeVidPid 1103 46727); reflexivity.
Defined.

(** ** Bytes after the last field *)

Lemma length_append (data extra : Buffer.t) :
  Buffer.length (data ++ extra) = Buffer.length data + Buffer.length extra.
Proof. unfold Buffer.length. rewrite length_app. lia. Qed.

Lemma byteAt_append (data extra : Buffer.t) (i : Z) :
  0 <= i < Buffer.length data ->
  Buffer.byteAt (data ++ extra) i = Buffer.byteAt data i.
Proof.
  unfold Buffer.length, Buffer.byteAt. intro H.
  rewrite app_nth1 by lia. reflexivity.
Qed.

Lemma length_nonneg (data : Buffer.t) : 0 <= Buffer.length data.
Proof. unfold Buffer.length. lia. Qed.

Lemma parseAxis_append data extra offset a :
  AxisField.byteCount a = 1 \/ AxisField.byteCount a = 2 ->
  0 <= offset + AxisField.byteOffset a ->
  offset + AxisField.byteOffset a + AxisField.byteCount a
    <= Buffer.length data ->
  parseAxis (data ++ extra) offset a = parseAxis data offset a.
Proof.
  intros Hc Hlo Hhi. pose proof (length_nonneg extra) as He.
  unfold parseAxis. rewrite length_append.
  destruct (Z.gtb_spec (offset + AxisField.byteOffset a + AxisField.byteCount a)
                       (Buffer.length data + Buffer.length extra)); [lia|].
  destruct (Z.gtb_spec (offset + AxisField.byteOffset a + AxisField.byteCount a)
                       (Buffer.length data)); [lia|].
  unfold Buffer.readUInt8, Buffer.readUInt16LE, Buffer.readUInt16BE.
  rewrite length_append.
  destruct Hc as [Hc|Hc]; rewrite Hc in *.
  - cbn [Z.eqb Pos.eqb]. rewrite byteAt_append by lia.
    do 2 read_in_range. reflexivity.
  - cbn [Z.eqb Pos.eqb]. rewrite !byteAt_append by lia.
    do 2 read_in_range. reflexivity.
Qed.

Lemma parseButton_append data extra offset b :
  0 <= offset + ButtonField.byteOffset b < Buffer.length data ->
  parseButton (data ++ extra) offset b = parseButton data offset b.
Proof.
  intro H. pose proof (length_nonneg extra) as He.
  unfold parseButton. rewrite length_append.
  destruct (Z.geb_spec (offset + ButtonField.byteOffset b)
                       (Buffer.length data + Buffer.length extra)); [lia|].
  destruct (Z.geb_spec (offset + ButtonField.byteOffset b)
                       (Buffer.length data)); [lia|].
  unfold Buffer.readUInt8. rewrite length_append, byteAt_append by lia.
  do 2 read_in_range. reflexivity.
Qed.

Lemma parseHat_append data extra offset h :
  0 <= offset + HatField.byteOffset h < Buffer.length data ->
  parseHat (data ++ extra) offset (Some h) = parseHat data offset (Some h).
Proof.
  intro H. pose proof (length_nonneg extra) as He.
  unfold parseHat. rewrite length_append.
  destruct (Z.ltb_spec (offset + HatField.byteOffset h)
                       (Buffer.length data + Buffer.length extra)); [|lia].
  destruct (Z.ltb_spec (offset + HatField.byteOffset h)
                       (Buffer.length data)); [|lia].
  unfold Buffer.readUInt8. rewrite length_append, byteAt_append by lia.
  do 2 read_in_range. reflexivity.
Qed.

(** X25. Bytes after the last field are ignored: when every field of a
    layout of the data model lies within the buffer, appending any bytes to
    the buffer does not change the decoded report. *)
Theorem X25_trailing_bytes_ignored :
  forall (data extra : Buffer.t) (layout : Layout.t),
    layoutOk layout = true ->
    fieldsWithin data layout = true ->
    parseReport (data ++ extra) layout = parseReport data layout.
Proof.
  intros data extra layout Hok Hin.
  unfold layoutOk, fieldsOk in Hok.
  apply andb_true_iff in Hok as [Hok _].
  apply andb_true_iff in Hok as [Hax _].
  rewrite forallb_forall in Hax.
  unfold fieldsWithin in Hin. cbv zeta in Hin.
  apply andb_true_iff in Hin as [Hin Hhat].
  apply andb_true_iff in Hin as [Hwa Hwb].
  rewrite forallb_forall in Hwa, Hwb.
  unfold parseReport. cbv zeta.
  rewrite (forPush_ext (parseAxis (data ++ extra) (baseOffset layout))
                       (parseAxis data (baseOffset layout))).
  2:{ intros a Ha. specialize (Hax a Ha). specialize (Hwa a Ha).
      unfold axisFieldOk in Hax. apply andb_true_iff in Hax as [_ Hc].
      apply andb_true_iff in Hwa as [Hlo Hhi].
      apply Z.leb_le in Hlo, Hhi.
      apply parseAxis_append; [|exact Hlo | exact Hhi].
      apply orb_true_iff in Hc as [Hc|Hc]; apply Z.eqb_eq in Hc; auto. }
  rewrite (forPush_ext (parseButton (data ++ extra) (baseOffset layout))
                       (parseButton data (baseOffset layout))).
  2:{ intros b Hb. specialize (Hwb b Hb).
      apply andb_true_iff in Hwb as [Hlo Hhi].
      apply Z.leb_le in Hlo. apply Z.ltb_lt in Hhi.
      apply parseButton_append. lia. }
  destruct (Layout.hat layout) as [h|]; [|reflexivity].
  apply andb_true_iff in Hhat as [Hlo Hhi].
  apply Z.leb_le in Hlo. apply Z.ltb_lt in Hhi.
  rewrite parseHat_append by lia. reflexivity.
Qed.

Lemma X25_witness :
  parseReport ([xff; x02; x81] ++ [x55; xaa])%byte
    (Layout.mk false [AxisField.mk 0 2 true true 0 (1023 # 1)]
               [ButtonField.mk 2 0] (Some (HatField.mk 2 4 4 8)))
  = Some (ParsedReport.mk [767 # 1023]%Q [true] (-1)).
Proof.
  rewrite (X25_trailing_bytes_ignored [xff; x02; x81]%byte [x55; xaa]%byte
             (Layout.mk false [AxisField.mk 0 2 true true 0 (1023 # 1)]
                        [ButtonField.mk 2 0] (Some (HatField.mk 2 4 4 8)))
             eq_refl eq_refl).
  vm_compute. reflexivity.
Defined.

(** ** A disconnect is always followed by the neutral state *)

Lemma disconnectsPaired_app (a b : list Call) :
  disconnectsPaired a -> disconnectsPaired b -> disconnectsPaired (a ++ b).
Proof.
  intros Ha Hb.
  assert (H : forall n (l : list Call),
             (List.length l <= n)%nat ->
             disconnectsPaired l -> disconnectsPaired (l ++ b)).
  { induction n as [|n IH]; intros l Hlen Hl.
    - destruct l; [exact Hb | simpl in Hlen; lia].
    - destruct l as [|c l]; [exact Hb|].
      simpl in Hlen.
      destruct c as [e| | |]; try (cbn in *; apply IH; [lia | exact Hl]).
      destruct e as [d|st|g]; try (cbn in *; apply IH; [lia | exact Hl]).
      cbn [app disconnectsPaired] in *.
      destruct (ControlsState.connected st); [apply IH; [lia | exact Hl]|].
      destruct l as [|c' l']; [contradiction|].
      destruct c' as [e'| | |]; try contradiction.
      destruct e' as [d'|st'|g']; try contradiction.
      cbn [app]. destruct Hl as [Hg Hl]. split; [exact Hg|].
      apply IH; [simpl in Hlen; lia | exact Hl]. }
  apply (H (List.length a)); [lia | exact Ha].
Qed.

Lemma stop_paired (s : Service.t) :
  disconnectsPaired (map Emit (snd (stopCapture s))).
Proof.
  rewrite stopCapture_form. cbn [snd].
  destruct (Service.device s); destruct (Js.truthy _); cbn; try exact I;
    destruct (windowLive s); cbn; try exact I;
    (split; [|exact I]); (split; [reflexivity|]);
    unfold controlsDiffer; cbn; intuition congruence.
Qed.

Lemma connected_paired (s : Service.t) :
  disconnectsPaired (map Emit (sendConnectedState s true)).
Proof.
  unfold sendConnectedState. destruct (negb (windowLive s)); cbn; exact I.
Qed.

Lemma onData_paired K (this : Flight.t) data :
  disconnectsPaired (snd (Flight.onData K this data)).
Proof.
  unfold Flight.onData, onHidData, emitStateUpdate, emitGamepadState,
    sendRawState.
  destruct (Service.reportLayout (Flight.service this)) as [layout|].
  - destruct (Service.profile (Flight.service this)) as [profile|].
    + destruct (parseReport data layout) as [parsed|]; cbn [Js.bind];
        [|exact I].
      cbv zeta. destruct (hasGamepadStateChanged _ _); cbn;
        destruct (negb _); cbn; exact I.
    + cbn. destruct (negb _); cbn; exact I.
  - cbn. destruct (negb _); cbn; exact I.
Qed.

Lemma scan_paired (this : Flight.t) :
  disconnectsPaired (snd (Flight.stopHotplugScan this))
  /\ disconnectsPaired (snd (Flight.startHotplugScan this)).
Proof.
  unfold Flight.startHotplugScan, Flight.stopHotplugScan.
  destruct (Flight.hotplugTimer this); cbn; split; exact I.
Qed.

Lemma step_paired K (this : Flight.t) (op : Op) :
  disconnectsPaired (snd (step K this op)).
Proof.
  destruct op; cbn [step].
  - exact I.
  - unfold Flight.updateConfig.
    set (t1 := Flight.withService _ this). clearbody t1.
    destruct (negb enabled && Service.enabled (Flight.service this)).
    + pose proof (stop_paired (Flight.service t1)) as Hm.
      rewrite Flight_stopCapture_form.
      destruct (scan_paired
                  (Flight.withService (fst (stopCapture (Flight.service t1))) t1))
        as [Hoff _].
      destruct (Flight.stopHotplugScan _) as [t3 c3]. cbn [snd] in Hoff.
      destruct (enabled && negb (Service.enabled (Flight.service this))).
      * destruct (scan_paired t3) as [_ Hon].
        destruct (Flight.startHotplugScan t3) as [t4 c4]. cbn [snd] in *.
        repeat apply disconnectsPaired_app; assumption.
      * cbn [snd]. rewrite app_nil_r.
        apply disconnectsPaired_app; assumption.
    + destruct (enabled && negb (Service.enabled (Flight.service this))).
      * destruct (scan_paired t1) as [_ Hon].
        destruct (Flight.startHotplugScan t1) as [t4 c4]. exact Hon.
      * exact I.
  - unfold Flight.initialize.
    destruct (Service.enabled (Flight.service this)); [|exact I].
    apply scan_paired.
  - destruct (Service.enabled (Flight.service this)) eqn:Hen.
    + rewrite (startCapture_enabled host this devicePath Hen).
      pose proof (stop_paired (Flight.service this)) as Hm.
      destruct (Host.devices host) as [devs|]; [|exact Hm].
      destruct (find (pathIs devicePath) devs) as [raw|]; [|exact Hm].
      destruct (Host.openDevice host devicePath) as [d|]; [|exact Hm].
      cbn [snd]. apply disconnectsPaired_app; [exact Hm|].
      cbn [app disconnectsPaired]. apply connected_paired.
    + unfold Flight.startCapture. rewrite Hen. exact I.
  - rewrite Flight_stopCapture_form. apply stop_paired.
  - unfold Flight.dispose. rewrite Flight_stopCapture_form.
    cbn [Flight.service].
    pose proof (stop_paired (Flight.service this)) as Hm.
    destruct (scan_paired
                (Flight.withService
                   (fst (stopCapture (Flight.service this)))
                   (Flight.mk (Flight.service this) (Flight.deviceVendorId this)
                      (Flight.deviceProductId this) (Flight.hotplugTimer this)
                      true))) as [Hoff _].
    destruct (Flight.stopHotplugScan _) as [t3 c3]. cbn [snd] in *.
    apply disconnectsPaired_app; assumption.
  - apply onData_paired.
  - unfold Flight.handleDeviceDisconnect. rewrite Flight_stopCapture_form.
    apply stop_paired.
  - exact I.
Qed.

(** X26. A disconnect never comes alone.  In the calls of any sequence of
    method calls and events, whatever the state the service starts from,
    every state-update that reports the device disconnected is directly
    followed by a gamepad state that is marked disconnected and has the
    button mask, both triggers and all four stick axes at zero. *)
Theorem X26_disconnect_then_neutral :
  forall (K : InputConstants) (ops : list Op) (this : Flight.t),
    disconnectsPaired (snd (run K ops this)).
Proof.
  intros K ops. induction ops as [|op ops IH]; intro this; [exact I|].
  cbn [run]. pose proof (step_paired K this op) as H1.
  destruct (step K this op) as [t1 c1]. cbn [snd] in H1.
  specialize (IH t1). destruct (run K ops t1) as [t2 c2]. cbn [snd] in *.
  apply disconnectsPaired_app; assumption.
Qed.
